(** * Python_module_05: stages, pipelines, the Nexus manager and their
      collaborators, embedded from the Python sources.

    The repository holds three variants of the pipeline framework
    ([ex.py], [ex3.py], [nexus_pipeline.py]) and two collaborating
    programs ([stream_processor.py], [data_stream.py]).  Each source file
    is embedded in a module of its own, named after the file, on top of a
    common model of Python values, of [print] and of exceptions.

    Conventions of the embedding:
    - a function that prints or raises is a computation in [IO]: the lines
      it sends to standard output, and the value it returns or the
      exception it raises;
    - a method that may assign to the fields of [self] is a [method]: it
      also yields the object after the call; where one object can be
      reached twice (the streams of [process_streams]) the objects live in
      a store and are passed by reference;
    - a [dict] has text keys and keeps its insertion order; item assignment
      is an update of the dict value, which the Python code shares with its
      caller;
    - arithmetic on floats ([float()], [>], [/]) is a parameter of the
      sections that use it. *)

From Stdlib Require Import ZArith List String Ascii Bool Lia.
From Stdlib Require Import DecimalString.
Import ListNotations.
Open Scope string_scope.
Open Scope Z_scope.
Set Warnings "-register-all".

(** ** Python values *)

(** A [float] is represented by its [repr], the shortest decimal text that
    reads back as the same double ([23.5] is ["23.5"], [65.0] is ["65.0"]):
    this is what [str()] and an f-string print for it.  A [str] is the
    sequence of bytes of its UTF-8 encoding.  A [dict] is the list of its
    items in insertion order, with string keys. *)
Inductive value : Type :=
  | VNone
  | VBool (b : bool)
  | VInt (z : Z)
  | VFloat (r : string)
  | VStr (s : string)
  | VList (l : list value)
  | VDict (d : list (string * value)).

Definition record := list (string * value).

(** [not data] is [negb (truthy data)]. *)
Definition truthy (v : value) : bool :=
  match v with
  | VNone => false
  | VBool b => b
  | VInt z => negb (z =? 0)
  | VFloat r => negb ((r =? "0.0")%string || (r =? "-0.0")%string)
  | VStr s => negb (s =? "")%string
  | VList l => match l with [] => false | _ => true end
  | VDict d => match d with [] => false | _ => true end
  end.

Definition isinstance_dict (v : value) : bool :=
  match v with VDict _ => true | _ => false end.

Definition isinstance_str (v : value) : bool :=
  match v with VStr _ => true | _ => false end.

(** The dict, or the text, behind a value already tested with
    [isinstance]. *)
Definition as_dict (v : value) : record :=
  match v with VDict d => d | _ => [] end.

Definition as_str (v : value) : string :=
  match v with VStr s => s | _ => "" end.

(** ** Strings: [c in s], [s.split(c)], [sep.join(l)] for a one-character [c] *)

Fixpoint contains_char (c : ascii) (s : string) : bool :=
  match s with
  | EmptyString => false
  | String a s' => Ascii.eqb a c || contains_char c s'
  end.

Fixpoint str_split (c : ascii) (s : string) : list string :=
  match s with
  | EmptyString => [EmptyString]
  | String a s' =>
      if Ascii.eqb a c then EmptyString :: str_split c s'
      else match str_split c s' with
           | h :: t => String a h :: t
           | [] => [String a EmptyString]
           end
  end.

Fixpoint str_join (sep : string) (l : list string) : string :=
  match l with
  | [] => ""
  | [x] => x
  | x :: rest => x ++ sep ++ str_join sep rest
  end.

(** ** Dictionaries *)

Fixpoint dict_get (k : string) (d : record) : option value :=
  match d with
  | [] => None
  | (k', v) :: rest => if (k' =? k)%string then Some v else dict_get k rest
  end.

(** [k in d] *)
Definition dict_mem (k : string) (d : record) : bool :=
  match dict_get k d with Some _ => true | None => false end.

(** [d[k] = v]: an existing key keeps its place, a new key goes last. *)
Fixpoint dict_set (k : string) (v : value) (d : record) : record :=
  match d with
  | [] => [(k, v)]
  | (k', v') :: rest =>
      if (k' =? k)%string then (k', v) :: rest
      else (k', v') :: dict_set k v rest
  end.

Definition keys (d : record) : list string := map fst d.

(** [d.get(k)]: [None] when the key is missing. *)
Definition dict_get_default (k : string) (d : record) : value :=
  match dict_get k d with Some v => v | None => VNone end.

(** ** [str()] and [repr()] *)

Definition str_of_Z (z : Z) : string := NilZero.string_of_int (Z.to_int z).

Definition hex_digit (n : N) : ascii :=
  if (n <? 10)%N then ascii_of_N (48 + n) else ascii_of_N (87 + n).

Definition hex_escape (n : N) : string :=
  String "\"%char (String "x"%char
    (String (hex_digit (n / 16)) (String (hex_digit (n mod 16)) ""))).

(** One ASCII character of the [repr] of a string quoted with [q]; a byte
    from 128 up belongs to the encoding of a character beyond ASCII. *)
Definition repr_char (q : ascii) (c : ascii) : string :=
  let n := N_of_ascii c in
  if Ascii.eqb c q || Ascii.eqb c "\"%char then String "\"%char (String c "")
  else if (n =? 9)%N then "\t"
  else if (n =? 10)%N then "\n"
  else if (n =? 13)%N then "\r"
  else if (n <? 32)%N || (n =? 127)%N then hex_escape n
  else String c "".

(** The characters U+0080 to U+00BF are encoded on two bytes, 194 and the
    code of the character.  [repr] escapes those that are not printable:
    the controls U+0080 to U+009F, the no-break space U+00A0 and the soft
    hyphen U+00AD. *)
Definition escaped_latin1 (c1 c2 : ascii) : bool :=
  let n := N_of_ascii c2 in
  ((N_of_ascii c1 =? 194)%N
   && (((128 <=? n)%N && (n <=? 160)%N) || (n =? 173)%N))%bool.

(** The characters of the [repr]: the escapes of ASCII and of the range
    U+0080 to U+00FF are those of Python; a character beyond U+00FF is
    kept as it is, which is what [repr] does when it is printable. *)
Fixpoint repr_chars (q : ascii) (s : string) : string :=
  match s with
  | EmptyString => ""
  | String c s' =>
      match s' with
      | String c2 s'' =>
          if escaped_latin1 c c2
          then hex_escape (N_of_ascii c2) ++ repr_chars q s''
          else repr_char q c ++ repr_chars q s'
      | EmptyString => repr_char q c
      end
  end.

(** The double quote character *)
Definition dquote : ascii := ascii_of_N 34.

(** Single quotes, unless the text has a single quote and no double one. *)
Definition repr_str (s : string) : string :=
  let q := if contains_char "'"%char s && negb (contains_char dquote s)
           then dquote else "'"%char in
  String q (repr_chars q s ++ String q "").

Fixpoint py_repr (v : value) : string :=
  match v with
  | VNone => "None"
  | VBool true => "True"
  | VBool false => "False"
  | VInt z => str_of_Z z
  | VFloat r => r
  | VStr s => repr_str s
  | VList l => "[" ++ str_join ", " (map py_repr l) ++ "]"
  | VDict d =>
      "{" ++ str_join ", "
               (map (fun kv => repr_str (fst kv) ++ ": " ++ py_repr (snd kv)) d)
          ++ "}"
  end.

(** [str(v)], which is also what [f"{v}"] interpolates. *)
Definition py_str (v : value) : string :=
  match v with
  | VStr s => s
  | _ => py_repr v
  end.

(** ** Effects: [print] and exceptions *)

Inductive exn : Type :=
  | ValueError (msg : string)
  | KeyError (key : string)
  | TypeError (msg : string)
  | ZeroDivisionError (msg : string).

Inductive outcome (A : Type) : Type :=
  | Return (a : A)
  | Raise (e : exn).
Arguments Return {A} a.
Arguments Raise {A} e.

(** A computation yields the lines it printed, in order, and how it ended. *)
Definition IO (A : Type) : Type := (list string * outcome A)%type.

Definition ret {A} (a : A) : IO A := ([], Return a).
Definition raise {A} (e : exn) : IO A := ([], Raise e).
Definition print (line : string) : IO unit := ([line], Return tt).

Definition bind {A B} (m : IO A) (f : A -> IO B) : IO B :=
  match m with
  | (out, Return a) => let (out', r) := f a in ((out ++ out')%list, r)
  | (out, Raise e) => (out, Raise e)
  end.

Notation "x <- m ;; k" := (bind m (fun x => k))
  (at level 61, m at next level, right associativity).
Notation "m ;; k" := (bind m (fun _ => k))
  (at level 61, right associativity).

Definition result {A} (m : IO A) : outcome A := snd m.

(** [try: m except Exception: handler] *)
Definition try_except {A} (m : IO A) (handler : exn -> IO A) : IO A :=
  match m with
  | (out, Return a) => (out, Return a)
  | (out, Raise e) => let (out', r) := handler e in ((out ++ out')%list, r)
  end.

(** [d[k]] *)
Definition getitem (k : string) (d : record) : IO value :=
  match dict_get k d with
  | Some v => ret v
  | None => raise (KeyError k)
  end.

(** A method of an object with fields [S]: the object after the call, and
    what the call printed and returned or raised. *)
Definition method (S A : Type) : Type := S -> S * IO A.

(** [payload == s] for a text [s]: only a [str] is equal to a [str]. *)
Definition eq_str (v : value) (s : string) : bool :=
  match v with
  | VStr s' => (s' =? s)%string
  | _ => false
  end.

(** ** ex3.py *)

Module Ex3.

(** [class ProcessingStage(Protocol)]: anything with a [process] method. *)
Record ProcessingStage : Type := { process : value -> IO value }.

Definition InputStage_process (payload : value) : IO value :=
  print ("Input: " ++ py_str payload) ;;
  if negb (truthy payload) then raise (ValueError "Empty data received")
  else ret payload.

(** [payload["status"] = "valid"] updates the caller's dict in place; the
    updated dict is also the value returned. *)
Definition TransformStage_process (payload : value) : IO value :=
  r <- (if isinstance_dict payload && dict_mem "sensor" (as_dict payload)
        then
          ret ("Enriched with metadata and validation",
               VDict (dict_set "status" (VStr "valid") (as_dict payload)))
        else if isinstance_str payload
                && contains_char ","%char (as_str payload)
        then
          let fields := str_split ","%char (as_str payload) in
          ret ("Parsed and structured data",
               VDict [("type", VStr "csv");
                      ("headers", VList (map VStr fields));
                      ("count", VInt 1)])
        else if eq_str payload "INVALID_DATA" then
          raise (ValueError "Invalid data format")
        else
          ret ("Aggregated and filtered", payload)) ;;
  let '(note, payload') := r in
  print ("Transform: " ++ note) ;;
  ret payload'.

Definition OutputStage_process (payload : value) : IO value :=
  let result :=
    if isinstance_dict payload then
      if dict_mem "sensor" (as_dict payload) then
        "Processed temperature reading: "
          ++ py_str (dict_get_default "value" (as_dict payload))
          ++ "°C (Normal range)"
      else if eq_str (dict_get_default "type" (as_dict payload)) "csv" then
        "User activity logged: "
          ++ py_str (dict_get_default "count" (as_dict payload))
          ++ " actions processed"
      else ""
    else "Stream summary: 5 readings, avg: 22.1°C" in
  print ("Output: " ++ result) ;;
  ret (VStr result).

Definition InputStage : ProcessingStage := {| process := InputStage_process |}.
Definition TransformStage : ProcessingStage :=
  {| process := TransformStage_process |}.
Definition OutputStage : ProcessingStage :=
  {| process := OutputStage_process |}.

(** The three concrete subclasses of the abstract [ProcessingPipeline]. *)
Inductive adapter : Type := JSONAdapter | CSVAdapter | StreamAdapter.

Record ProcessingPipeline : Type := {
  class_of : adapter;
  pipeline_id : string;
  stages : list ProcessingStage
}.

Definition isinstance (p : ProcessingPipeline) (c : adapter) : bool :=
  match class_of p, c with
  | JSONAdapter, JSONAdapter => true
  | CSVAdapter, CSVAdapter => true
  | StreamAdapter, StreamAdapter => true
  | _, _ => false
  end.

(** [__init__] *)
Definition new_pipeline (c : adapter) (id : string) : ProcessingPipeline :=
  {| class_of := c; pipeline_id := id; stages := [] |}.

Definition add_stage (stage : ProcessingStage) (self : ProcessingPipeline)
  : ProcessingPipeline :=
  {| class_of := class_of self; pipeline_id := pipeline_id self;
     stages := stages self ++ [stage] |}.

(** The [for] loop of [_run_stages], over the stages still to run. *)
Fixpoint run_from (todo : list ProcessingStage) (current_payload : value)
  : IO value :=
  match todo with
  | [] => ret current_payload
  | stage :: rest =>
      current_payload' <- process stage current_payload ;;
      run_from rest current_payload'
  end.

Definition _run_stages (self : ProcessingPipeline) (payload : value)
  : IO value :=
  run_from (stages self) payload.

(** [process] is the same in the three adapters. *)
Definition pipeline_process (self : ProcessingPipeline) (payload : value)
  : IO value :=
  _run_stages self payload.

Record NexusManager : Type := { pipelines : list ProcessingPipeline }.

Definition new_manager : NexusManager := {| pipelines := [] |}.

Definition add_pipeline (pipeline : ProcessingPipeline) (self : NexusManager)
  : NexusManager :=
  {| pipelines := pipelines self ++ [pipeline] |}.

(** The scan of [process_data]: the pipeline at which the loop breaks. *)
Fixpoint select_pipeline (ps : list ProcessingPipeline) (format_type : string)
  : option ProcessingPipeline :=
  match ps with
  | [] => None
  | pipeline :: rest =>
      if isinstance pipeline JSONAdapter && (format_type =? "json")%string
      then Some pipeline
      else if isinstance pipeline CSVAdapter && (format_type =? "csv")%string
      then Some pipeline
      else if isinstance pipeline StreamAdapter
              && (format_type =? "stream")%string
      then Some pipeline
      else select_pipeline rest format_type
  end.

(** The result of the selected pipeline is dropped: the method returns
    [None] (here [tt]) unless the pipeline raises. *)
Definition process_data (data_packet : value) (format_type : string)
  : method NexusManager unit :=
  fun self =>
    (self,
     match select_pipeline (pipelines self) format_type with
     | Some selected_pipeline =>
         pipeline_process selected_pipeline data_packet ;; ret tt
     | None =>
         print ("[ERROR] No suitable pipeline found for " ++ format_type)
     end).

(** The manager that [main] builds. *)
Definition with_main_stages (p : ProcessingPipeline) : ProcessingPipeline :=
  add_stage OutputStage (add_stage TransformStage (add_stage InputStage p)).

Definition json_pipeline :=
  with_main_stages (new_pipeline JSONAdapter "PIPE_01").
Definition csv_pipeline := with_main_stages (new_pipeline CSVAdapter "PIPE_02").
Definition stream_pipeline :=
  with_main_stages (new_pipeline StreamAdapter "PIPE_03").

Definition main_manager : NexusManager :=
  add_pipeline stream_pipeline
    (add_pipeline csv_pipeline (add_pipeline json_pipeline new_manager)).

End Ex3.

(** ** nexus_pipeline.py *)

Module Nexus.

Record ProcessingStage : Type := { process : value -> IO value }.

Definition InputStage_process (data : value) : IO value :=
  print ("Input: " ++ py_str data) ;;
  if negb (truthy data) then raise (ValueError "Data is empty")
  else ret data.

(** [data["sensor"] = "valid"] updates the caller's dict in place; the
    updated dict is also the value returned. *)
Definition TransformStage_process (data : value) : IO value :=
  r <- (if isinstance_dict data && dict_mem "sensor" (as_dict data) then
          ret ("Enriched with metadata and validation",
               VDict (dict_set "sensor" (VStr "valid") (as_dict data)))
        else if isinstance_str data && contains_char ","%char (as_str data)
        then
          let filtered := str_split ","%char (as_str data) in
          ret ("Parsed and structured data",
               VDict [("type", VStr "csv");
                      ("data", VList (map VStr filtered));
                      ("count", VInt 1)])
        else if isinstance_dict data
                && negb (dict_mem "sensor" (as_dict data))
        then raise (ValueError "Invalid data format")
        else ret ("Aggregated and filtered", data)) ;;
  let '(transformation, data') := r in
  print ("Tranform: " ++ transformation) ;;
  ret data'.

Definition OutputStage_process (data : value) : IO value :=
  result <- (if isinstance_dict data then
               if dict_mem "sensor" (as_dict data) then
                 ret ("Processed temperature reading:"
                        ++ " "
                      ++ py_str (dict_get_default "value" (as_dict data))
                        ++ "°C (Normal range)")
               else
                 type <- getitem "type" (as_dict data) ;;
                 if eq_str type "csv" then
                   ret ("User activity logged: "
                          ++ py_str (dict_get_default "count" (as_dict data))
                          ++ " " ++ "actions processed")
                 else ret "Unknow result"
             else ret "Stream summary: 5 readings, avg: 22.1°C") ;;
  print ("Output: " ++ result) ;;
  ret data.

Definition InputStage : ProcessingStage := {| process := InputStage_process |}.
Definition TransformStage : ProcessingStage :=
  {| process := TransformStage_process |}.
Definition OutputStage : ProcessingStage :=
  {| process := OutputStage_process |}.

Inductive adapter : Type := JSONAdapter | CSVAdapter | StreamAdapter.

Record ProcessingPipeline : Type := {
  class_of : adapter;
  pipeline_id : string;
  stages : list ProcessingStage
}.

Definition isinstance (p : ProcessingPipeline) (c : adapter) : bool :=
  match class_of p, c with
  | JSONAdapter, JSONAdapter => true
  | CSVAdapter, CSVAdapter => true
  | StreamAdapter, StreamAdapter => true
  | _, _ => false
  end.

Definition new_pipeline (c : adapter) (id : string) : ProcessingPipeline :=
  {| class_of := c; pipeline_id := id; stages := [] |}.

Definition add_stage (stage : ProcessingStage) (self : ProcessingPipeline)
  : ProcessingPipeline :=
  {| class_of := class_of self; pipeline_id := pipeline_id self;
     stages := stages self ++ [stage] |}.

(** The [for] loop of [run_stages], over the stages still to run. *)
Fixpoint run_from (todo : list ProcessingStage) (tmp_data : value)
  : IO value :=
  match todo with
  | [] => ret tmp_data
  | stage :: rest =>
      tmp_data' <- process stage tmp_data ;;
      run_from rest tmp_data'
  end.

Definition run_stages (self : ProcessingPipeline) (data : value) : IO value :=
  run_from (stages self) data.

Definition pipeline_process (self : ProcessingPipeline) (data : value)
  : IO value :=
  run_stages self data.

(** The list of pipelines is the field [pipeline]. *)
Record NexusManager : Type := { pipeline : list ProcessingPipeline }.

Definition new_manager : NexusManager := {| pipeline := [] |}.

Definition add_pipeline (p : ProcessingPipeline) (self : NexusManager)
  : NexusManager :=
  {| pipeline := pipeline self ++ [p] |}.

Fixpoint select_pipeline (ps : list ProcessingPipeline) (format : string)
  : option ProcessingPipeline :=
  match ps with
  | [] => None
  | p :: rest =>
      if isinstance p JSONAdapter && (format =? "json")%string then Some p
      else if isinstance p CSVAdapter && (format =? "csv")%string then Some p
      else if isinstance p StreamAdapter && (format =? "stream")%string
      then Some p
      else select_pipeline rest format
  end.

Definition process_data (data : value) (format : string)
  : method NexusManager unit :=
  fun self =>
    (self,
     match select_pipeline (pipeline self) format with
     | Some selected_pipeline =>
         pipeline_process selected_pipeline data ;; ret tt
     | None => print ("[ERROR]: " ++ format ++ " is not a register pipeline")
     end).

(** The manager that [main] builds. *)
Definition with_main_stages (p : ProcessingPipeline) : ProcessingPipeline :=
  add_stage OutputStage (add_stage TransformStage (add_stage InputStage p)).

Definition json_pipeline :=
  with_main_stages (new_pipeline JSONAdapter "PIPELINE_01").
Definition csv_pipeline :=
  with_main_stages (new_pipeline CSVAdapter "PIPELINE_02").
Definition stream_pipeline :=
  with_main_stages (new_pipeline StreamAdapter "PIPELINE_03").

Definition main_manager : NexusManager :=
  add_pipeline stream_pipeline
    (add_pipeline csv_pipeline (add_pipeline json_pipeline new_manager)).

End Nexus.

(** ** Methods that update their object *)

Definition mret {S A} (a : A) : method S A := fun self => (self, ret a).

Definition lift {S A} (m : IO A) : method S A := fun self => (self, m).

(** An exception leaves the object as the failing step left it. *)
Definition mbind {S A B} (m : method S A) (f : A -> method S B)
  : method S B :=
  fun self =>
    match m self with
    | (self1, (out, Return a)) =>
        let '(self2, (out', r)) := f a self1 in (self2, ((out ++ out')%list, r))
    | (self1, (out, Raise e)) => (self1, (out, Raise e))
    end.

Notation "x <~ m ;; k" := (mbind m (fun x => k))
  (at level 61, m at next level, right associativity).
Notation "' pat <~ m ;; k" := (mbind m (fun x => match x with pat => k end))
  (at level 61, pat pattern, m at next level, right associativity).
Notation "m ;;; k" := (mbind m (fun _ => k))
  (at level 61, right associativity).

(** ** More builtins: [x in v], [v[k]], [len(v)] *)

Definition py_type_name (v : value) : string :=
  match v with
  | VNone => "NoneType"
  | VBool _ => "bool"
  | VInt _ => "int"
  | VFloat _ => "float"
  | VStr _ => "str"
  | VList _ => "list"
  | VDict _ => "dict"
  end.

(** [needle in hay] for two texts. *)
Fixpoint contains_sub (needle hay : string) : bool :=
  String.prefix needle hay
  || match hay with
     | EmptyString => false
     | String _ rest => contains_sub needle rest
     end.

(** [x in v] for a text [x]: a part of a text, an item of a list, a key of
    a dict; nothing else can be searched. *)
Definition py_in (x : string) (v : value) : IO bool :=
  match v with
  | VStr s => ret (contains_sub x s)
  | VList l => ret (existsb (fun y => eq_str y x) l)
  | VDict d => ret (dict_mem x d)
  | _ =>
      raise (TypeError
               ("argument of type '" ++ py_type_name v ++ "' is not iterable"))
  end.

(** [v[k]] for a text [k]: only a dict is indexed by a text. *)
Definition py_getitem (v : value) (k : string) : IO value :=
  match v with
  | VDict d => getitem k d
  | VStr _ => raise (TypeError "string indices must be integers, not 'str'")
  | VList _ =>
      raise (TypeError "list indices must be integers or slices, not str")
  | _ =>
      raise (TypeError
               ("'" ++ py_type_name v ++ "' object is not subscriptable"))
  end.

(** The characters of a text are counted by the bytes that start one. *)
Definition is_continuation_byte (c : ascii) : bool :=
  let n := N_of_ascii c in (128 <=? n)%N && (n <? 192)%N.

Fixpoint str_len (s : string) : Z :=
  match s with
  | EmptyString => 0
  | String c s' => (if is_continuation_byte c then 0 else 1) + str_len s'
  end.

(** [len(v)] *)
Definition py_len (v : value) : IO Z :=
  match v with
  | VStr s => ret (str_len s)
  | VList l => ret (Z.of_nat (List.length l))
  | VDict d => ret (Z.of_nat (List.length d))
  | _ =>
      raise (TypeError
               ("object of type '" ++ py_type_name v ++ "' has no len()"))
  end.

(** [data == 0]: the zeros of the three number types. *)
Definition eq_zero (data : value) : bool :=
  match data with
  | VInt z => z =? 0
  | VBool b => negb b
  | VFloat r => (r =? "0.0")%string || (r =? "-0.0")%string
  | _ => false
  end.

(** ** stream_processor.py *)

Module StreamProcessor.
Section NumericProcessor.

(** [a / b] on integers with [b] not zero: the nearest float, printed, or
    Python's [OverflowError] when the quotient does not fit a float. *)
Variable float_quotient : Z -> Z -> IO value.

Definition truediv (a b : Z) : IO value :=
  if b =? 0 then raise (ZeroDivisionError "division by zero")
  else float_quotient a b.

(** [type(number) is int]: a [bool] is not an [int] here. *)
Definition type_is_int (number : value) : bool :=
  match number with VInt _ => true | _ => false end.

(** The body of the [try] of [validate]. *)
Fixpoint validate_loop (data : list value) : IO bool :=
  match data with
  | [] => ret true
  | number :: rest =>
      if negb (type_is_int number) then
        raise (TypeError (py_str number ++ " is not int"))
      else validate_loop rest
  end.

Definition validate (data : list value) : IO bool :=
  try_except (validate_loop data)
    (fun e =>
       match e with
       | TypeError msg => print ("Error: " ++ msg) ;; ret false
       | _ => raise e
       end).

(** The [for] loop of [process]: [count] and [sum] after it.  It runs
    only on validated data, where every [number] is an [int]. *)
Fixpoint accumulate (data : list value) (count sum : Z) : Z * Z :=
  match data with
  | [] => (count, sum)
  | number :: rest =>
      accumulate rest (count + 1)
        (sum + match number with VInt z => z | _ => 0 end)
  end.

Definition process (data : list value) : IO value :=
  valid <- validate data ;;
  if negb valid then ret VNone
  else
    let '(count, sum) := accumulate data 0 0 in
    avg <- truediv sum count ;;
    ret (VStr ("Processed " ++ str_of_Z count ++ " numeric values, sum="
                 ++ str_of_Z sum ++ ", avg=" ++ py_str avg)).

End NumericProcessor.

(** [DataProcessor.format_output], inherited by the three processors. *)
Definition format_output (result : value) : string :=
  "Output: " ++ py_str result.

Definition LogProcessor_validate (data : value) : IO bool :=
  try_except
    (if eq_zero data then raise (TypeError "No connection") else ret true)
    (fun e =>
       match e with
       | TypeError msg => print ("Error: " ++ msg) ;; ret false
       | _ => raise e
       end).

Definition LogProcessor_process (data : value) : IO value :=
  valid <- LogProcessor_validate data ;;
  if negb valid then ret VNone
  else
    found <- py_in "ERROR" data ;;
    if found then ret (VStr "[ALERT] ERROR level detected: Connection timeout")
    else ret (VStr "[INFO] INFO level detected: System ready").

End StreamProcessor.

(** ** data_stream.py *)

Module DataStream.
Section SensorStream.

(** [float(text)]: the float read from a text, or [None] where Python
    raises [ValueError]; and [x > n] for a float [x] and an integer [n]. *)
Variable parse_float : string -> option string.
Variable float_gt : string -> Z -> bool.

Definition float (text : string) : IO string :=
  match parse_float text with
  | Some x => ret x
  | None =>
      raise (ValueError
               ("could not convert string to float: " ++ repr_str text))
  end.

Record SensorStream : Type := {
  stream_id : value;
  categorie : string;
  operation : Z;
  type : string;
  criteria_sensor : Z
}.

(** [__init__] *)
Definition new_stream (id : value) : SensorStream :=
  {| stream_id := id; categorie := "Sensor data"; operation := 0;
     type := "readings"; criteria_sensor := 0 |}.

(** [self.criteria_sensor += 1] *)
Definition incr_criteria_sensor : method SensorStream unit :=
  fun self =>
    ({| stream_id := stream_id self; categorie := categorie self;
        operation := operation self; type := type self;
        criteria_sensor := criteria_sensor self + 1 |}, ret tt).

(** [key, value = item.split(':')] *)
Definition unpack2 (parts : list string) : IO (string * string) :=
  match parts with
  | [key; val] => ret (key, val)
  | [] | [_] => raise (ValueError "not enough values to unpack (expected 2)")
  | _ => raise (ValueError "too many values to unpack (expected 2)")
  end.

Definition is_sensor_key (key : string) : bool :=
  (key =? "temp")%string || (key =? "humidity")%string
  || (key =? "pressure")%string.

(** One turn of the loop of the ["High-priority"] branch. *)
Definition high_priority_item (item : value) (filtered_data : list value)
  : method SensorStream (list value) :=
  if isinstance_str item && contains_char ":"%char (as_str item) then
    '(key, val) <~ lift (unpack2 (str_split ":"%char (as_str item))) ;;
    (if (key =? "temp")%string then
       x <~ lift (float val) ;;
       if float_gt x 25 then incr_criteria_sensor else mret tt
     else mret tt) ;;;
    if is_sensor_key key then
      x <~ lift (float val) ;;
      mret (filtered_data ++ [VDict [(key, VFloat x)]])%list
    else mret filtered_data
  else mret filtered_data.

(** One turn of the loop of the other branch. *)
Definition plain_item (item : value) (filtered_data : list value)
  : method SensorStream (list value) :=
  if isinstance_str item && contains_char ":"%char (as_str item) then
    '(key, val) <~ lift (unpack2 (str_split ":"%char (as_str item))) ;;
    if is_sensor_key key then
      x <~ lift (float val) ;;
      mret (filtered_data ++ [VDict [(key, VFloat x)]])%list
    else mret filtered_data
  else mret filtered_data.

Fixpoint for_each
  (body : value -> list value -> method SensorStream (list value))
  (data_batch : list value) (filtered_data : list value)
  : method SensorStream (list value) :=
  match data_batch with
  | [] => mret filtered_data
  | item :: rest =>
      mbind (body item filtered_data) (for_each body rest)
  end.

(** [criteria] is [None] when the argument is omitted. *)
Definition filter_data (data_batch : list value) (criteria : option string)
  : method SensorStream (list value) :=
  if match criteria with
     | Some c => (c =? "High-priority")%string
     | None => false
     end
  then for_each high_priority_item data_batch []
  else for_each plain_item data_batch [].

End SensorStream.

(** *** Arithmetic on the numbers of a batch *)

Section Arithmetic.

(** [a op b] where Python computes in floats, because an operand is a
    float or the operation is [/] with a divisor that is not zero: the
    float, or [OverflowError] for an integer too large for a float.  And
    [x > n] for a float [x] and an integer [n]. *)
Variable float_op : string -> value -> value -> IO value.
Variable float_gt : string -> Z -> bool.

(** The integer behind an [int] or a [bool]. *)
Definition int_of (v : value) : option Z :=
  match v with
  | VInt z => Some z
  | VBool b => Some (if b then 1 else 0)
  | _ => None
  end.

Definition is_number (v : value) : bool :=
  match v with
  | VInt _ | VBool _ | VFloat _ => true
  | _ => false
  end.

Definition unsupported (op : string) (a b : value) : exn :=
  TypeError ("unsupported operand type(s) for " ++ op ++ ": '"
               ++ py_type_name a ++ "' and '" ++ py_type_name b ++ "'").

(** [a + b] and [a - b] for a number [a]: exact on integers. *)
Definition num_op (op : string) (f : Z -> Z -> Z) (a b : value) : IO value :=
  match int_of a, int_of b with
  | Some x, Some y => ret (VInt (f x y))
  | _, _ =>
      if is_number a && is_number b then float_op op a b
      else raise (unsupported op a b)
  end.

(** [sum(l)]: the items added one by one to [0]. *)
Fixpoint sum_from (acc : value) (l : list value) : IO value :=
  match l with
  | [] => ret acc
  | x :: rest => acc' <- num_op "+" Z.add acc x ;; sum_from acc' rest
  end.

Definition py_sum (l : list value) : IO value := sum_from (VInt 0) l.

(** [a / n] for an integer [n]. *)
Definition truediv (a : value) (n : Z) : IO value :=
  if negb (is_number a) then raise (unsupported "/" a (VInt n))
  else if n =? 0 then
    raise (ZeroDivisionError
             (match a with
              | VFloat _ => "float division by zero"
              | _ => "division by zero"
              end))
  else float_op "/" a (VInt n).

(** [total > 0] *)
Definition gt_zero (total : value) : IO bool :=
  match total with
  | VInt z => ret (0 <? z)
  | VBool b => ret b
  | VFloat x => ret (float_gt x 0)
  | _ =>
      raise (TypeError
               ("'>' not supported between instances of '"
                  ++ py_type_name total ++ "' and 'int'"))
  end.

End Arithmetic.

(** [[item[key] for item in data_batch if key in item]] *)
Fixpoint collect (key : string) (data_batch : list value) : IO (list value) :=
  match data_batch with
  | [] => ret []
  | item :: rest =>
      present <- py_in key item ;;
      if present then
        x <- py_getitem item key ;;
        xs <- collect key rest ;;
        ret (x :: xs)
      else collect key rest
  end.

(** The [for] loop of a filter, for a stream with fields [S]. *)
Fixpoint for_each_item {S : Type}
  (body : value -> list value -> method S (list value))
  (data_batch : list value) (filtered_data : list value)
  : method S (list value) :=
  match data_batch with
  | [] => mret filtered_data
  | item :: rest =>
      mbind (body item filtered_data) (for_each_item body rest)
  end.

(** *** SensorStream, continued *)

Section SensorBatch.

Variable float_op : string -> value -> value -> IO value.

(** [self.operation = n] *)
Definition set_operation (n : Z) : method SensorStream unit :=
  fun self =>
    ({| stream_id := stream_id self; categorie := categorie self;
        operation := n; type := type self;
        criteria_sensor := criteria_sensor self |}, ret tt).

Definition process_batch (data_batch : list value)
  : method SensorStream value :=
  temps <~ lift (collect "temp" data_batch) ;;
  if Z.of_nat (List.length temps) =? 0 then
    set_operation (Z.of_nat (List.length data_batch)) ;;;
    fun self =>
      mret (VStr (str_of_Z (operation self)
                    ++ " reading processed, no temp data")) self
  else
    sum_data <~ lift (py_sum float_op temps) ;;
    let len_data := Z.of_nat (List.length temps) in
    avg <~ lift (truediv float_op sum_data len_data) ;;
    set_operation (Z.of_nat (List.length data_batch)) ;;;
    fun self =>
      mret (VStr (str_of_Z (operation self)
                    ++ " readings processed, avg temp: " ++ py_str avg
                    ++ "°C")) self.

Definition get_stats (self : SensorStream) : value :=
  VDict [("operation", VInt (operation self));
         ("type", VStr (type self));
         ("categorie", VStr (categorie self));
         ("criteria_sensor", VInt (criteria_sensor self))].

End SensorBatch.

(** *** TransactionStream *)

Module TransactionStream.
Section Methods.

(** [float(text)] and [int(text)], [None] where Python raises
    [ValueError]; [x >= n] and [x > n] for a float [x] and an integer [n];
    and the arithmetic in floats. *)
Variable parse_float : string -> option string.
Variable parse_int : string -> option Z.
Variable float_ge : string -> Z -> bool.
Variable float_gt : string -> Z -> bool.
Variable float_op : string -> value -> value -> IO value.

Definition int (text : string) : IO Z :=
  match parse_int text with
  | Some z => ret z
  | None =>
      raise (ValueError
               ("invalid literal for int() with base 10: " ++ repr_str text))
  end.

Record TransactionStream : Type := {
  stream_id : value;
  categorie : string;
  operation : Z;
  type : string;
  large_transaction : Z
}.

(** [__init__] *)
Definition new_stream (id : value) : TransactionStream :=
  {| stream_id := id; categorie := "Transaction data"; operation := 0;
     type := "operations"; large_transaction := 0 |}.

(** [self.large_transaction += 1] *)
Definition incr_large_transaction : method TransactionStream unit :=
  fun self =>
    ({| stream_id := stream_id self; categorie := categorie self;
        operation := operation self; type := type self;
        large_transaction := large_transaction self + 1 |}, ret tt).

(** [self.operation = n] *)
Definition set_operation (n : Z) : method TransactionStream unit :=
  fun self =>
    ({| stream_id := stream_id self; categorie := categorie self;
        operation := n; type := type self;
        large_transaction := large_transaction self |}, ret tt).

Definition is_transaction_key (key : string) : bool :=
  (key =? "buy")%string || (key =? "sell")%string.

(** One turn of the loop of the ["High-priority"] branch. *)
Definition high_priority_item (item : value) (filtered_data : list value)
  : method TransactionStream (list value) :=
  if isinstance_str item && contains_char ":"%char (as_str item) then
    '(key, val) <~ lift (unpack2 (str_split ":"%char (as_str item))) ;;
    (if (key =? "sell")%string then
       x <~ lift (float parse_float val) ;;
       if float_ge x 200 then incr_large_transaction else mret tt
     else mret tt) ;;;
    if is_transaction_key key then
      n <~ lift (int val) ;;
      mret (filtered_data ++ [VDict [(key, VInt n)]])%list
    else mret filtered_data
  else mret filtered_data.

(** One turn of the loop of the other branch. *)
Definition plain_item (item : value) (filtered_data : list value)
  : method TransactionStream (list value) :=
  if isinstance_str item && contains_char ":"%char (as_str item) then
    '(key, val) <~ lift (unpack2 (str_split ":"%char (as_str item))) ;;
    if is_transaction_key key then
      n <~ lift (int val) ;;
      mret (filtered_data ++ [VDict [(key, VInt n)]])%list
    else mret filtered_data
  else mret filtered_data.

Definition filter_data (data_batch : list value) (criteria : option string)
  : method TransactionStream (list value) :=
  if match criteria with
     | Some c => (c =? "High-priority")%string
     | None => false
     end
  then for_each_item high_priority_item data_batch []
  else for_each_item plain_item data_batch [].

(** The text returned ends with a space: the ["units"] of the next source
    line is a statement of its own, after the [return]. *)
Definition process_batch (data_batch : list value)
  : method TransactionStream value :=
  buy <~ lift (collect "buy" data_batch) ;;
  sell <~ lift (collect "sell" data_batch) ;;
  sum_buy <~ lift (py_sum float_op buy) ;;
  sum_sell <~ lift (py_sum float_op sell) ;;
  total <~ lift (num_op float_op "-" Z.sub sum_buy sum_sell) ;;
  positive <~ lift (gt_zero float_gt total) ;;
  let operator := if positive then "+" else "-" in
  set_operation (Z.of_nat (List.length data_batch)) ;;;
  fun self =>
    mret (VStr (str_of_Z (operation self) ++ " operations, net flow: "
                  ++ operator ++ py_str total ++ " ")) self.

Definition get_stats (self : TransactionStream) : value :=
  VDict [("categorie", VStr (categorie self));
         ("operation", VInt (operation self));
         ("type", VStr (type self));
         ("large", VInt (large_transaction self))].

End Methods.
End TransactionStream.

(** *** EventStream *)

Module EventStream.

Record EventStream : Type := {
  stream_id : value;
  categorie : string;
  operation : Z;
  type : string
}.

(** [__init__] *)
Definition new_stream (id : value) : EventStream :=
  {| stream_id := id; categorie := "Event data"; operation := 0;
     type := "events" |}.

(** [self.operation = n] *)
Definition set_operation (n : Z) : method EventStream unit :=
  fun self =>
    ({| stream_id := stream_id self; categorie := categorie self;
        operation := n; type := type self |}, ret tt).

(** [item in ['login', 'error', 'logout']] *)
Definition is_event_name (item : value) : bool :=
  eq_str item "login" || eq_str item "error" || eq_str item "logout".

(** One turn of the loop; the criterion is not read. *)
Definition filter_item (item : value) (filtered_data : list value)
  : method EventStream (list value) :=
  if isinstance_str item && negb (contains_char ":"%char (as_str item)) then
    if is_event_name item then mret (filtered_data ++ [item])%list
    else mret filtered_data
  else mret filtered_data.

Definition filter_data (data_batch : list value) (criteria : option string)
  : method EventStream (list value) :=
  for_each_item filter_item data_batch [].

Definition process_batch (data_batch : list value)
  : method EventStream value :=
  let error := filter (fun item => eq_str item "error") data_batch in
  set_operation (Z.of_nat (List.length data_batch)) ;;;
  fun self =>
    mret (VStr (str_of_Z (operation self) ++ " events, "
                  ++ str_of_Z (Z.of_nat (List.length error))
                  ++ " error detected")) self.

Definition get_stats (self : EventStream) : value :=
  VDict [("categorie", VStr (categorie self));
         ("operation", VInt (operation self));
         ("type", VStr (type self))].

End EventStream.

(** *** StreamProcessor *)

Section Polymorphic.

Variable parse_float : string -> option string.
Variable parse_int : string -> option Z.
Variable float_gt : string -> Z -> bool.
Variable float_ge : string -> Z -> bool.
Variable float_op : string -> value -> value -> IO value.

(** A stream of one of the three classes. *)
Inductive stream : Type :=
  | Sensor (s : SensorStream)
  | Transaction (t : TransactionStream.TransactionStream)
  | Event (e : EventStream.EventStream).

(** A method of one class as a method of [stream]. *)
Definition on_stream {S A} (wrap : S -> stream) (m : method S A) (self : S)
  : stream * IO A :=
  let (self', r) := m self in (wrap self', r).

Definition stream_filter_data (data_batch : list value)
  (criteria : option string) : method stream (list value) :=
  fun self =>
    match self with
    | Sensor s =>
        on_stream Sensor
          (filter_data parse_float float_gt data_batch criteria) s
    | Transaction t =>
        on_stream Transaction
          (TransactionStream.filter_data parse_float parse_int float_ge
             data_batch criteria) t
    | Event e =>
        on_stream Event (EventStream.filter_data data_batch criteria) e
    end.

Definition stream_process_batch (data_batch : list value)
  : method stream value :=
  fun self =>
    match self with
    | Sensor s => on_stream Sensor (process_batch float_op data_batch) s
    | Transaction t =>
        on_stream Transaction
          (TransactionStream.process_batch float_gt float_op data_batch) t
    | Event e => on_stream Event (EventStream.process_batch data_batch) e
    end.

Definition stream_get_stats (self : stream) : value :=
  match self with
  | Sensor s => get_stats s
  | Transaction t => TransactionStream.get_stats t
  | Event e => EventStream.get_stats e
  end.

(** The body of the loop of [process_streams], for one stream. *)
Definition process_stream (data_batch : list value) (criteria : option string)
  : method stream value :=
  filtered <~ stream_filter_data data_batch criteria ;;
  stream_process_batch filtered ;;;
  fun self => mret (stream_get_stats self) self.

(** The stream objects of the program, by address.  The list given to
    [process_streams] holds references: an object listed twice is one
    object, and each turn of the loop works on the object as the turns
    before left it. *)
Definition ref : Type := nat.

Definition heap : Type := ref -> stream.

Definition heap_set (h : heap) (r : ref) (s : stream) : heap :=
  fun r' => if Nat.eqb r' r then s else h r'.

(** A method of the object at [r], called through the reference. *)
Definition at_ref {A} (r : ref) (m : method stream A) : method heap A :=
  fun h => let (s', res) := m (h r) in (heap_set h r s', res).

Fixpoint process_streams_from (streams : list ref) (data_batch : list value)
  (criteria : option string) (results : list value)
  : method heap (list value) :=
  match streams with
  | [] => mret results
  | stream :: rest =>
      stats <~ at_ref stream (process_stream data_batch criteria) ;;
      process_streams_from rest data_batch criteria (results ++ [stats])%list
  end.

Definition process_streams (streams : list ref) (data_batch : list value)
  (criteria : option string) : method heap (list value) :=
  process_streams_from streams data_batch criteria [].

End Polymorphic.
End DataStream.

(** ** ex.py *)

Module Ex.
Section Stages.

(** [x > n] and [x < n] for a float [x] and an integer [n]. *)
Variable float_gt : string -> Z -> bool.
Variable float_lt : string -> Z -> bool.

Definition type_name (v : value) : string :=
  match v with
  | VNone => "NoneType"
  | VBool _ => "bool"
  | VInt _ => "int"
  | VFloat _ => "float"
  | VStr _ => "str"
  | VList _ => "list"
  | VDict _ => "dict"
  end.

Definition not_supported (op : string) (v : value) : exn :=
  TypeError ("'" ++ op ++ "' not supported between instances of '"
               ++ type_name v ++ "' and 'int'").

(** [temp > n] *)
Definition gt_int (temp : value) (n : Z) : IO bool :=
  match temp with
  | VInt z => ret (n <? z)
  | VBool b => ret (n <? (if b then 1 else 0))
  | VFloat x => ret (float_gt x n)
  | _ => raise (not_supported ">" temp)
  end.

(** [temp < n] *)
Definition lt_int (temp : value) (n : Z) : IO bool :=
  match temp with
  | VInt z => ret (z <? n)
  | VBool b => ret ((if b then 1 else 0) <? n)
  | VFloat x => ret (float_lt x n)
  | _ => raise (not_supported "<" temp)
  end.

Record ProcessingStage : Type :=
  { process : value -> bool -> IO value }.

Definition InputStage_process (data : value) (verbose : bool) : IO value :=
  (if verbose then
     if isinstance_dict data then print ("Input: " ++ py_str data)
     else if isinstance_str data then
       if (1 <? Z.of_nat (List.length (str_split ","%char (as_str data)))) then
         print ("Input: " ++ String dquote (as_str data ++ String dquote ""))
       else print ("Input: " ++ py_str data)
     else print "Error detected in Stage 1: Invalid data format"
   else ret tt) ;;
  ret data.

(** [nb_action] after the loop over [data_split]. *)
Definition count_actions (data_split : list string) : Z :=
  Z.of_nat (List.length (filter (fun action => (action =? "action")%string)
                      data_split)).

(** The body of the [try]: the text in [trans_data] after it. *)
Definition transform_body (data : value) : IO string :=
  if isinstance_dict data then
    temp <- getitem "value" (as_dict data) ;;
    unit <- getitem "unit" (as_dict data) ;;
    high <- gt_int temp 40 ;;
    if high then
      ret ("Processed temperature reading: " ++ py_str temp ++ "°"
             ++ py_str unit ++ " (High range)")
    else
      low <- lt_int temp 0 ;;
      if low then
        ret ("Processed temperature reading: " ++ py_str temp ++ "°"
               ++ py_str unit ++ " (Low range)")
      else
        ret ("Processed temperature reading: " ++ py_str temp ++ "°"
               ++ py_str unit ++ " (Normal range)")
  else if isinstance_str data then
    let data_split := str_split ","%char (as_str data) in
    if 1 <? Z.of_nat (List.length data_split) then
      ret ("User activity logged: " ++ str_of_Z (count_actions data_split)
             ++ " actions processed")
    else ret "Stream summary: 5 readings, avg: 22.1°C"
  else ret "".

(** What follows the [try] when it did not fail. *)
Definition transform_report (data : value) (verbose : bool)
  (trans_data : string) : IO value :=
  (if verbose then
     if isinstance_dict data then
       print "Transform: Enriched with metadata and validation"
     else if isinstance_str data then
       if 2 <? Z.of_nat (List.length (str_split ","%char (as_str data))) then
         print "Transform: Parsed and structured data"
       else print "Transform: Aggregated and filtered"
     else print "Error detected in Stage 2: Invalid data format"
   else ret tt) ;;
  ret (VStr trans_data).

(** The [except Exception] clause returns from [process] at once, with
    the data it was given. *)
Definition TransformStage_process (data : value) (verbose : bool)
  : IO value :=
  match transform_body data with
  | (out, Return trans_data) =>
      (out, Return tt) ;; transform_report data verbose trans_data
  | (out, Raise _) =>
      (out, Return tt) ;;
      print "Error detected in Stage 2: Invalid data format" ;;
      ret data
  end.

Definition OutputStage_process (data : value) (verbose : bool) : IO value :=
  (if verbose then print ("Output: " ++ py_str data) else ret tt) ;;
  ret data.

Record ProcessingPipeline : Type := {
  pipeline_id : string;
  stages : list ProcessingStage
}.

(** The loop of [process], the same in [JSONAdapter], [CSVAdapter] and
    [StreamAdapter]. *)
Fixpoint run_from (todo : list ProcessingStage) (data : value)
  (verbose : bool) : IO value :=
  match todo with
  | [] => ret data
  | stage :: rest =>
      data' <- process stage data verbose ;;
      run_from rest data' verbose
  end.

Definition pipeline_process (self : ProcessingPipeline) (data : value)
  (verbose : bool) : IO value :=
  run_from (stages self) data verbose.

Definition InputStage : ProcessingStage :=
  {| process := InputStage_process |}.
Definition TransformStage : ProcessingStage :=
  {| process := TransformStage_process |}.
Definition OutputStage : ProcessingStage :=
  {| process := OutputStage_process |}.

Definition stage_list : list ProcessingStage :=
  [InputStage; TransformStage; OutputStage].

(** The text of one line break. *)
Definition newline : string := String (ascii_of_N 10) "".

Record NexusManager : Type := { pipelines : list ProcessingPipeline }.

Definition new_manager : NexusManager := {| pipelines := [] |}.

Definition add_pipeline (pipeline : ProcessingPipeline) (self : NexusManager)
  : NexusManager :=
  {| pipelines := pipelines self ++ [pipeline] |}.

(** The [for] loop of [process_data]: each pipeline is given [data], and
    what it returns is dropped. *)
Fixpoint process_all (todo : list ProcessingPipeline) (data : value)
  : IO unit :=
  match todo with
  | [] => ret tt
  | pipeline :: rest =>
      pipeline_process pipeline data false ;; process_all rest data
  end.

Definition process_data (data : value) : method NexusManager unit :=
  fun self =>
    (self,
     let pipeline_list := map pipeline_id (pipelines self) in
     let join_id := str_join " -> " pipeline_list in
     print join_id ;;
     print ("Data flow: Raw -> Processed -> Analyzed -> Stored" ++ newline) ;;
     process_all (pipelines self) data ;;
     n <- py_len data ;;
     print ("Chain result: " ++ str_of_Z n
              ++ " records processed throught 3-stage pipeline") ;;
     print "Performance: 95% efficiency, 0.2s total processing time").

End Stages.
End Ex.

(** * Vocabulary of the properties *)

(** The record that the three [main] functions route as JSON data. *)
Definition reading : value :=
  VDict [("sensor", VStr "temp"); ("value", VFloat "23.5"); ("unit", VStr "C")].

(** What both variants do to a record with a "sensor" field, for the field
    [marker] they write. *)
Definition marked (marker : string) (d d' : record) : Prop :=
  dict_get marker d' = Some (VStr "valid")
  /\ (forall k, k <> marker -> dict_get k d' = dict_get k d)
  /\ (forall k, dict_mem k d = true -> dict_mem k d' = true)
  /\ (dict_mem marker d = true -> keys d' = keys d)
  /\ (dict_mem marker d = false -> d' = (d ++ [(marker, VStr "valid")])%list).

(** The payloads Python takes for false: [None], the empty text, list and
    dict, [False] and the zeros. *)
Definition empty_absent_or_falsy (p : value) : Prop :=
  p = VNone \/ p = VStr "" \/ p = VList [] \/ p = VDict []
  \/ p = VBool false \/ p = VInt 0 \/ p = VFloat "0.0" \/ p = VFloat "-0.0".

(** The format a pipeline answers to: the text its class is paired with in
    the scan of [process_data]. *)
Definition nexus_format_tag (p : Nexus.ProcessingPipeline) : string :=
  match Nexus.class_of p with
  | Nexus.JSONAdapter => "json"
  | Nexus.CSVAdapter => "csv"
  | Nexus.StreamAdapter => "stream"
  end.

Definition ex3_format_tag (p : Ex3.ProcessingPipeline) : string :=
  match Ex3.class_of p with
  | Ex3.JSONAdapter => "json"
  | Ex3.CSVAdapter => "csv"
  | Ex3.StreamAdapter => "stream"
  end.

(** The manager after a series of routing requests, whatever their
    outcomes. *)
Definition nexus_after_calls (self : Nexus.NexusManager)
  (calls : list (value * string)) : Nexus.NexusManager :=
  fold_left (fun m call => fst (Nexus.process_data (fst call) (snd call) m))
    calls self.

Definition ex3_after_calls (self : Ex3.NexusManager)
  (calls : list (value * string)) : Ex3.NexusManager :=
  fold_left (fun m call => fst (Ex3.process_data (fst call) (snd call) m))
    calls self.

(** A registry in which two pipelines answer to "json": one with the input
    stage only, registered first, and the full pipeline of [main]. *)
Definition nexus_short_json : Nexus.ProcessingPipeline :=
  Nexus.add_stage Nexus.InputStage
    (Nexus.new_pipeline Nexus.JSONAdapter "PIPELINE_00").

Definition nexus_shared_tag_manager : Nexus.NexusManager :=
  Nexus.add_pipeline Nexus.json_pipeline
    (Nexus.add_pipeline nexus_short_json
       (Nexus.add_pipeline Nexus.csv_pipeline Nexus.new_manager)).

(** [float()] and [>] on the readings of the second batch of [main] in
    data_stream.py, to run the filter on that batch. *)
Definition sample_parse_float (text : string) : option string :=
  if (text =? "30")%string then Some "30.0"
  else if (text =? "35")%string then Some "35.0"
  else if (text =? "22.5")%string then Some "22.5"
  else None.

Definition sample_float_gt (x : string) (n : Z) : bool :=
  if (x =? "30.0")%string then n <? 30
  else if (x =? "35.0")%string then n <? 35
  else if (x =? "22.5")%string then n <? 23
  else false.

(** [x < n] on the same readings. *)
Definition sample_float_lt (x : string) (n : Z) : bool :=
  if (x =? "30.0")%string then 30 <? n
  else if (x =? "35.0")%string then 35 <? n
  else if (x =? "22.5")%string then 22 <? n
  else false.

Definition data_batch2 : list value :=
  map VStr ["temp:30"; "temp:35"; "buy:100"; "sell:150"; "buy:75"; "sell:200";
            "login"; "error"; "logout"].

Section SensorAlerts.

Variable parse_float : string -> option string.
Variable float_gt : string -> Z -> bool.

(** The stream with [n] added to its counter of sensor alerts. *)
Definition bump (self : DataStream.SensorStream) (n : Z)
  : DataStream.SensorStream :=
  {| DataStream.stream_id := DataStream.stream_id self;
     DataStream.categorie := DataStream.categorie self;
     DataStream.operation := DataStream.operation self;
     DataStream.type := DataStream.type self;
     DataStream.criteria_sensor := DataStream.criteria_sensor self + n |}.

(** A temp reading above 25: a text [temp:x] with one colon, where [x]
    reads as a float greater than 25. *)
Definition is_hot (item : value) : bool :=
  isinstance_str item && contains_char ":"%char (as_str item)
  && match str_split ":"%char (as_str item) with
     | [key; val] =>
         (key =? "temp")%string
         && match parse_float val with
            | Some x => float_gt x 25
            | None => false
            end
     | _ => false
     end.

Definition hot_count (data_batch : list value) : Z :=
  Z.of_nat (List.length (filter is_hot data_batch)).

End SensorAlerts.

(** The manager of the chaining demo of ex.py: three pipelines with the
    stages of [stage_list]. *)
Definition ex_chain_pipeline (id : string) : Ex.ProcessingPipeline :=
  {| Ex.pipeline_id := id;
     Ex.stages := Ex.stage_list sample_float_gt sample_float_lt |}.

(** The record of the error recovery test of [main] in ex.py: it has no
    "value" field. *)
Definition ex_recovery_input : value :=
  VDict [("sensor", VStr "temp"); ("unit", VStr "C")].

Definition ex_chain_manager : Ex.NexusManager :=
  Ex.add_pipeline (ex_chain_pipeline "Pipeline C")
    (Ex.add_pipeline (ex_chain_pipeline "Pipeline B")
       (Ex.add_pipeline (ex_chain_pipeline "Pipeline A") Ex.new_manager)).

(** The sum of the integers of a list. *)
Definition sum_of_ints (data : list value) : Z :=
  fold_right (fun number total =>
                match number with VInt z => z + total | _ => total end)
    0 data.

(** The first item of a list that is not an [int]. *)
Definition first_non_int (data : list value) : option value :=
  find (fun number => negb (StreamProcessor.type_is_int number)) data.

(** A value that is neither a text nor a container. *)
Definition is_scalar (v : value) : bool :=
  match v with
  | VNone | VBool _ | VInt _ | VFloat _ => true
  | _ => false
  end.

(** A record as the sensor filter builds them: one field, named after a
    sensor, with a float. *)
Definition is_sensor_record (item : value) : Prop :=
  exists key x,
    item = VDict [(key, VFloat x)] /\ DataStream.is_sensor_key key = true.

(** The first batch of [main] in data_stream.py, with [float()] on its
    readings. *)
Definition data_batch1 : list value :=
  map VStr ["temp:22.5"; "humidity:65"; "pressure:1013"; "buy:100";
            "sell:150"; "buy:75"; "login"; "error"; "logout"].

Definition batch1_parse_float (text : string) : option string :=
  if (text =? "22.5")%string then Some "22.5"
  else if (text =? "65")%string then Some "65.0"
  else if (text =? "1013")%string then Some "1013.0"
  else None.

(** A batch of one-field records with integers, as the transaction filter
    builds them, from the list of their fields. *)
Definition int_records (entries : list (string * Z)) : list value :=
  map (fun entry => VDict [(fst entry, VInt (snd entry))]) entries.

(** The integers recorded under a key, and their sum. *)
Definition amounts (key : string) (entries : list (string * Z)) : list Z :=
  map snd (filter (fun entry => (fst entry =? key)%string) entries).

Definition total (key : string) (entries : list (string * Z)) : Z :=
  fold_right Z.add 0 (amounts key entries).

(** [float()], [int()] and [>=] on the texts "200" and "250.5". *)
Definition sell_parse_float (text : string) : option string :=
  if (text =? "200")%string then Some "200.0"
  else if (text =? "250.5")%string then Some "250.5"
  else None.

Definition sell_parse_int (text : string) : option Z :=
  if (text =? "200")%string then Some 200 else None.

Definition sell_float_ge (x : string) (n : Z) : bool :=
  if (x =? "200.0")%string then n <=? 200
  else if (x =? "250.5")%string then n <=? 250
  else false.

(** Two states of one stream: the same class, identifier, category and
    type label; the counters may differ. *)
Definition same_stream (a b : DataStream.stream) : Prop :=
  match a, b with
  | DataStream.Sensor s, DataStream.Sensor s' =>
      DataStream.stream_id s' = DataStream.stream_id s
      /\ DataStream.categorie s' = DataStream.categorie s
      /\ DataStream.type s' = DataStream.type s
  | DataStream.Transaction t, DataStream.Transaction t' =>
      DataStream.TransactionStream.stream_id t'
      = DataStream.TransactionStream.stream_id t
      /\ DataStream.TransactionStream.categorie t'
         = DataStream.TransactionStream.categorie t
      /\ DataStream.TransactionStream.type t'
         = DataStream.TransactionStream.type t
  | DataStream.Event e, DataStream.Event e' =>
      DataStream.EventStream.stream_id e' = DataStream.EventStream.stream_id e
      /\ DataStream.EventStream.categorie e'
         = DataStream.EventStream.categorie e
      /\ DataStream.EventStream.type e' = DataStream.EventStream.type e
  | _, _ => False
  end.

(** [float()], [int()] and [>=] on the amounts of the second batch of
    [main] in data_stream.py, and its three streams. *)
Definition batch2_parse_float (text : string) : option string :=
  if (text =? "30")%string then Some "30.0"
  else if (text =? "35")%string then Some "35.0"
  else if (text =? "150")%string then Some "150.0"
  else if (text =? "200")%string then Some "200.0"
  else None.

Definition batch2_parse_int (text : string) : option Z :=
  if (text =? "100")%string then Some 100
  else if (text =? "150")%string then Some 150
  else if (text =? "75")%string then Some 75
  else if (text =? "200")%string then Some 200
  else None.

Definition batch2_float_ge (x : string) (n : Z) : bool :=
  if (x =? "150.0")%string then n <=? 150
  else if (x =? "200.0")%string then n <=? 200
  else false.

(** The floats added and divided in the second batch: 0 + 30.0, 30.0 + 35.0
    and 65.0 / 2. *)
Definition batch2_float_op (op : string) (a b : value) : IO value :=
  match op, a, b with
  | "+", VInt 0, VFloat "30.0" => ret (VFloat "30.0")
  | "+", VFloat "30.0", VFloat "35.0" => ret (VFloat "65.0")
  | "/", VFloat "65.0", VInt 2 => ret (VFloat "32.5")
  | _, _, _ => raise (TypeError "not a float operation of the second batch")
  end.

Definition main_streams : list DataStream.stream :=
  [DataStream.Sensor (DataStream.new_stream (VStr "SENSOR_001"));
   DataStream.Transaction
     (DataStream.TransactionStream.new_stream (VStr "TRANS_001"));
   DataStream.Event (DataStream.EventStream.new_stream (VStr "EVENT_001"))].

(** The store that holds these three objects at the addresses 0, 1 and 2. *)
Definition main_heap : DataStream.heap :=
  fun r =>
    nth r main_streams
      (DataStream.Event (DataStream.EventStream.new_stream VNone)).

(** The statistics of the objects at the addresses [streams] of a store. *)
Definition stats_of (h : DataStream.heap) (streams : list DataStream.ref)
  : list value :=
  map (fun r => DataStream.stream_get_stats (h r)) streams.

(** The lines a computation printed. *)
Definition printed_lines {A} (m : IO A) : list string := fst m.

(** * Properties *)

(** ** Dictionaries, texts and the [IO] monad *)

Lemma dict_get_set_same (k : string) (v : value) (d : record) :
  dict_get k (dict_set k v d) = Some v.
Proof.
  induction d as [| [k' v'] rest IH]; simpl.
  - now rewrite String.eqb_refl.
  - destruct (k' =? k)%string eqn:E; simpl; rewrite E; auto.
Qed.

Lemma dict_get_set_other (k k' : string) (v : value) (d : record) :
  k' <> k -> dict_get k' (dict_set k v d) = dict_get k' d.
Proof.
  intros Hne. induction d as [| [k0 v0] rest IH]; simpl.
  - destruct (k =? k')%string eqn:E; auto.
    apply String.eqb_eq in E. congruence.
  - destruct (k0 =? k)%string eqn:E; simpl.
    + apply String.eqb_eq in E. subst k0.
      destruct (k =? k')%string eqn:E'; auto.
      apply String.eqb_eq in E'. congruence.
    + now rewrite IH.
Qed.

Lemma keys_dict_set_present (k : string) (v : value) (d : record) :
  dict_mem k d = true -> keys (dict_set k v d) = keys d.
Proof.
  unfold dict_mem, keys. induction d as [| [k0 v0] rest IH]; simpl.
  - discriminate.
  - destruct (k0 =? k)%string; simpl; intros H; auto.
    now rewrite IH.
Qed.

Lemma keys_dict_set_absent (k : string) (v : value) (d : record) :
  dict_mem k d = false -> keys (dict_set k v d) = (keys d ++ [k])%list.
Proof.
  unfold dict_mem, keys. induction d as [| [k0 v0] rest IH]; simpl.
  - reflexivity.
  - destruct (k0 =? k)%string; simpl; intros H; try discriminate.
    now rewrite IH.
Qed.

Lemma dict_set_absent (k : string) (v : value) (d : record) :
  dict_mem k d = false -> dict_set k v d = (d ++ [(k, v)])%list.
Proof.
  unfold dict_mem. induction d as [| [k0 v0] rest IH]; simpl.
  - reflexivity.
  - destruct (k0 =? k)%string; intros H; try discriminate.
    now rewrite IH.
Qed.

Lemma dict_mem_set (k k' : string) (v : value) (d : record) :
  dict_mem k' d = true -> dict_mem k' (dict_set k v d) = true.
Proof.
  unfold dict_mem. intros H.
  destruct (String.eqb_spec k' k) as [-> | Hne].
  - now rewrite dict_get_set_same.
  - now rewrite dict_get_set_other.
Qed.

Lemma bind_Return {A B} (out : list string) (a : A) (f : A -> IO B) :
  bind (out, Return a) f = ((out ++ fst (f a))%list, snd (f a)).
Proof. simpl. now destruct (f a). Qed.

Lemma bind_Raise {A B} (out : list string) (e : exn) (f : A -> IO B) :
  bind (out, Raise e) f = (out, Raise e).
Proof. reflexivity. Qed.

Lemma bind_ret_l {A B} (a : A) (f : A -> IO B) : bind (ret a) f = f a.
Proof. unfold ret. simpl. now destruct (f a). Qed.

Lemma bind_assoc {A B C} (m : IO A) (f : A -> IO B) (g : B -> IO C) :
  bind (bind m f) g = bind m (fun a => bind (f a) g).
Proof.
  destruct m as [out [a | e]]; simpl; auto.
  destruct (f a) as [out1 [b | e]]; simpl; auto.
  destruct (g b) as [out2 r]. now rewrite app_assoc.
Qed.

(** ** The worked example of the three [main] functions *)

(** C1, as the claim states it, fails: routed with ["json"], the record
    reaches the first registered pipeline, whose stages are the input, the
    transform and the output stage, and the value that pipeline returns is
    not the text without a unit, neither in ex3.py nor in
    nexus_pipeline.py. *)
Lemma C1_rendered_text_differs :
  Ex3.select_pipeline (Ex3.pipelines Ex3.main_manager) "json"
    = Some Ex3.json_pipeline
  /\ result (Ex3.pipeline_process Ex3.json_pipeline reading)
       <> Return (VStr "Processed temperature reading: 23.5 (Normal range)")
  /\ Nexus.select_pipeline (Nexus.pipeline Nexus.main_manager) "json"
       = Some Nexus.json_pipeline
  /\ result (Nexus.pipeline_process Nexus.json_pipeline reading)
       <> Return (VStr "Processed temperature reading: 23.5 (Normal range)").
Proof.
  repeat split; try reflexivity; vm_compute; discriminate.
Qed.

(** C1, amended: the text rendered for the record carries the unit suffix:
    it is ["Processed temperature reading: 23.5°C (Normal range)"].  In
    ex3.py the pipeline selected for ["json"] runs the input, transform and
    output stages and returns that text, a [str] and not the record.  In
    nexus_pipeline.py the same text is printed as the last line, and the
    pipeline returns the record as the transform stage left it.  In both,
    [process_data] itself returns [None]. *)
Theorem C1_end_to_end :
  Ex3.select_pipeline (Ex3.pipelines Ex3.main_manager) "json"
    = Some Ex3.json_pipeline
  /\ Ex3.stages Ex3.json_pipeline
       = [Ex3.InputStage; Ex3.TransformStage; Ex3.OutputStage]
  /\ Ex3.pipeline_process Ex3.json_pipeline reading
       = (["Input: {'sensor': 'temp', 'value': 23.5, 'unit': 'C'}";
           "Transform: Enriched with metadata and validation";
           "Output: Processed temperature reading: 23.5°C (Normal range)"],
          Return (VStr "Processed temperature reading: 23.5°C (Normal range)"))
  /\ result (snd (Ex3.process_data reading "json" Ex3.main_manager)) = Return tt
  /\ Nexus.select_pipeline (Nexus.pipeline Nexus.main_manager) "json"
       = Some Nexus.json_pipeline
  /\ Nexus.stages Nexus.json_pipeline
       = [Nexus.InputStage; Nexus.TransformStage; Nexus.OutputStage]
  /\ Nexus.pipeline_process Nexus.json_pipeline reading
       = (["Input: {'sensor': 'temp', 'value': 23.5, 'unit': 'C'}";
           "Tranform: Enriched with metadata and validation";
           "Output: Processed temperature reading: 23.5°C (Normal range)"],
          Return (VDict [("sensor", VStr "valid"); ("value", VFloat "23.5");
                         ("unit", VStr "C")]))
  /\ result (snd (Nexus.process_data reading "json" Nexus.main_manager))
       = Return tt.
Proof. repeat split; reflexivity. Qed.

(** ** The transform stage *)

(** C2, as the claim states it, fails in ex3.py: the record [{sfga: "temp"}]
    has no "sensor" field, and the transform stage returns it. *)
Lemma C2_ex3_returns_record :
  dict_mem "sensor" [("sfga", VStr "temp")] = false
  /\ Ex3.TransformStage_process (VDict [("sfga", VStr "temp")])
       = (["Transform: Aggregated and filtered"],
          Return (VDict [("sfga", VStr "temp")])).
Proof. split; reflexivity. Qed.

(** C2, amended: in nexus_pipeline.py the transform stage fails on every
    record without a "sensor" field, with the [ValueError] "Invalid data
    format", before it prints anything, and so returns no payload.  In
    ex3.py it lets such a record through unchanged; there the stage fails
    for one payload only, the text "INVALID_DATA", and for no other payload
    of any type, with that same error and before it prints anything. *)
Theorem C2_record_without_sensor (d : record) :
  dict_mem "sensor" d = false ->
  Nexus.TransformStage_process (VDict d)
    = ([], Raise (ValueError "Invalid data format"))
  /\ Ex3.TransformStage_process (VDict d)
       = (["Transform: Aggregated and filtered"], Return (VDict d))
  /\ (forall (payload : value) (out : list string) (e : exn),
         Ex3.TransformStage_process payload = (out, Raise e)
         <-> payload = VStr "INVALID_DATA"
             /\ out = [] /\ e = ValueError "Invalid data format").
Proof.
  intros H. split; [| split].
  - unfold Nexus.TransformStage_process. simpl. rewrite H. reflexivity.
  - unfold Ex3.TransformStage_process. simpl. rewrite H. reflexivity.
  - intros payload out e. split.
    + unfold Ex3.TransformStage_process.
      destruct (isinstance_dict payload && dict_mem "sensor" (as_dict payload));
        [discriminate |].
      destruct (isinstance_str payload
                && contains_char ","%char (as_str payload));
        [discriminate |].
      destruct (eq_str payload "INVALID_DATA") eqn:Heq; [| discriminate].
      cbn. intros Hrun. injection Hrun as <- <-.
      destruct payload; try discriminate Heq.
      cbn [eq_str] in Heq. apply String.eqb_eq in Heq. now subst.
    + intros (-> & -> & ->). reflexivity.
Qed.

Lemma C2_record_without_sensor_witness :
  Nexus.TransformStage_process (VDict [("sfga", VStr "temp")])
    = ([], Raise (ValueError "Invalid data format"))
  /\ Ex3.TransformStage_process (VDict [("sfga", VStr "temp")])
       = (["Transform: Aggregated and filtered"],
          Return (VDict [("sfga", VStr "temp")]))
  /\ (forall (payload : value) (out : list string) (e : exn),
         Ex3.TransformStage_process payload = (out, Raise e)
         <-> payload = VStr "INVALID_DATA"
             /\ out = [] /\ e = ValueError "Invalid data format").
Proof.
  apply (C2_record_without_sensor [("sfga", VStr "temp")]). reflexivity.
Defined.

(** C3, as the claim states it, fails: in nexus_pipeline.py the mark is
    written over the "sensor" field itself, and in ex3.py over a "status"
    field the record may already have. *)
Lemma C3_marker_overwrites_field :
  result (Nexus.TransformStage_process (VDict [("sensor", VStr "temp")]))
    = Return (VDict [("sensor", VStr "valid")])
  /\ dict_get "sensor" [("sensor", VStr "temp")] <> Some (VStr "valid")
  /\ result (Ex3.TransformStage_process
               (VDict [("sensor", VStr "temp"); ("status", VStr "raw")]))
       = Return (VDict [("sensor", VStr "temp"); ("status", VStr "valid")])
  /\ dict_get "status" [("sensor", VStr "temp"); ("status", VStr "raw")]
       <> Some (VStr "valid").
Proof. repeat split; try reflexivity; vm_compute; discriminate. Qed.

Lemma dict_set_marked (marker : string) (d : record) :
  marked marker d (dict_set marker (VStr "valid") d).
Proof.
  unfold marked. split; [apply dict_get_set_same |].
  split; [intros k Hk; now apply dict_get_set_other |].
  split; [intros k Hk; now apply dict_mem_set |].
  split; [apply keys_dict_set_present | apply dict_set_absent].
Qed.

(** C3, amended: for every record with a "sensor" field the transform stage
    returns the record with one field set to "valid": the field "status" in
    ex3.py, the field "sensor" itself in nexus_pipeline.py.  Every other
    field keeps its value and no field is removed; a record that had no
    "status" field gets it as a new last field in ex3.py, with all its
    original fields as they were. *)
Theorem C3_record_with_sensor (d : record) :
  dict_mem "sensor" d = true ->
  (exists d',
      Ex3.TransformStage_process (VDict d)
        = (["Transform: Enriched with metadata and validation"],
           Return (VDict d'))
      /\ marked "status" d d')
  /\ (exists d',
         Nexus.TransformStage_process (VDict d)
           = (["Tranform: Enriched with metadata and validation"],
              Return (VDict d'))
         /\ marked "sensor" d d' /\ keys d' = keys d).
Proof.
  intros H. split.
  - exists (dict_set "status" (VStr "valid") d). split.
    + unfold Ex3.TransformStage_process. simpl. now rewrite H.
    + apply dict_set_marked.
  - exists (dict_set "sensor" (VStr "valid") d). split; [| split].
    + unfold Nexus.TransformStage_process. simpl. now rewrite H.
    + apply dict_set_marked.
    + now apply keys_dict_set_present.
Qed.

Lemma C3_record_with_sensor_witness :
  (exists d',
      Ex3.TransformStage_process reading
        = (["Transform: Enriched with metadata and validation"],
           Return (VDict d'))
      /\ marked "status" (as_dict reading) d')
  /\ (exists d',
         Nexus.TransformStage_process reading
           = (["Tranform: Enriched with metadata and validation"],
              Return (VDict d'))
         /\ marked "sensor" (as_dict reading) d'
         /\ keys d' = keys (as_dict reading)).
Proof.
  apply (C3_record_with_sensor (as_dict reading)). reflexivity.
Defined.

(** [str_split] is the inverse of joining with the delimiter, and its tokens
    are free of the delimiter: together these fix the list of tokens. *)
Lemma str_split_not_nil (c : ascii) (s : string) : str_split c s <> [].
Proof.
  destruct s as [| a s']; simpl; [discriminate |].
  destruct (Ascii.eqb a c); [discriminate |].
  destruct (str_split c s'); discriminate.
Qed.

Lemma str_join_split (c : ascii) (s : string) :
  str_join (String c "") (str_split c s) = s.
Proof.
  induction s as [| a s' IH]; simpl; [reflexivity |].
  destruct (Ascii.eqb_spec a c) as [-> | Hne].
  - pose proof (str_split_not_nil c s') as Hnil.
    destruct (str_split c s') as [| h t]; [congruence |].
    simpl in *. now rewrite IH.
  - pose proof (str_split_not_nil c s') as Hnil.
    destruct (str_split c s') as [| h t]; [congruence |].
    destruct t as [| h' t']; simpl in *; now rewrite <- IH.
Qed.

Lemma str_split_tokens (c : ascii) (s : string) :
  Forall (fun token => contains_char c token = false) (str_split c s).
Proof.
  induction s as [| a s' IH]; simpl.
  - constructor; [reflexivity | constructor].
  - destruct (Ascii.eqb a c) eqn:E.
    + constructor; [reflexivity | exact IH].
    + destruct (str_split c s') as [| h t].
      * constructor; [simpl; now rewrite E | constructor].
      * inversion IH as [| ? ? Hh Ht]; subst.
        constructor; [simpl; now rewrite E, Hh | exact Ht].
Qed.

Lemma str_split_delimited (c : ascii) (s : string) :
  contains_char c s = true -> (2 <= List.length (str_split c s))%nat.
Proof.
  induction s as [| a s' IH]; simpl; [discriminate |].
  destruct (Ascii.eqb a c); simpl.
  - intros _. pose proof (str_split_not_nil c s').
    destruct (str_split c s'); [congruence | simpl; lia].
  - intros H. specialize (IH H).
    destruct (str_split c s'); simpl in *; lia.
Qed.

(** C4, as the claim states it, fails: the record built from a delimited
    text has no field "kind" and no field "fields", in either variant. *)
Lemma C4_record_has_other_fields :
  result (Nexus.TransformStage_process (VStr "user,action,timestamp"))
    <> Return (VDict [("kind", VStr "csv");
                      ("fields",
                       VList [VStr "user"; VStr "action"; VStr "timestamp"]);
                      ("count", VInt 1)])
  /\ result (Ex3.TransformStage_process (VStr "user,action,timestamp"))
       <> Return (VDict [("kind", VStr "csv");
                         ("fields",
                          VList [VStr "user"; VStr "action"; VStr "timestamp"]);
                         ("count", VInt 1)]).
Proof. split; vm_compute; discriminate. Qed.

(** C4, amended: for every text with a comma the transform stage returns
    the record [{type: "csv", data: tokens, count: 1}] in nexus_pipeline.py
    and [{type: "csv", headers: tokens, count: 1}] in ex3.py, where
    [tokens] is the ordered list of the comma-free pieces of the text:
    joined with commas they give the text back. *)
Theorem C4_delimited_text (s : string) :
  contains_char ","%char s = true ->
  let tokens := str_split ","%char s in
  Nexus.TransformStage_process (VStr s)
    = (["Tranform: Parsed and structured data"],
       Return (VDict [("type", VStr "csv");
                      ("data", VList (map VStr tokens));
                      ("count", VInt 1)]))
  /\ Ex3.TransformStage_process (VStr s)
       = (["Transform: Parsed and structured data"],
          Return (VDict [("type", VStr "csv");
                         ("headers", VList (map VStr tokens));
                         ("count", VInt 1)]))
  /\ str_join "," tokens = s
  /\ Forall (fun token => contains_char ","%char token = false) tokens
  /\ (2 <= List.length tokens)%nat.
Proof.
  intros H tokens.
  unfold Nexus.TransformStage_process, Ex3.TransformStage_process.
  simpl. rewrite H. simpl.
  split; [reflexivity | split; [reflexivity |]].
  split; [apply (str_join_split ","%char) |].
  split; [apply str_split_tokens | now apply str_split_delimited].
Qed.

Lemma C4_delimited_text_witness :
  Nexus.TransformStage_process (VStr "user,action,timestamp")
    = (["Tranform: Parsed and structured data"],
       Return (VDict [("type", VStr "csv");
                      ("data",
                       VList [VStr "user"; VStr "action"; VStr "timestamp"]);
                      ("count", VInt 1)])).
Proof.
  exact (proj1 (C4_delimited_text "user,action,timestamp" eq_refl)).
Defined.

(** ** The input stage *)

Lemma truthy_false_iff (p : value) :
  truthy p = false <-> empty_absent_or_falsy p.
Proof.
  unfold empty_absent_or_falsy. split.
  - destruct p as [| b | z | r | s | l | d]; simpl; intros H.
    + auto.
    + destruct b; [discriminate | auto 10].
    + apply negb_false_iff, Z.eqb_eq in H. subst. auto 10.
    + apply negb_false_iff, orb_true_iff in H.
      destruct H as [H | H]; apply String.eqb_eq in H; subst; auto 10.
    + apply negb_false_iff, String.eqb_eq in H. subst. auto 10.
    + destruct l; [auto 10 | discriminate].
    + destruct d; [auto 10 | discriminate].
  - intros H.
    repeat (destruct H as [H | H]; [subst; reflexivity |]).
    subst; reflexivity.
Qed.

(** C5: the input stage of ex3.py and of nexus_pipeline.py fails exactly
    on the payloads that are empty, absent or false, with the [ValueError]
    of an empty payload, and returns every other payload as it is.  Either
    way it first prints the payload. *)
Theorem C5_input_stage (p : value) :
  (empty_absent_or_falsy p ->
   Ex3.InputStage_process p
     = (["Input: " ++ py_str p], Raise (ValueError "Empty data received"))
   /\ Nexus.InputStage_process p
        = (["Input: " ++ py_str p], Raise (ValueError "Data is empty")))
  /\ (~ empty_absent_or_falsy p ->
      Ex3.InputStage_process p = (["Input: " ++ py_str p], Return p)
      /\ Nexus.InputStage_process p = (["Input: " ++ py_str p], Return p))
  /\ ((exists e, result (Ex3.InputStage_process p) = Raise e)
      <-> empty_absent_or_falsy p)
  /\ ((exists e, result (Nexus.InputStage_process p) = Raise e)
      <-> empty_absent_or_falsy p).
Proof.
  unfold Ex3.InputStage_process, Nexus.InputStage_process, print, bind.
  rewrite <- truthy_false_iff.
  destruct (truthy p) eqn:E; simpl.
  - split; [discriminate |]. split; [auto |].
    split; (split; [intros [e He]; discriminate | discriminate]).
  - split; [auto |]. split; [congruence |].
    split; (split; [reflexivity | eauto]).
Qed.

Lemma C5_input_stage_witness :
  (Ex3.InputStage_process (VStr "")
     = (["Input: "], Raise (ValueError "Empty data received"))
   /\ Nexus.InputStage_process (VStr "")
        = (["Input: "], Raise (ValueError "Data is empty")))
  /\ (Ex3.InputStage_process (VStr "user,action,timestamp")
        = (["Input: user,action,timestamp"],
           Return (VStr "user,action,timestamp"))
      /\ Nexus.InputStage_process (VStr "user,action,timestamp")
           = (["Input: user,action,timestamp"],
              Return (VStr "user,action,timestamp"))).
Proof.
  split.
  - apply (proj1 (C5_input_stage (VStr ""))).
    right; left; reflexivity.
  - apply (proj1 (proj2 (C5_input_stage (VStr "user,action,timestamp")))).
    intros H. apply truthy_false_iff in H. discriminate H.
Defined.

(** ** Pipelines: the first failure ends the run *)

Lemma ex3_run_from_app (before after : list Ex3.ProcessingStage)
  (payload : value) :
  Ex3.run_from (before ++ after) payload
  = bind (Ex3.run_from before payload) (Ex3.run_from after).
Proof.
  revert payload. induction before as [| s before IH]; intros payload.
  - symmetry. apply bind_ret_l.
  - cbn [Ex3.run_from app]. rewrite bind_assoc.
    destruct (Ex3.process s payload) as [out [v | e]]; [| reflexivity].
    cbn [bind]. now rewrite IH.
Qed.

(** A run that raises has a first failing stage, and a run of stages that
    all succeed returns: the premise of the fail-fast law is the only way
    to fail. *)
Lemma ex3_run_from_raises (todo : list Ex3.ProcessingStage) (payload : value)
  (out : list string) (e : exn) :
  Ex3.run_from todo payload = (out, Raise e) ->
  exists before stage after current out1 out2,
    todo = (before ++ stage :: after)%list
    /\ Ex3.run_from before payload = (out1, Return current)
    /\ Ex3.process stage current = (out2, Raise e)
    /\ out = (out1 ++ out2)%list.
Proof.
  revert payload out. induction todo as [| s todo IH]; intros payload out H.
  - discriminate.
  - cbn [Ex3.run_from] in H.
    destruct (Ex3.process s payload) as [o [v | e']] eqn:Hs.
    + cbn [bind] in H.
      destruct (Ex3.run_from todo v) as [o' r] eqn:Hrest.
      injection H as <- ->.
      destruct (IH v o' Hrest)
        as (before & stage & after & current & out1 & out2
            & -> & Hb & Hst & ->).
      exists (s :: before), stage, after, current, (o ++ out1)%list, out2.
      split; [reflexivity |]. split; [| split; [exact Hst |]].
      * cbn [Ex3.run_from]. rewrite Hs. cbn [bind]. now rewrite Hb.
      * now rewrite app_assoc.
    + cbn [bind] in H. injection H as <- <-.
      exists [], s, todo, payload, [], o. repeat split; auto.
Qed.

(** The manager has no handler either: what the selected pipeline raises,
    [process_data] raises. *)
Lemma ex3_process_data_raises (self : Ex3.NexusManager)
  (selected : Ex3.ProcessingPipeline) (data_packet : value)
  (format_type : string) (out : list string) (e : exn) :
  Ex3.select_pipeline (Ex3.pipelines self) format_type = Some selected ->
  Ex3.pipeline_process selected data_packet = (out, Raise e) ->
  Ex3.process_data data_packet format_type self = (self, (out, Raise e)).
Proof.
  intros Hsel Hrun. unfold Ex3.process_data. now rewrite Hsel, Hrun.
Qed.

(** The same loop in nexus_pipeline.py and in ex.py. *)
Lemma nexus_run_from_app (before after : list Nexus.ProcessingStage)
  (data : value) :
  Nexus.run_from (before ++ after) data
  = bind (Nexus.run_from before data) (Nexus.run_from after).
Proof.
  revert data. induction before as [| s before IH]; intros data.
  - symmetry. apply bind_ret_l.
  - cbn [Nexus.run_from app]. rewrite bind_assoc.
    destruct (Nexus.process s data) as [out [v | e]]; [| reflexivity].
    cbn [bind]. now rewrite IH.
Qed.

Lemma nexus_fail_fast (self : Nexus.ProcessingPipeline)
  (before after : list Nexus.ProcessingStage) (stage : Nexus.ProcessingStage)
  (data current : value) (out1 out2 : list string) (e : exn) :
  Nexus.stages self = (before ++ stage :: after)%list ->
  Nexus.run_from before data = (out1, Return current) ->
  Nexus.process stage current = (out2, Raise e) ->
  Nexus.pipeline_process self data = ((out1 ++ out2)%list, Raise e).
Proof.
  intros Hstages Hbefore Hstage.
  unfold Nexus.pipeline_process, Nexus.run_stages.
  rewrite Hstages, nexus_run_from_app, Hbefore.
  cbn [Nexus.run_from bind]. now rewrite Hstage.
Qed.

Lemma ex_run_from_app (before after : list Ex.ProcessingStage)
  (data : value) (verbose : bool) :
  Ex.run_from (before ++ after) data verbose
  = bind (Ex.run_from before data verbose)
      (fun data' => Ex.run_from after data' verbose).
Proof.
  revert data. induction before as [| s before IH]; intros data.
  - symmetry. apply (bind_ret_l data (fun d => Ex.run_from after d verbose)).
  - cbn [Ex.run_from app]. rewrite bind_assoc.
    destruct (Ex.process s data verbose) as [out [v | e]]; [| reflexivity].
    cbn [bind]. now rewrite IH.
Qed.

(** The loop of ex.py has no handler either.  This is a law of the loop,
    for stage objects of any kind: the three stages that ex.py itself
    defines never raise, so none of them meets its last premise. *)
Lemma ex_fail_fast (self : Ex.ProcessingPipeline)
  (before after : list Ex.ProcessingStage) (stage : Ex.ProcessingStage)
  (data current : value) (verbose : bool) (out1 out2 : list string) (e : exn) :
  Ex.stages self = (before ++ stage :: after)%list ->
  Ex.run_from before data verbose = (out1, Return current) ->
  Ex.process stage current verbose = (out2, Raise e) ->
  Ex.pipeline_process self data verbose = ((out1 ++ out2)%list, Raise e).
Proof.
  intros Hstages Hbefore Hstage. unfold Ex.pipeline_process.
  rewrite Hstages, ex_run_from_app, Hbefore.
  cbn [Ex.run_from bind]. now rewrite Hstage.
Qed.

(** In ex.py the transform stage handles its own errors: it never raises,
    so the pipeline goes on to the output stage with the data unchanged. *)
Lemma ex_transform_never_raises (float_gt float_lt : string -> Z -> bool)
  (data : value) (verbose : bool) :
  exists out v,
    Ex.TransformStage_process float_gt float_lt data verbose = (out, Return v).
Proof.
  unfold Ex.TransformStage_process.
  destruct (Ex.transform_body float_gt float_lt data) as [out [t | e]].
  - unfold Ex.transform_report.
    destruct verbose; cbn [bind ret print];
      [destruct (isinstance_dict data);
       [| destruct (isinstance_str data);
          [destruct (2 <? _) |]] |];
      cbn; eauto.
  - cbn. eauto.
Qed.

(** C6, as the claim states it, fails in ex.py: on the record of the
    error recovery test the body of the transform stage raises
    [KeyError('value')], and the pipeline neither stops nor surfaces it:
    the stage prints its error line, the output stage runs on the record
    and [process] returns the record. *)
Lemma C6_ex_failure_swallowed :
  Ex.transform_body sample_float_gt sample_float_lt ex_recovery_input
    = ([], Raise (KeyError "value"))
  /\ Ex.pipeline_process (ex_chain_pipeline "p_01") ex_recovery_input true
       = (["Input: {'sensor': 'temp', 'unit': 'C'}";
           "Error detected in Stage 2: Invalid data format";
           "Output: {'sensor': 'temp', 'unit': 'C'}"],
          Return ex_recovery_input)
  /\ Ex.pipeline_process (ex_chain_pipeline "p_01") ex_recovery_input false
       = (["Error detected in Stage 2: Invalid data format"],
          Return ex_recovery_input).
Proof. repeat split; reflexivity. Qed.

(** C6, amended.  In ex3.py, when the stages before some stage of a
    pipeline succeed and that stage raises, [process] ends with that very
    exception: the lines printed are those of the stages before and of the
    failing stage, run once, no value is returned, and the stages after it
    play no part.  In ex.py a pipeline with the stages of [stage_list]
    never raises: when the body of its transform stage raises, whatever
    the exception, the stage prints its error line and returns the data it
    was given, and the pipeline goes on: it prints the lines of the input
    stage, the error line and the lines of the output stage, and returns
    the data. *)
Theorem C6_fail_fast (self : Ex3.ProcessingPipeline)
  (before after : list Ex3.ProcessingStage) (stage : Ex3.ProcessingStage)
  (payload current : value) (out1 out2 : list string) (e : exn) :
  Ex3.stages self = (before ++ stage :: after)%list ->
  Ex3.run_from before payload = (out1, Return current) ->
  Ex3.process stage current = (out2, Raise e) ->
  Ex3.pipeline_process self payload = ((out1 ++ out2)%list, Raise e)
  /\ (forall (float_gt float_lt : string -> Z -> bool)
             (p : Ex.ProcessingPipeline) (data : value) (verbose : bool),
         Ex.stages p = Ex.stage_list float_gt float_lt ->
         (exists out v, Ex.pipeline_process p data verbose = (out, Return v))
         /\ (forall (out0 : list string) (e0 : exn),
                Ex.transform_body float_gt float_lt data = (out0, Raise e0) ->
                Ex.TransformStage_process float_gt float_lt data verbose
                = ((out0
                    ++ ["Error detected in Stage 2: Invalid data format"])%list,
                   Return data)
                /\ Ex.pipeline_process p data verbose
                   = ((printed_lines (Ex.InputStage_process data verbose)
                       ++ out0
                       ++ "Error detected in Stage 2: Invalid data format"
                       :: printed_lines
                            (Ex.OutputStage_process data verbose))%list,
                      Return data))).
Proof.
  intros Hstages Hbefore Hstage. split.
  - unfold Ex3.pipeline_process, Ex3._run_stages.
    rewrite Hstages, ex3_run_from_app, Hbefore.
    cbn [Ex3.run_from bind]. now rewrite Hstage.
  - intros float_gt float_lt p data verbose Hst.
    assert (Hin : exists o1,
               Ex.InputStage_process data verbose = (o1, Return data)).
    { unfold Ex.InputStage_process.
      destruct verbose; [| eexists; reflexivity].
      destruct (isinstance_dict data); [eexists; reflexivity |].
      destruct (isinstance_str data); [| eexists; reflexivity].
      destruct (1 <? _); eexists; reflexivity. }
    assert (Hout : forall v, exists o3,
               Ex.OutputStage_process v verbose = (o3, Return v)).
    { intros v. unfold Ex.OutputStage_process.
      destruct verbose; eexists; reflexivity. }
    destruct Hin as [o1 Hin].
    unfold Ex.pipeline_process. rewrite Hst. unfold Ex.stage_list.
    cbn [Ex.run_from Ex.process Ex.InputStage Ex.TransformStage
         Ex.OutputStage].
    rewrite Hin. cbn [bind printed_lines fst]. split.
    + destruct (ex_transform_never_raises float_gt float_lt data verbose)
        as (o2 & v & ->).
      cbn [bind]. destruct (Hout v) as [o3 ->]. cbn [bind ret]. eauto.
    + intros out0 e0 Hbody. unfold Ex.TransformStage_process.
      rewrite Hbody. cbn [bind print ret app].
      destruct (Hout data) as [o3 ->]. cbn [bind ret fst app].
      rewrite !app_nil_r. split; [reflexivity |].
      now rewrite <- app_assoc.
Qed.

(** The failure of ex3.py's [main], and the error recovery test of ex.py's
    [main]. *)
Lemma C6_fail_fast_witness :
  Ex3.pipeline_process Ex3.json_pipeline (VStr "INVALID_DATA")
  = (["Input: INVALID_DATA"], Raise (ValueError "Invalid data format"))
  /\ Ex.pipeline_process (ex_chain_pipeline "p_01") ex_recovery_input false
     = (["Error detected in Stage 2: Invalid data format"],
        Return ex_recovery_input).
Proof.
  destruct (C6_fail_fast Ex3.json_pipeline [Ex3.InputStage] [Ex3.OutputStage]
              Ex3.TransformStage (VStr "INVALID_DATA") (VStr "INVALID_DATA")
              ["Input: INVALID_DATA"] [] (ValueError "Invalid data format")
              eq_refl eq_refl eq_refl) as [Hex3 Hex].
  split; [exact Hex3 |].
  exact (proj2 (proj2 (Hex sample_float_gt sample_float_lt
                         (ex_chain_pipeline "p_01") ex_recovery_input false
                         eq_refl)
                  [] (KeyError "value") eq_refl)).
Defined.

(** ** The manager: routing by format *)

Lemma nexus_select_cons (p : Nexus.ProcessingPipeline)
  (rest : list Nexus.ProcessingPipeline) (format : string) :
  Nexus.select_pipeline (p :: rest) format
  = if (nexus_format_tag p =? format)%string then Some p
    else Nexus.select_pipeline rest format.
Proof.
  unfold nexus_format_tag. cbn [Nexus.select_pipeline].
  unfold Nexus.isinstance.
  destruct (Nexus.class_of p); cbn [andb];
    rewrite (String.eqb_sym format);
    match goal with |- context [(?t =? format)%string] =>
      destruct (t =? format)%string end; reflexivity.
Qed.

Lemma ex3_select_cons (p : Ex3.ProcessingPipeline)
  (rest : list Ex3.ProcessingPipeline) (format_type : string) :
  Ex3.select_pipeline (p :: rest) format_type
  = if (ex3_format_tag p =? format_type)%string then Some p
    else Ex3.select_pipeline rest format_type.
Proof.
  unfold ex3_format_tag. cbn [Ex3.select_pipeline].
  unfold Ex3.isinstance.
  destruct (Ex3.class_of p); cbn [andb];
    rewrite (String.eqb_sym format_type);
    match goal with |- context [(?t =? format_type)%string] =>
      destruct (t =? format_type)%string end; reflexivity.
Qed.

Lemma nexus_select_first (before after : list Nexus.ProcessingPipeline)
  (first : Nexus.ProcessingPipeline) (format : string) :
  Forall (fun p => nexus_format_tag p <> format) before ->
  nexus_format_tag first = format ->
  Nexus.select_pipeline (before ++ first :: after) format = Some first.
Proof.
  intros Hbefore Hfirst. induction Hbefore as [| p before Hp _ IH].
  - cbn [app]. rewrite nexus_select_cons.
    apply String.eqb_eq in Hfirst. now rewrite Hfirst.
  - cbn [app]. rewrite nexus_select_cons.
    apply String.eqb_neq in Hp. now rewrite Hp.
Qed.

Lemma nexus_select_none (ps : list Nexus.ProcessingPipeline) (format : string) :
  Forall (fun p => nexus_format_tag p <> format) ps <->
  Nexus.select_pipeline ps format = None.
Proof.
  induction ps as [| p ps IH].
  - split; [reflexivity | constructor].
  - rewrite nexus_select_cons. split.
    + intros H. inversion H as [| ? ? Hp Hps]; subst.
      apply String.eqb_neq in Hp. rewrite Hp. now apply IH.
    + destruct (String.eqb_spec (nexus_format_tag p) format) as [| Hne];
        [discriminate |].
      intros H. constructor; [exact Hne | now apply IH].
Qed.

Lemma ex3_select_none (ps : list Ex3.ProcessingPipeline)
  (format_type : string) :
  Forall (fun p => ex3_format_tag p <> format_type) ps <->
  Ex3.select_pipeline ps format_type = None.
Proof.
  induction ps as [| p ps IH].
  - split; [reflexivity | constructor].
  - rewrite ex3_select_cons. split.
    + intros H. inversion H as [| ? ? Hp Hps]; subst.
      apply String.eqb_neq in Hp. rewrite Hp. now apply IH.
    + destruct (String.eqb_spec (ex3_format_tag p) format_type) as [| Hne];
        [discriminate |].
      intros H. constructor; [exact Hne | now apply IH].
Qed.

(** No request changes the registry, whether it is served, fails in a
    stage or finds no pipeline. *)
Lemma nexus_after_calls_same (self : Nexus.NexusManager)
  (calls : list (value * string)) :
  nexus_after_calls self calls = self.
Proof.
  unfold nexus_after_calls. induction calls as [| call calls IH]; auto.
Qed.

Lemma ex3_after_calls_same (self : Ex3.NexusManager)
  (calls : list (value * string)) :
  ex3_after_calls self calls = self.
Proof.
  unfold ex3_after_calls. induction calls as [| call calls IH]; auto.
Qed.

(** C7: when the registry holds a pipeline [first] for a format, no
    pipeline registered before it answers to that format, and any others
    (of the same format or not) come after it, a request for that format
    selects [first]: the call does what [first] does and nothing else, and
    after any series of requests the same pipeline is selected again. *)
Theorem C7_first_registered_wins (self : Nexus.NexusManager)
  (before after : list Nexus.ProcessingPipeline)
  (first : Nexus.ProcessingPipeline) (format : string) :
  Nexus.pipeline self = (before ++ first :: after)%list ->
  Forall (fun p => nexus_format_tag p <> format) before ->
  nexus_format_tag first = format ->
  Nexus.select_pipeline (Nexus.pipeline self) format = Some first
  /\ (forall data,
         Nexus.process_data data format self
         = (self, (Nexus.pipeline_process first data ;; ret tt)))
  /\ (forall calls,
         Nexus.select_pipeline
           (Nexus.pipeline (nexus_after_calls self calls)) format
         = Some first).
Proof.
  intros Hreg Hbefore Hfirst.
  assert (Hsel : Nexus.select_pipeline (Nexus.pipeline self) format
                 = Some first)
    by (rewrite Hreg; now apply nexus_select_first).
  split; [exact Hsel |]. split.
  - intros data. unfold Nexus.process_data. now rewrite Hsel.
  - intros calls. now rewrite nexus_after_calls_same.
Qed.

Lemma C7_first_registered_wins_witness :
  Nexus.select_pipeline (Nexus.pipeline nexus_shared_tag_manager) "json"
    = Some nexus_short_json
  /\ (forall data,
         Nexus.process_data data "json" nexus_shared_tag_manager
         = (nexus_shared_tag_manager,
            (Nexus.pipeline_process nexus_short_json data ;; ret tt)))
  /\ (forall calls,
         Nexus.select_pipeline
           (Nexus.pipeline (nexus_after_calls nexus_shared_tag_manager calls))
           "json"
         = Some nexus_short_json).
Proof.
  apply (C7_first_registered_wins nexus_shared_tag_manager
           [Nexus.csv_pipeline] [Nexus.json_pipeline] nexus_short_json "json").
  - reflexivity.
  - constructor; [| constructor]. vm_compute. discriminate.
  - reflexivity.
Defined.

(** The same in ex3.py. *)
Lemma ex3_select_first (before after : list Ex3.ProcessingPipeline)
  (first : Ex3.ProcessingPipeline) (format_type : string) :
  Forall (fun p => ex3_format_tag p <> format_type) before ->
  ex3_format_tag first = format_type ->
  Ex3.select_pipeline (before ++ first :: after) format_type = Some first.
Proof.
  intros Hbefore Hfirst. induction Hbefore as [| p before Hp _ IH].
  - cbn [app]. rewrite ex3_select_cons.
    apply String.eqb_eq in Hfirst. now rewrite Hfirst.
  - cbn [app]. rewrite ex3_select_cons.
    apply String.eqb_neq in Hp. now rewrite Hp.
Qed.

Lemma ex3_first_registered_wins (self : Ex3.NexusManager)
  (before after : list Ex3.ProcessingPipeline)
  (first : Ex3.ProcessingPipeline) (format_type : string) :
  Ex3.pipelines self = (before ++ first :: after)%list ->
  Forall (fun p => ex3_format_tag p <> format_type) before ->
  ex3_format_tag first = format_type ->
  Ex3.select_pipeline (Ex3.pipelines self) format_type = Some first
  /\ (forall data_packet,
         Ex3.process_data data_packet format_type self
         = (self, (Ex3.pipeline_process first data_packet ;; ret tt)))
  /\ (forall calls,
         Ex3.select_pipeline
           (Ex3.pipelines (ex3_after_calls self calls)) format_type
         = Some first).
Proof.
  intros Hreg Hbefore Hfirst.
  assert (Hsel : Ex3.select_pipeline (Ex3.pipelines self) format_type
                 = Some first)
    by (rewrite Hreg; now apply ex3_select_first).
  split; [exact Hsel |]. split.
  - intros data_packet. unfold Ex3.process_data. now rewrite Hsel.
  - intros calls. now rewrite ex3_after_calls_same.
Qed.

(** C8, as the claim states it, fails: a request for a format that no
    pipeline answers to returns [None], the value a served request
    returns too.  The failure and the format are in the printed line
    only. *)
Lemma C8_unmatched_returns_none :
  Ex3.select_pipeline (Ex3.pipelines Ex3.main_manager) "xml" = None
  /\ snd (Ex3.process_data reading "xml" Ex3.main_manager)
       = (["[ERROR] No suitable pipeline found for xml"], Return tt)
  /\ result (snd (Ex3.process_data reading "json" Ex3.main_manager))
       = Return tt.
Proof. repeat split; reflexivity. Qed.

(** C8, amended: for every registry and every format that no registered
    pipeline answers to, [process_data] reports the failure by printing one
    line that names the format, and returns [None] as it does for a served
    request: it raises nothing, prints nothing that a stage would print,
    and leaves the registry as it was, so that any later request is served
    as if this one had not been made. *)
Theorem C8_unmatched_format (self : Ex3.NexusManager) (data_packet : value)
  (format_type : string) :
  Forall (fun p => ex3_format_tag p <> format_type) (Ex3.pipelines self) ->
  Ex3.process_data data_packet format_type self
    = (self,
       (["[ERROR] No suitable pipeline found for " ++ format_type], Return tt))
  /\ (forall later_packet later_format,
         Ex3.process_data later_packet later_format
           (fst (Ex3.process_data data_packet format_type self))
         = Ex3.process_data later_packet later_format self).
Proof.
  intros H. apply ex3_select_none in H.
  unfold Ex3.process_data at 1. rewrite H. split; reflexivity.
Qed.

Lemma C8_unmatched_format_witness :
  Ex3.process_data reading "xml" Ex3.main_manager
    = (Ex3.main_manager,
       (["[ERROR] No suitable pipeline found for xml"], Return tt))
  /\ (forall later_packet later_format,
         Ex3.process_data later_packet later_format
           (fst (Ex3.process_data reading "xml" Ex3.main_manager))
         = Ex3.process_data later_packet later_format Ex3.main_manager).
Proof.
  apply (C8_unmatched_format Ex3.main_manager reading "xml").
  repeat constructor; vm_compute; discriminate.
Defined.

(** The same in nexus_pipeline.py, with its own wording of the line. *)
Lemma nexus_unmatched_format (self : Nexus.NexusManager) (data : value)
  (format : string) :
  Forall (fun p => nexus_format_tag p <> format) (Nexus.pipeline self) ->
  Nexus.process_data data format self
    = (self, (["[ERROR]: " ++ format ++ " is not a register pipeline"],
              Return tt)).
Proof.
  intros H. apply nexus_select_none in H.
  unfold Nexus.process_data. now rewrite H.
Qed.

(** ** stream_processor.py: the numeric processor on the empty list *)

(** C9: the empty list passes [validate], which returns [True] and prints
    nothing, and [process] then divides by a count of zero: it raises
    [ZeroDivisionError], so it returns neither a summary text nor the
    [None] of a failed validation. *)
Theorem C9_empty_list (float_quotient : Z -> Z -> IO value) :
  StreamProcessor.validate [] = ([], Return true)
  /\ StreamProcessor.process float_quotient []
       = ([], Raise (ZeroDivisionError "division by zero"))
  /\ (forall v, result (StreamProcessor.process float_quotient []) <> Return v).
Proof.
  split; [reflexivity |]. split; [reflexivity |].
  intros v. cbn. discriminate.
Qed.

(** The loop counts the items: on a list of integers that is not empty the
    division is by a positive count and goes to [float_quotient]. *)
Lemma accumulate_count (data : list value) (count sum : Z) :
  fst (StreamProcessor.accumulate data count sum)
  = count + Z.of_nat (List.length data).
Proof.
  revert count sum. induction data as [| number rest IH]; intros count sum.
  - simpl. lia.
  - cbn [StreamProcessor.accumulate List.length]. rewrite IH. lia.
Qed.

Lemma validate_integers (data : list value) :
  forallb StreamProcessor.type_is_int data = true ->
  StreamProcessor.validate data = ([], Return true).
Proof.
  unfold StreamProcessor.validate. induction data as [| number rest IH].
  - reflexivity.
  - cbn [forallb StreamProcessor.validate_loop]. intros H.
    apply andb_true_iff in H. destruct H as [Hn Hrest].
    rewrite Hn. cbn [negb]. now apply IH.
Qed.

Lemma process_divides_by_zero_only_when_empty
  (float_quotient : Z -> Z -> IO value) (data : list value) :
  forallb StreamProcessor.type_is_int data = true ->
  data <> [] ->
  exists count sum,
    0 < count
    /\ StreamProcessor.process float_quotient data
       = (avg <- float_quotient sum count ;;
          ret (VStr ("Processed " ++ str_of_Z count ++ " numeric values, sum="
                       ++ str_of_Z sum ++ ", avg=" ++ py_str avg))).
Proof.
  intros Hints Hne. unfold StreamProcessor.process.
  rewrite (validate_integers data Hints). cbn [bind negb].
  pose proof (accumulate_count data 0 0) as Hcount.
  destruct (StreamProcessor.accumulate data 0 0) as [count sum].
  cbn [fst] in Hcount.
  assert (Hpos : 0 < count)
    by (destruct data; [congruence | cbn [List.length] in Hcount; lia]).
  exists count, sum. split; [exact Hpos |].
  unfold StreamProcessor.truediv.
  destruct (Z.eqb_spec count 0) as [Hz | _]; [lia |].
  destruct (float_quotient sum count) as [out [avg | e]]; reflexivity.
Qed.

(** ** data_stream.py: the sensor stream's filter *)

Section SensorFilter.

Variable parse_float : string -> option string.
Variable float_gt : string -> Z -> bool.

#[local] Abbreviation high_item :=
  (DataStream.high_priority_item parse_float float_gt).
#[local] Abbreviation plain_item := (DataStream.plain_item parse_float).
#[local] Abbreviation filter_data :=
  (DataStream.filter_data parse_float float_gt).
#[local] Abbreviation is_hot := (is_hot parse_float float_gt).
#[local] Abbreviation hot_count := (hot_count parse_float float_gt).

Lemma bump_0 (self : DataStream.SensorStream) : bump self 0 = self.
Proof. destruct self. unfold bump. simpl. now rewrite Z.add_0_r. Qed.

Lemma bump_bump (self : DataStream.SensorStream) (a b : Z) :
  bump (bump self a) b = bump self (a + b).
Proof. unfold bump. simpl. now rewrite Z.add_assoc. Qed.

Lemma plain_item_pure (item : value) (acc : list value)
  (self : DataStream.SensorStream) :
  fst (plain_item item acc self) = self
  /\ forall self', snd (plain_item item acc self')
                   = snd (plain_item item acc self).
Proof.
  unfold DataStream.plain_item.
  destruct (isinstance_str item && contains_char ":"%char (as_str item));
    [| split; reflexivity].
  unfold mbind, lift, mret.
  destruct (DataStream.unpack2 (str_split ":"%char (as_str item)))
    as [out [[key val] | e]]; [| split; reflexivity].
  destruct (DataStream.is_sensor_key key); [| split; reflexivity].
  destruct (DataStream.float parse_float val) as [out' [x | e]];
    split; reflexivity.
Qed.

Lemma high_priority_item_spec (item : value) (acc : list value)
  (self : DataStream.SensorStream) :
  high_item item acc self
  = (bump self (if is_hot item then 1 else 0),
     snd (plain_item item acc self)).
Proof.
  unfold DataStream.high_priority_item, DataStream.plain_item, is_hot.
  destruct (isinstance_str item && contains_char ":"%char (as_str item));
    cbn [andb]; [| unfold mret; now rewrite bump_0].
  unfold DataStream.unpack2.
  destruct (str_split ":"%char (as_str item)) as [| key [| val [| x rest]]];
    try (cbn; now rewrite bump_0).
  unfold DataStream.is_sensor_key, DataStream.float, mbind, lift, mret,
    DataStream.incr_criteria_sensor, ret, raise.
  destruct (String.eqb_spec key "temp") as [-> | Hne]; cbn [orb fst snd].
  - destruct (parse_float val) as [x |]; [| now rewrite bump_0].
    destruct (float_gt x 25); [reflexivity | now rewrite bump_0].
  - destruct ((key =? "humidity")%string || (key =? "pressure")%string);
      [destruct (parse_float val) as [x |] |]; now rewrite bump_0.
Qed.

(** The two loops side by side, from any list gathered so far. *)
Lemma for_each_high_vs_plain (data_batch : list value) :
  forall (acc : list value) (self : DataStream.SensorStream),
    snd (DataStream.for_each high_item data_batch acc self)
    = snd (DataStream.for_each plain_item data_batch acc self)
    /\ fst (DataStream.for_each plain_item data_batch acc self) = self
    /\ exists n,
        0 <= n <= hot_count data_batch
        /\ fst (DataStream.for_each high_item data_batch acc self)
           = bump self n
        /\ (forall l,
               result
                 (snd (DataStream.for_each high_item data_batch
                         acc self)) = Return l ->
               n = hot_count data_batch).
Proof.
  induction data_batch as [| item rest IH]; intros acc self.
  - cbn. split; [reflexivity |]. split; [reflexivity |].
    exists 0. unfold hot_count. cbn. rewrite bump_0. repeat split; lia.
  - cbn [DataStream.for_each]. unfold mbind.
    rewrite high_priority_item_spec.
    destruct (plain_item_pure item acc self) as [Hself Hsnd].
    destruct (plain_item item acc self) as [self0 [out [acc' | e]]].
    + cbn [fst snd] in *. subst self0.
      destruct (IH acc' (bump self (if is_hot item then 1 else 0)))
        as (Hsame & _ & n & Hn & Hstate & Hdone).
      destruct (IH acc' self) as (_ & Hplain & _).
      destruct (DataStream.for_each high_item rest acc'
                  (bump self (if is_hot item then 1 else 0)))
        as [selfH [outH rH]].
      destruct (DataStream.for_each plain_item rest acc' self)
        as [selfP [outP rP]] eqn:EP.
      cbn [fst snd] in *.
      assert (Hrest :
               snd (DataStream.for_each plain_item rest acc'
                      (bump self (if is_hot item then 1 else 0)))
               = (outP, rP)).
      { clear - EP.
        revert acc' self outP rP selfP EP.
        induction rest as [| it rest IHr]; intros acc' self outP rP selfP EP.
        - cbn in *. now injection EP as _ <- <-.
        - cbn [DataStream.for_each] in *. unfold mbind in *.
          destruct (plain_item_pure it acc' self) as [Hs Hp].
          destruct (plain_item_pure it acc'
                      (bump self (if is_hot item then 1 else 0)))
            as [Hs' _].
          specialize (Hp (bump self (if is_hot item then 1 else 0))).
          destruct (plain_item it acc' self) as [s1 [o1 r1]].
          destruct (plain_item it acc'
                      (bump self (if is_hot item then 1 else 0)))
            as [s2 [o2 r2]].
          cbn [fst snd] in *. injection Hp as -> ->. subst s1 s2.
          destruct r1 as [a | e]; [| cbn; now injection EP as _ <- <-].
          destruct (DataStream.for_each plain_item rest a self)
            as [s3 [o3 r3]] eqn:E3.
          specialize (IHr a self o3 r3 s3 E3).
          destruct (DataStream.for_each plain_item rest a
                      (bump self (if is_hot item then 1 else 0)))
            as [s4 [o4 r4]].
          cbn [snd] in *. injection IHr as -> ->.
          now injection EP as _ <- <-. }
      rewrite Hrest in Hsame. injection Hsame as -> ->.
      split; [reflexivity |]. split; [exact Hplain |].
      exists ((if is_hot item then 1 else 0) + n).
      unfold hot_count in *. cbn [filter].
      split; [| split].
      * destruct (is_hot item); cbn [List.length]; lia.
      * now rewrite <- bump_bump.
      * intros l Hl. rewrite (Hdone l Hl).
        destruct (is_hot item); cbn [List.length]; lia.
    + cbn [fst snd] in *. subst self0.
      split; [reflexivity |]. split; [reflexivity |].
      exists (if is_hot item then 1 else 0).
      unfold hot_count. cbn [filter].
      split; [| split; [reflexivity | discriminate]].
      destruct (is_hot item); cbn [List.length]; lia.
Qed.

(** C10: on every batch, [filter_data] called with "High-priority" and
    called without a criterion end alike: they return the same list, or
    raise the same exception.  Without a criterion the stream is left as
    it was; with "High-priority" only its counter of alerts moves, up by
    the number of temp readings above 25 in the batch when the call
    returns. *)
Theorem C10_high_priority_filters_alike (data_batch : list value)
  (self : DataStream.SensorStream) :
  snd (filter_data data_batch (Some "High-priority") self)
  = snd (filter_data data_batch None self)
  /\ fst (filter_data data_batch None self) = self
  /\ exists n,
      0 <= n <= hot_count data_batch
      /\ fst (filter_data data_batch (Some "High-priority") self)
         = bump self n
      /\ (forall l,
             result (snd (filter_data data_batch (Some "High-priority") self))
             = Return l ->
             n = hot_count data_batch).
Proof.
  unfold DataStream.filter_data. cbn [String.eqb].
  change (("High-priority" =? "High-priority")%string) with true.
  cbv iota. apply for_each_high_vs_plain.
Qed.

End SensorFilter.

(** On the second batch of [main]: the two temp readings are returned with
    and without the criterion, and counted twice with it. *)
Lemma C10_high_priority_filters_alike_witness :
  let sensor := DataStream.new_stream (VStr "SENSOR_001") in
  let filter_data :=
    DataStream.filter_data sample_parse_float sample_float_gt in
  snd (filter_data data_batch2 (Some "High-priority") sensor)
  = snd (filter_data data_batch2 None sensor)
  /\ snd (filter_data data_batch2 None sensor)
     = ([], Return [VDict [("temp", VFloat "30.0")];
                    VDict [("temp", VFloat "35.0")]])
  /\ DataStream.criteria_sensor
       (fst (filter_data data_batch2 (Some "High-priority") sensor)) = 2.
Proof.
  intros sensor filter_data.
  split; [| split; reflexivity].
  exact (proj1 (C10_high_priority_filters_alike sample_parse_float
                  sample_float_gt data_batch2 sensor)).
Defined.

(** * Further properties of the code *)

(** ** Pipelines of ex3.py and nexus_pipeline.py *)

Lemma bind_ret_r {A} (m : IO A) : bind m ret = m.
Proof.
  destruct m as [out [a | e]]; simpl; [| reflexivity].
  now rewrite app_nil_r.
Qed.

Lemma bind_ext {A B} (m : IO A) (f g : A -> IO B) :
  (forall a, f a = g a) -> bind m f = bind m g.
Proof.
  intros H. destruct m as [out [a | e]]; simpl; [| reflexivity].
  now rewrite H.
Qed.

(** X1: a stage added to a pipeline runs last, on what the pipeline
    returned before the stage was added, and not at all when the pipeline
    raised; this holds in ex3.py and in nexus_pipeline.py. *)
Theorem add_stage_composes :
  (forall (p : Ex3.ProcessingPipeline) (stage : Ex3.ProcessingStage)
          (payload : value),
      Ex3.pipeline_process (Ex3.add_stage stage p) payload
      = (current <- Ex3.pipeline_process p payload ;;
         Ex3.process stage current))
  /\ (forall (p : Nexus.ProcessingPipeline) (stage : Nexus.ProcessingStage)
             (data : value),
         Nexus.pipeline_process (Nexus.add_stage stage p) data
         = (current <- Nexus.pipeline_process p data ;;
            Nexus.process stage current)).
Proof.
  split; intros p stage x.
  - unfold Ex3.pipeline_process, Ex3._run_stages, Ex3.add_stage.
    cbn [Ex3.stages]. rewrite ex3_run_from_app. apply bind_ext.
    intros a. cbn [Ex3.run_from]. apply bind_ret_r.
  - unfold Nexus.pipeline_process, Nexus.run_stages, Nexus.add_stage.
    cbn [Nexus.stages]. rewrite nexus_run_from_app. apply bind_ext.
    intros a. cbn [Nexus.run_from]. apply bind_ret_r.
Qed.

(** X2: a pipeline of ex3.py with the three stages of [main] fails in two
    cases only, an empty or false payload and the text "INVALID_DATA"; on
    every other payload it prints three lines and returns the text of the
    third, a [str] whatever the payload was. *)
Theorem ex3_pipeline_outcomes (p : Ex3.ProcessingPipeline) (payload : value) :
  Ex3.stages p = [Ex3.InputStage; Ex3.TransformStage; Ex3.OutputStage] ->
  (truthy payload = false ->
   Ex3.pipeline_process p payload
   = (["Input: " ++ py_str payload], Raise (ValueError "Empty data received")))
  /\ (payload = VStr "INVALID_DATA" ->
      Ex3.pipeline_process p payload
      = (["Input: INVALID_DATA"], Raise (ValueError "Invalid data format")))
  /\ (truthy payload = true -> payload <> VStr "INVALID_DATA" ->
      exists note text,
        Ex3.pipeline_process p payload
        = (["Input: " ++ py_str payload; "Transform: " ++ note;
            "Output: " ++ text],
           Return (VStr text))).
Proof.
  intros Hst. unfold Ex3.pipeline_process, Ex3._run_stages. rewrite Hst.
  cbn [Ex3.run_from Ex3.process Ex3.InputStage Ex3.TransformStage
         Ex3.OutputStage].
  unfold Ex3.InputStage_process. split; [| split].
  - intros H. rewrite H. reflexivity.
  - intros ->. reflexivity.
  - intros H Hne. rewrite H. cbn [negb].
    unfold Ex3.TransformStage_process, Ex3.OutputStage_process.
    destruct payload as [| b | z | r | s | l | d]; try discriminate.
    + eexists _, _. reflexivity.
    + eexists _, _. reflexivity.
    + eexists _, _. reflexivity.
    + cbn [bind print ret app isinstance_dict isinstance_str andb as_str
             eq_str].
      destruct (contains_char ","%char s).
      * eexists _, _. reflexivity.
      * destruct (String.eqb_spec s "INVALID_DATA") as [-> | _];
          [congruence |].
        eexists _, _. reflexivity.
    + eexists _, _. reflexivity.
    + cbn [bind print ret app isinstance_dict isinstance_str andb as_dict
             eq_str].
      destruct (dict_mem "sensor" d) eqn:Hs.
      * eexists _, _. cbn [bind print ret raise app fst snd isinstance_dict
                             as_dict].
        rewrite (dict_mem_set "status" "sensor" _ d Hs). reflexivity.
      * eexists _, _. cbn [bind print ret raise app fst snd isinstance_dict
                             as_dict].
        rewrite Hs. reflexivity.
Qed.

Lemma ex3_pipeline_outcomes_witness :
  Ex3.pipeline_process Ex3.csv_pipeline (VStr "")
  = (["Input: "], Raise (ValueError "Empty data received"))
  /\ exists note text,
      Ex3.pipeline_process Ex3.csv_pipeline (VInt 7)
      = (["Input: 7"; "Transform: " ++ note; "Output: " ++ text],
         Return (VStr text)).
Proof.
  split.
  - exact (proj1 (ex3_pipeline_outcomes Ex3.csv_pipeline (VStr "") eq_refl)
             eq_refl).
  - apply (proj2 (proj2 (ex3_pipeline_outcomes Ex3.csv_pipeline (VInt 7)
                           eq_refl))).
    + reflexivity.
    + discriminate.
Defined.

Ltac run_io :=
  cbn [bind print ret raise app fst snd isinstance_dict isinstance_str andb
         negb as_dict as_str eq_str].

(** X3: a pipeline of nexus_pipeline.py with the three stages of [main]
    fails in two cases only, an empty or false payload and a dict without
    a "sensor" field; on every other payload it prints three lines and
    returns a payload.  The [KeyError] that the output stage can raise is
    never reached behind the transform stage. *)
Theorem nexus_pipeline_outcomes (p : Nexus.ProcessingPipeline) (data : value) :
  Nexus.stages p
  = [Nexus.InputStage; Nexus.TransformStage; Nexus.OutputStage] ->
  (truthy data = false ->
   Nexus.pipeline_process p data
   = (["Input: " ++ py_str data], Raise (ValueError "Data is empty")))
  /\ (truthy data = true -> isinstance_dict data = true ->
      dict_mem "sensor" (as_dict data) = false ->
      Nexus.pipeline_process p data
      = (["Input: " ++ py_str data], Raise (ValueError "Invalid data format")))
  /\ (truthy data = true ->
      (isinstance_dict data = true ->
       dict_mem "sensor" (as_dict data) = true) ->
      exists transformation text data',
        Nexus.pipeline_process p data
        = (["Input: " ++ py_str data; "Tranform: " ++ transformation;
            "Output: " ++ text],
           Return data'))
  /\ (forall key,
         result (Nexus.pipeline_process p data) <> Raise (KeyError key)).
Proof.
  intros Hst. unfold Nexus.pipeline_process, Nexus.run_stages. rewrite Hst.
  cbn [Nexus.run_from Nexus.process Nexus.InputStage Nexus.TransformStage
         Nexus.OutputStage].
  unfold Nexus.InputStage_process, Nexus.TransformStage_process,
    Nexus.OutputStage_process, getitem.
  destruct (truthy data) eqn:Ht; cbn [negb].
  2: { repeat split; try discriminate; intros; discriminate. }
  split; [discriminate |].
  destruct data as [| b | z | r | s | l | d]; try discriminate Ht; run_io.
  - repeat split; try discriminate.
    intros _ _. eexists _, _, _. reflexivity.
  - repeat split; try discriminate.
    intros _ _. eexists _, _, _. reflexivity.
  - repeat split; try discriminate.
    intros _ _. eexists _, _, _. reflexivity.
  - destruct (contains_char ","%char s); run_io.
    + repeat split; try discriminate.
      intros _ _. eexists _, _, _. reflexivity.
    + repeat split; try discriminate.
      intros _ _. eexists _, _, _. reflexivity.
  - repeat split; try discriminate.
    intros _ _. eexists _, _, _. reflexivity.
  - destruct (dict_mem "sensor" d) eqn:Hs; run_io.
    + rewrite (dict_mem_set "sensor" "sensor" _ d Hs).
      repeat split; try discriminate.
      intros _ _. eexists _, _, _. reflexivity.
    + split; [reflexivity |]. split; [| discriminate].
      intros _ H. specialize (H eq_refl). discriminate.
Qed.

Lemma nexus_pipeline_outcomes_witness :
  Nexus.pipeline_process Nexus.stream_pipeline (VDict [("sfga", VStr "temp")])
  = (["Input: {'sfga': 'temp'}"], Raise (ValueError "Invalid data format")).
Proof.
  exact (proj1 (proj2 (nexus_pipeline_outcomes Nexus.stream_pipeline
                         (VDict [("sfga", VStr "temp")]) eq_refl))
           eq_refl eq_refl eq_refl).
Defined.

(** X4: on a dict with neither a "sensor" nor a "type" field the output
    stage of nexus_pipeline.py raises [KeyError] for "type" before it
    prints, where the output stage of ex3.py, which reads the field with
    [get], prints an empty result and returns the empty text. *)
Theorem output_stage_missing_type (d : record) :
  dict_mem "sensor" d = false ->
  dict_mem "type" d = false ->
  Nexus.OutputStage_process (VDict d) = ([], Raise (KeyError "type"))
  /\ Ex3.OutputStage_process (VDict d) = (["Output: "], Return (VStr "")).
Proof.
  intros Hs Ht.
  unfold Nexus.OutputStage_process, Ex3.OutputStage_process, getitem,
    dict_get_default.
  run_io. rewrite Hs. unfold dict_mem in Ht.
  destruct (dict_get "type" d); [discriminate |]. split; reflexivity.
Qed.

Lemma output_stage_missing_type_witness :
  Nexus.OutputStage_process (VDict [("a", VInt 1)])
  = ([], Raise (KeyError "type"))
  /\ Ex3.OutputStage_process (VDict [("a", VInt 1)])
     = (["Output: "], Return (VStr "")).
Proof.
  exact (output_stage_missing_type [("a", VInt 1)] eq_refl eq_refl).
Defined.

Lemma dict_set_idempotent (k : string) (v : value) (d : record) :
  dict_set k v (dict_set k v d) = dict_set k v d.
Proof.
  induction d as [| [k' v'] rest IH]; simpl.
  - now rewrite String.eqb_refl.
  - destruct (k' =? k)%string eqn:E; simpl; rewrite E; [reflexivity |].
    now rewrite IH.
Qed.

Lemma contains_char_truthy (c : ascii) (s : string) :
  contains_char c s = true -> truthy (VStr s) = true.
Proof. destruct s; [discriminate | reflexivity]. Qed.

(** X5: what a pipeline of nexus_pipeline.py returns can be fed to a
    pipeline with the same stages, as [main] does in its chaining demo, and
    comes back unchanged, except after a text with commas: the record built
    from it has no "sensor" field and the second run fails. *)
Theorem nexus_pipeline_rerun (p q : Nexus.ProcessingPipeline)
  (data data' : value) (out : list string) :
  Nexus.stages p
  = [Nexus.InputStage; Nexus.TransformStage; Nexus.OutputStage] ->
  Nexus.stages q
  = [Nexus.InputStage; Nexus.TransformStage; Nexus.OutputStage] ->
  Nexus.pipeline_process p data = (out, Return data') ->
  if isinstance_str data && contains_char ","%char (as_str data)
  then result (Nexus.pipeline_process q data')
       = Raise (ValueError "Invalid data format")
  else result (Nexus.pipeline_process q data') = Return data'.
Proof.
  intros Hp Hq. unfold Nexus.pipeline_process, Nexus.run_stages.
  rewrite Hp, Hq.
  cbn [Nexus.run_from Nexus.process Nexus.InputStage Nexus.TransformStage
         Nexus.OutputStage].
  unfold Nexus.InputStage_process, Nexus.TransformStage_process,
    Nexus.OutputStage_process, getitem.
  destruct (truthy data) eqn:Ht; cbn [negb]; [| discriminate].
  destruct data as [| b | z | r | s | l | d]; try discriminate Ht; run_io.
  - intros H. injection H as _ <-. cbn in Ht. rewrite Ht. reflexivity.
  - intros H. injection H as _ <-. cbn in Ht. cbn [truthy]. rewrite Ht.
    reflexivity.
  - intros H. injection H as _ <-. cbn in Ht. cbn [truthy]. rewrite Ht.
    reflexivity.
  - destruct (contains_char ","%char s) eqn:Hc; run_io.
    + intros H. injection H as _ <-. reflexivity.
    + intros H. injection H as _ <-. cbn in Ht. cbn [truthy]. rewrite Ht.
      run_io. rewrite Hc. reflexivity.
  - intros H. injection H as _ <-. destruct l; [discriminate |]. reflexivity.
  - destruct (dict_mem "sensor" d) eqn:Hs; run_io; [| discriminate].
    rewrite (dict_mem_set "sensor" "sensor" _ d Hs).
    intros H. injection H as _ <-.
    assert (Hne : truthy (VDict (dict_set "sensor" (VStr "valid") d)) = true).
    { destruct d as [| [k v] rest]; [discriminate |].
      cbn. destruct (k =? "sensor")%string; reflexivity. }
    rewrite Hne. run_io.
    rewrite (dict_mem_set "sensor" "sensor" _ d Hs). run_io.
    rewrite dict_set_idempotent.
    rewrite (dict_mem_set "sensor" "sensor" _ d Hs). reflexivity.
Qed.

Lemma nexus_pipeline_rerun_witness :
  result (Nexus.pipeline_process Nexus.csv_pipeline
            (VDict [("sensor", VStr "valid"); ("value", VFloat "23.5")]))
  = Return (VDict [("sensor", VStr "valid"); ("value", VFloat "23.5")]).
Proof.
  exact (nexus_pipeline_rerun Nexus.json_pipeline Nexus.csv_pipeline
           (VDict [("sensor", VStr "temp"); ("value", VFloat "23.5")])
           (VDict [("sensor", VStr "valid"); ("value", VFloat "23.5")])
           _ eq_refl eq_refl eq_refl).
Defined.

(** X6: for every text with a comma a three-stage pipeline reports one
    action, however many fields the text has: ex3.py returns the text
    "User activity logged: 1 actions processed", and nexus_pipeline.py
    prints it as its last line. *)
Theorem delimited_text_logs_one_action (s : string)
  (p : Ex3.ProcessingPipeline) (q : Nexus.ProcessingPipeline) :
  contains_char ","%char s = true ->
  Ex3.stages p = [Ex3.InputStage; Ex3.TransformStage; Ex3.OutputStage] ->
  Nexus.stages q
  = [Nexus.InputStage; Nexus.TransformStage; Nexus.OutputStage] ->
  Ex3.pipeline_process p (VStr s)
  = (["Input: " ++ s; "Transform: Parsed and structured data";
      "Output: User activity logged: 1 actions processed"],
     Return (VStr "User activity logged: 1 actions processed"))
  /\ printed_lines (Nexus.pipeline_process q (VStr s))
     = ["Input: " ++ s; "Tranform: Parsed and structured data";
        "Output: User activity logged: 1 actions processed"].
Proof.
  intros Hc Hp Hq.
  pose proof (contains_char_truthy _ _ Hc) as Ht.
  unfold Ex3.pipeline_process, Ex3._run_stages, Nexus.pipeline_process,
    Nexus.run_stages, printed_lines.
  rewrite Hp, Hq.
  cbn [Ex3.run_from Ex3.process Ex3.InputStage Ex3.TransformStage
         Ex3.OutputStage Nexus.run_from Nexus.process Nexus.InputStage
         Nexus.TransformStage Nexus.OutputStage].
  unfold Ex3.InputStage_process, Ex3.TransformStage_process,
    Ex3.OutputStage_process, Nexus.InputStage_process,
    Nexus.TransformStage_process, Nexus.OutputStage_process, getitem.
  rewrite Ht. run_io. rewrite Hc. split; reflexivity.
Qed.

Lemma delimited_text_logs_one_action_witness :
  Ex3.pipeline_process Ex3.csv_pipeline (VStr "a,b,c,d,e")
  = (["Input: a,b,c,d,e"; "Transform: Parsed and structured data";
      "Output: User activity logged: 1 actions processed"],
     Return (VStr "User activity logged: 1 actions processed")).
Proof.
  exact (proj1 (delimited_text_logs_one_action "a,b,c,d,e" Ex3.csv_pipeline
                  Nexus.csv_pipeline eq_refl eq_refl eq_refl)).
Defined.

(** ** Registration and routing *)

Lemma nexus_select_app (ps : list Nexus.ProcessingPipeline)
  (p : Nexus.ProcessingPipeline) (format : string) :
  Nexus.select_pipeline (ps ++ [p]) format
  = match Nexus.select_pipeline ps format with
    | Some q => Some q
    | None => if (nexus_format_tag p =? format)%string then Some p else None
    end.
Proof.
  induction ps as [| q ps IH].
  - cbn [app]. rewrite nexus_select_cons. reflexivity.
  - cbn [app]. rewrite !nexus_select_cons.
    destruct (nexus_format_tag q =? format)%string; [reflexivity | exact IH].
Qed.

Lemma ex3_select_app (ps : list Ex3.ProcessingPipeline)
  (p : Ex3.ProcessingPipeline) (format_type : string) :
  Ex3.select_pipeline (ps ++ [p]) format_type
  = match Ex3.select_pipeline ps format_type with
    | Some q => Some q
    | None =>
        if (ex3_format_tag p =? format_type)%string then Some p else None
    end.
Proof.
  induction ps as [| q ps IH].
  - cbn [app]. rewrite ex3_select_cons. reflexivity.
  - cbn [app]. rewrite !ex3_select_cons.
    destruct (ex3_format_tag q =? format_type)%string;
      [reflexivity | exact IH].
Qed.

(** X7: registering a pipeline never changes which pipeline serves a
    format that was served before; a format that was not served is served
    by the new pipeline exactly when it is the format of its class.  This
    holds in nexus_pipeline.py and in ex3.py. *)
Theorem add_pipeline_routing :
  (forall (self : Nexus.NexusManager) (p : Nexus.ProcessingPipeline)
          (format : string),
      Nexus.select_pipeline (Nexus.pipeline (Nexus.add_pipeline p self)) format
      = match Nexus.select_pipeline (Nexus.pipeline self) format with
        | Some q => Some q
        | None =>
            if (nexus_format_tag p =? format)%string then Some p else None
        end)
  /\ (forall (self : Ex3.NexusManager) (p : Ex3.ProcessingPipeline)
             (format_type : string),
         Ex3.select_pipeline (Ex3.pipelines (Ex3.add_pipeline p self))
           format_type
         = match Ex3.select_pipeline (Ex3.pipelines self) format_type with
           | Some q => Some q
           | None =>
               if (ex3_format_tag p =? format_type)%string then Some p
               else None
           end).
Proof.
  split; intros self p fmt.
  - apply nexus_select_app.
  - apply ex3_select_app.
Qed.

(** X8: only the three texts "json", "csv" and "stream" are formats: for
    any other text, whatever pipelines are registered, no pipeline is
    selected and [process_data] prints its error line and returns. *)
Theorem unknown_format_not_served (format : string) :
  format <> "json" -> format <> "csv" -> format <> "stream" ->
  (forall (self : Nexus.NexusManager) (data : value),
      Nexus.process_data data format self
      = (self, (["[ERROR]: " ++ format ++ " is not a register pipeline"],
                Return tt)))
  /\ (forall (self : Ex3.NexusManager) (data_packet : value),
         Ex3.process_data data_packet format self
         = (self, (["[ERROR] No suitable pipeline found for " ++ format],
                   Return tt))).
Proof.
  intros Hj Hc Hs. split.
  - intros self data. apply nexus_unmatched_format.
    apply Forall_forall. intros p _. unfold nexus_format_tag.
    destruct (Nexus.class_of p); congruence.
  - intros self data_packet.
    assert (H : Ex3.select_pipeline (Ex3.pipelines self) format = None).
    { apply ex3_select_none. apply Forall_forall. intros p _.
      unfold ex3_format_tag. destruct (Ex3.class_of p); congruence. }
    unfold Ex3.process_data. now rewrite H.
Qed.

Lemma unknown_format_not_served_witness :
  Nexus.process_data reading "JSON" Nexus.main_manager
  = (Nexus.main_manager,
     (["[ERROR]: JSON is not a register pipeline"], Return tt)).
Proof.
  apply (proj1 (unknown_format_not_served "JSON" ltac:(discriminate)
                  ltac:(discriminate) ltac:(discriminate))).
Defined.

(** ** ex.py *)

Section ExStages.

Variable float_gt : string -> Z -> bool.
Variable float_lt : string -> Z -> bool.

Lemma ex_input_returns (data : value) (verbose : bool) :
  exists out, Ex.InputStage_process data verbose = (out, Return data).
Proof.
  unfold Ex.InputStage_process.
  destruct verbose; [| eexists; reflexivity].
  destruct (isinstance_dict data); [eexists; reflexivity |].
  destruct (isinstance_str data); [| eexists; reflexivity].
  destruct (1 <? _); eexists; reflexivity.
Qed.

Lemma ex_transform_returns (data : value) (verbose : bool) :
  exists out v,
    Ex.TransformStage_process float_gt float_lt data verbose = (out, Return v)
    /\ (v = data \/ exists text, v = VStr text).
Proof.
  unfold Ex.TransformStage_process.
  destruct (Ex.transform_body float_gt float_lt data) as [out [t | e]].
  - unfold Ex.transform_report.
    destruct verbose; cbn [bind ret print];
      [destruct (isinstance_dict data);
       [| destruct (isinstance_str data);
          [destruct (2 <? _) |]] |];
      cbn; eauto 6.
  - cbn. eauto 6.
Qed.

Lemma ex_output_returns (data : value) (verbose : bool) :
  exists out, Ex.OutputStage_process data verbose = (out, Return data).
Proof.
  unfold Ex.OutputStage_process. destruct verbose; eexists; reflexivity.
Qed.

(** X9: a pipeline of ex.py with the three stages of its [stage_list]
    never raises, whatever the data: it returns either a text or, when the
    transform stage met an error, the data it was given. *)
Theorem ex_pipeline_always_returns (p : Ex.ProcessingPipeline) (data : value)
  (verbose : bool) :
  Ex.stages p = Ex.stage_list float_gt float_lt ->
  exists out v,
    Ex.pipeline_process p data verbose = (out, Return v)
    /\ (v = data \/ exists text, v = VStr text).
Proof.
  intros Hst. unfold Ex.pipeline_process. rewrite Hst.
  unfold Ex.stage_list.
  cbn [Ex.run_from Ex.process Ex.InputStage Ex.TransformStage Ex.OutputStage].
  destruct (ex_input_returns data verbose) as [o1 ->].
  destruct (ex_transform_returns data verbose) as (o2 & v & H2 & Hv).
  destruct (ex_output_returns v verbose) as [o3 H3].
  cbn [bind]. rewrite H2. cbn [bind]. rewrite H3.
  eexists _, v. split; [reflexivity | exact Hv].
Qed.

(** X10: on a dict without a "value" field or without a "unit" field the
    transform stage of ex.py prints its error line, verbose or not, and
    returns the dict it was given instead of a text. *)
Theorem ex_transform_missing_field (d : record) (verbose : bool) :
  dict_mem "value" d = false \/ dict_mem "unit" d = false ->
  Ex.TransformStage_process float_gt float_lt (VDict d) verbose
  = (["Error detected in Stage 2: Invalid data format"], Return (VDict d)).
Proof.
  intros H. unfold Ex.TransformStage_process, Ex.transform_body, getitem.
  cbn [isinstance_dict as_dict]. unfold dict_mem in H.
  destruct (dict_get "value" d) as [temp |]; [| reflexivity].
  destruct H as [H | H]; [discriminate |].
  destruct (dict_get "unit" d) as [unit |]; [discriminate | reflexivity].
Qed.

(** X11: for a dict whose "value" is an integer the transform stage of
    ex.py labels the reading by its range, "High" above 40, "Low" below 0
    and "Normal" from 0 to 40, both ends included, and renders the unit
    from the "unit" field of the dict. *)
Theorem ex_temperature_ranges (d : record) (t : Z) (unit : value) :
  dict_get "value" d = Some (VInt t) ->
  dict_get "unit" d = Some unit ->
  let label :=
    if 40 <? t then " (High range)"
    else if t <? 0 then " (Low range)"
    else " (Normal range)" in
  Ex.TransformStage_process float_gt float_lt (VDict d) false
  = ([], Return (VStr ("Processed temperature reading: " ++ str_of_Z t
                         ++ "°" ++ py_str unit ++ label)))
  /\ (0 <= t <= 40 -> label = " (Normal range)").
Proof.
  intros Hv Hu label. subst label. split.
  - unfold Ex.TransformStage_process, Ex.transform_body, getitem.
    cbn [isinstance_dict as_dict]. rewrite Hv, Hu.
    cbn [bind ret Ex.gt_int Ex.lt_int app].
    destruct (40 <? t); [reflexivity |].
    cbn [bind ret app]. destruct (t <? 0); reflexivity.
  - intros [H0 H40].
    destruct (Z.ltb_spec 40 t); [lia |].
    destruct (Z.ltb_spec t 0); [lia | reflexivity].
Qed.

End ExStages.

Lemma ex_pipeline_always_returns_witness :
  exists out v,
    Ex.pipeline_process
      (ex_chain_pipeline "p_01")
      (VDict [("sensor", VStr "temp"); ("unit", VStr "C")]) false
    = (out, Return v)
    /\ (v = VDict [("sensor", VStr "temp"); ("unit", VStr "C")]
        \/ exists text, v = VStr text).
Proof.
  apply (ex_pipeline_always_returns sample_float_gt sample_float_lt
           (ex_chain_pipeline "p_01")).
  reflexivity.
Defined.

Lemma ex_transform_missing_field_witness :
  Ex.TransformStage_process sample_float_gt sample_float_lt
    (VDict [("sensor", VStr "temp"); ("unit", VStr "C")]) false
  = (["Error detected in Stage 2: Invalid data format"],
     Return (VDict [("sensor", VStr "temp"); ("unit", VStr "C")])).
Proof.
  apply (ex_transform_missing_field sample_float_gt sample_float_lt).
  left. reflexivity.
Defined.

Lemma ex_temperature_ranges_witness :
  Ex.TransformStage_process sample_float_gt sample_float_lt
    (VDict [("sensor", VStr "temp"); ("value", VInt 40); ("unit", VStr "C")])
    false
  = ([], Return (VStr "Processed temperature reading: 40°C (Normal range)")).
Proof.
  exact (proj1 (ex_temperature_ranges sample_float_gt sample_float_lt
                  [("sensor", VStr "temp"); ("value", VInt 40);
                   ("unit", VStr "C")] 40 (VStr "C") eq_refl eq_refl)).
Defined.

Section ExManager.

Variable float_gt : string -> Z -> bool.
Variable float_lt : string -> Z -> bool.

(** X12: for a text with a comma the transform stage of ex.py reports as
    many actions as the text has fields equal to "action", none when no
    field is, and never more than the number of fields. *)
Theorem ex_counts_action_fields (s : string) :
  contains_char ","%char s = true ->
  let fields := str_split ","%char s in
  let n := Ex.count_actions fields in
  Ex.TransformStage_process float_gt float_lt (VStr s) false
  = ([], Return (VStr ("User activity logged: " ++ str_of_Z n
                         ++ " actions processed")))
  /\ 0 <= n <= Z.of_nat (List.length fields)
  /\ (Forall (fun field => field <> "action") fields -> n = 0).
Proof.
  intros Hc fields n. subst fields n.
  pose proof (str_split_delimited _ _ Hc) as Hlen.
  split; [| split].
  - unfold Ex.TransformStage_process, Ex.transform_body.
    cbn [isinstance_dict isinstance_str as_str].
    destruct (Z.ltb_spec 1 (Z.of_nat (List.length (str_split ","%char s))));
      [reflexivity | lia].
  - unfold Ex.count_actions.
    pose proof (filter_length_le (fun action => (action =? "action")%string)
                  (str_split ","%char s)).
    lia.
  - unfold Ex.count_actions. generalize (str_split ","%char s).
    intros fields H.
    induction H as [| field rest Hf _ IH]; [reflexivity |].
    cbn [filter]. apply String.eqb_neq in Hf. now rewrite Hf.
Qed.

Lemma ex_quiet_pipeline (p : Ex.ProcessingPipeline) (data : value) :
  Ex.stages p = Ex.stage_list float_gt float_lt ->
  isinstance_dict data = false ->
  exists text, Ex.pipeline_process p data false = ([], Return (VStr text)).
Proof.
  intros Hst Hd. unfold Ex.pipeline_process. rewrite Hst.
  unfold Ex.stage_list.
  cbn [Ex.run_from Ex.process Ex.InputStage Ex.TransformStage Ex.OutputStage].
  unfold Ex.InputStage_process. cbn [bind ret app].
  unfold Ex.TransformStage_process, Ex.transform_body, Ex.OutputStage_process.
  rewrite Hd.
  destruct (isinstance_str data); [| eexists; reflexivity].
  destruct (1 <? _); eexists; reflexivity.
Qed.

Lemma ex_process_all_quiet (ps : list Ex.ProcessingPipeline) (data : value) :
  Forall (fun p => Ex.stages p = Ex.stage_list float_gt float_lt) ps ->
  isinstance_dict data = false ->
  Ex.process_all ps data = ([], Return tt).
Proof.
  intros Hps Hd. induction Hps as [| p ps Hp _ IH]; [reflexivity |].
  cbn [Ex.process_all].
  destruct (ex_quiet_pipeline p data Hp Hd) as [text ->].
  cbn [bind app]. now rewrite IH.
Qed.

(** X13: the manager of ex.py gives every registered pipeline the data it
    was called with, and what it then reports is the length of that data:
    with pipelines of the three stages and data that is a text or a list,
    the call prints the line of pipeline names, the data flow line, the
    count and the performance line, and nothing else, however many
    pipelines are registered; for data without a length it raises
    [TypeError] after the first two lines. *)
Theorem ex_process_data_reports_length (self : Ex.NexusManager)
  (data : value) :
  Forall (fun p => Ex.stages p = Ex.stage_list float_gt float_lt)
    (Ex.pipelines self) ->
  isinstance_dict data = false ->
  let header :=
    [str_join " -> " (map Ex.pipeline_id (Ex.pipelines self));
     "Data flow: Raw -> Processed -> Analyzed -> Stored" ++ Ex.newline] in
  (forall n, py_len data = ([], Return n) ->
     Ex.process_data data self
     = (self,
        (List.app header
           ["Chain result: " ++ str_of_Z n
              ++ " records processed throught 3-stage pipeline";
            "Performance: 95% efficiency, 0.2s total processing time"],
         Return tt)))
  /\ (forall e, py_len data = ([], Raise e) ->
        Ex.process_data data self = (self, (header, Raise e))).
Proof.
  intros Hps Hd header. subst header. unfold Ex.process_data.
  rewrite (ex_process_all_quiet _ _ Hps Hd).
  split; intros x Hlen; rewrite Hlen; reflexivity.
Qed.

End ExManager.

Lemma ex_counts_action_fields_witness :
  Ex.TransformStage_process sample_float_gt sample_float_lt
    (VStr "user,timestamp,action") false
  = ([], Return (VStr "User activity logged: 1 actions processed")).
Proof.
  exact (proj1 (ex_counts_action_fields sample_float_gt sample_float_lt
                  "user,timestamp,action" eq_refl)).
Defined.

Lemma ex_process_data_reports_length_witness :
  Ex.process_data (VList [VInt 3; VInt 1; VInt 2]) ex_chain_manager
  = (ex_chain_manager,
     (["Pipeline A -> Pipeline B -> Pipeline C";
       "Data flow: Raw -> Processed -> Analyzed -> Stored" ++ Ex.newline;
       "Chain result: 3 records processed throught 3-stage pipeline";
       "Performance: 95% efficiency, 0.2s total processing time"],
      Return tt)).
Proof.
  apply (proj1 (ex_process_data_reports_length sample_float_gt sample_float_lt
                  ex_chain_manager (VList [VInt 3; VInt 1; VInt 2])
                  ltac:(repeat constructor) eq_refl) 3).
  reflexivity.
Defined.

(** ** stream_processor.py *)

Lemma accumulate_sum (data : list value) (count sum : Z) :
  snd (StreamProcessor.accumulate data count sum) = sum + sum_of_ints data.
Proof.
  revert count sum. induction data as [| number rest IH]; intros count sum.
  - simpl. lia.
  - cbn [StreamProcessor.accumulate sum_of_ints fold_right]. rewrite IH.
    fold (sum_of_ints rest). destruct number; lia.
Qed.

Lemma validate_loop_first_non_int (data : list value) :
  StreamProcessor.validate_loop data
  = match first_non_int data with
    | None => ret true
    | Some bad => raise (TypeError (py_str bad ++ " is not int"))
    end.
Proof.
  unfold first_non_int. induction data as [| number rest IH]; [reflexivity |].
  cbn [StreamProcessor.validate_loop find].
  destruct (negb (StreamProcessor.type_is_int number));
    [reflexivity | exact IH].
Qed.

(** X14: [NumericProcessor.validate] never raises: it returns [True]
    without printing when every item is an [int], and otherwise prints one
    line that names the first item that is not (a [bool] is not an [int]
    here) and returns [False]; [process] then returns [None] after that
    line, without counting or dividing. *)
Theorem numeric_validate_first_offender
  (float_quotient : Z -> Z -> IO value) (data : list value) :
  match first_non_int data with
  | None => StreamProcessor.validate data = ([], Return true)
  | Some bad =>
      StreamProcessor.validate data
      = (["Error: " ++ py_str bad ++ " is not int"], Return false)
      /\ StreamProcessor.process float_quotient data
         = (["Error: " ++ py_str bad ++ " is not int"], Return VNone)
  end.
Proof.
  unfold StreamProcessor.process, StreamProcessor.validate.
  rewrite validate_loop_first_non_int.
  destruct (first_non_int data) as [bad |]; [| reflexivity].
  split; reflexivity.
Qed.

(** X15: on a list of integers that is not empty, [NumericProcessor.process]
    counts every item and adds them all: it divides the sum of the list by
    its length and returns the summary with these three numbers. *)
Theorem numeric_process_summary (float_quotient : Z -> Z -> IO value)
  (data : list value) :
  first_non_int data = None ->
  data <> [] ->
  let count := Z.of_nat (List.length data) in
  let sum := sum_of_ints data in
  StreamProcessor.process float_quotient data
  = (avg <- float_quotient sum count ;;
     ret (VStr ("Processed " ++ str_of_Z count ++ " numeric values, sum="
                  ++ str_of_Z sum ++ ", avg=" ++ py_str avg))).
Proof.
  intros Hints Hne count sum. subst count sum.
  unfold StreamProcessor.process, StreamProcessor.validate.
  rewrite validate_loop_first_non_int, Hints. cbn [try_except ret bind negb].
  pose proof (accumulate_count data 0 0) as Hcount.
  pose proof (accumulate_sum data 0 0) as Hsum.
  destruct (StreamProcessor.accumulate data 0 0) as [count sum].
  cbn [fst snd] in Hcount, Hsum. rewrite Z.add_0_l in Hcount, Hsum.
  subst count sum. unfold StreamProcessor.truediv.
  destruct (Z.eqb_spec (Z.of_nat (List.length data)) 0) as [Hz | _].
  - destruct data; [congruence | cbn [List.length] in Hz; lia].
  - destruct (float_quotient _ _) as [out [avg | e]]; reflexivity.
Qed.

Lemma numeric_process_summary_witness :
  StreamProcessor.process (fun _ _ => ret (VFloat "3.0"))
    [VInt 1; VInt 2; VInt 3; VInt 4; VInt 5]
  = ([], Return (VStr "Processed 5 numeric values, sum=15, avg=3.0")).
Proof.
  exact (numeric_process_summary (fun _ _ => ret (VFloat "3.0"))
           [VInt 1; VInt 2; VInt 3; VInt 4; VInt 5] eq_refl
           ltac:(discriminate)).
Defined.

Lemma prefix_spec (needle hay : string) :
  String.prefix needle hay = true <-> exists post, hay = needle ++ post.
Proof.
  revert hay. induction needle as [| c needle IH]; intros hay.
  - split; [intros _; now exists hay | intros _; destruct hay; reflexivity].
  - destruct hay as [| c' hay]; simpl.
    + split; [discriminate | intros [post H]; discriminate].
    + destruct (Ascii.ascii_dec c c') as [-> | Hne].
      * rewrite IH. split; intros [post H]; exists post.
        -- now rewrite H.
        -- now injection H.
      * split; [discriminate |].
        intros [post H]. injection H as H _. congruence.
Qed.

(** [contains_sub] is Python's [in] on texts: the needle lies somewhere in
    the text. *)
Lemma contains_sub_spec (needle hay : string) :
  contains_sub needle hay = true
  <-> exists pre post, hay = pre ++ needle ++ post.
Proof.
  induction hay as [| c hay IH].
  - cbn [contains_sub]. rewrite orb_false_r, prefix_spec. split.
    + intros [post H]. now exists "", post.
    + intros (pre & post & H). destruct pre; [now exists post |].
      discriminate.
  - cbn [contains_sub]. rewrite orb_true_iff, prefix_spec, IH. split.
    + intros [[post H] | (pre & post & H)].
      * now exists "", post.
      * exists (String c pre), post. simpl. now rewrite H.
    + intros (pre & post & H). destruct pre as [| c' pre].
      * left. now exists post.
      * right. simpl in H. injection H as _ H. now exists pre, post.
Qed.

(** X16: [LogProcessor.validate] accepts every value that is not a zero,
    but [process] can only search a text, a list or a dict: for [None],
    [True], a number that is not zero, it raises [TypeError] although the
    validation passed. *)
Theorem log_process_scalar_raises (data : value) :
  is_scalar data = true ->
  eq_zero data = false ->
  StreamProcessor.LogProcessor_validate data = ([], Return true)
  /\ StreamProcessor.LogProcessor_process data
     = ([], Raise (TypeError ("argument of type '" ++ py_type_name data
                                ++ "' is not iterable"))).
Proof.
  intros Hs Hz.
  unfold StreamProcessor.LogProcessor_process,
    StreamProcessor.LogProcessor_validate.
  rewrite Hz. cbn [try_except ret bind negb app].
  destruct data; try discriminate Hs; split; reflexivity.
Qed.

Lemma log_process_scalar_raises_witness :
  StreamProcessor.LogProcessor_validate (VInt 404) = ([], Return true)
  /\ StreamProcessor.LogProcessor_process (VInt 404)
     = ([], Raise (TypeError "argument of type 'int' is not iterable")).
Proof.
  exact (log_process_scalar_raises (VInt 404) eq_refl eq_refl).
Defined.

(** X17: [LogProcessor.process] returns [None] exactly for the zeros ([0],
    [0.0], [False]), after the line "Error: No connection"; for a text,
    the empty text included, it always returns a message, the alert when
    the text has "ERROR" somewhere in it and the information otherwise. *)
Theorem log_process_messages (data : value) :
  (eq_zero data = true ->
   StreamProcessor.LogProcessor_process data
   = (["Error: No connection"], Return VNone))
  /\ (result (StreamProcessor.LogProcessor_process data) = Return VNone ->
      eq_zero data = true)
  /\ (forall s,
         data = VStr s ->
         ((exists pre post, s = pre ++ "ERROR" ++ post) ->
          StreamProcessor.LogProcessor_process data
          = ([],
             Return (VStr "[ALERT] ERROR level detected: Connection timeout")))
         /\ (~ (exists pre post, s = pre ++ "ERROR" ++ post) ->
             StreamProcessor.LogProcessor_process data
             = ([], Return (VStr "[INFO] INFO level detected: System ready")))).
Proof.
  unfold StreamProcessor.LogProcessor_process,
    StreamProcessor.LogProcessor_validate.
  split; [| split].
  - intros ->. reflexivity.
  - destruct (eq_zero data); [reflexivity |].
    cbn [try_except ret bind negb app].
    destruct data as [| b | z | r | s | l | d]; cbn; try discriminate.
    + destruct (contains_sub "ERROR" s); discriminate.
    + destruct (existsb _ l); discriminate.
    + destruct (dict_mem "ERROR" d); discriminate.
  - intros s ->. cbn [eq_zero try_except ret bind negb app py_in].
    rewrite <- contains_sub_spec.
    destruct (contains_sub "ERROR" s); split; intros H; try reflexivity;
      congruence.
Qed.

Lemma log_process_messages_witness :
  StreamProcessor.LogProcessor_process (VStr "ERROR: Connection timeout")
  = ([], Return (VStr "[ALERT] ERROR level detected: Connection timeout")).
Proof.
  apply (proj1 (proj2 (proj2 (log_process_messages
                                (VStr "ERROR: Connection timeout")))
                  "ERROR: Connection timeout" eq_refl)).
  exists "", ": Connection timeout". reflexivity.
Defined.

(** ** data_stream.py: the sensor stream *)

Section SensorOutput.

Variable parse_float : string -> option string.
Variable float_gt : string -> Z -> bool.

Lemma plain_item_shape (item : value) (acc : list value)
  (self : DataStream.SensorStream) :
  Forall is_sensor_record acc ->
  match snd (DataStream.plain_item parse_float item acc self) with
  | (out, Return l) =>
      out = [] /\ Forall is_sensor_record l
      /\ (List.length l <= S (List.length acc))%nat
  | (out, Raise e) => out = [] /\ exists msg, e = ValueError msg
  end.
Proof.
  intros Hacc. unfold DataStream.plain_item.
  destruct (isinstance_str item && contains_char ":"%char (as_str item));
    [| cbn; auto].
  unfold DataStream.unpack2.
  destruct (str_split ":"%char (as_str item)) as [| key [| val [| x rest]]];
    try (cbn; eauto).
  unfold mbind, lift, mret, ret, raise, DataStream.float.
  destruct (DataStream.is_sensor_key key) eqn:Hk; cbn [fst snd];
    [| cbn; auto].
  destruct (parse_float val) as [x |]; [| cbn; eauto].
  cbn [fst snd app]. split; [reflexivity |]. split.
  - apply Forall_app. split; [exact Hacc |].
    constructor; [| constructor]. now exists key, x.
  - rewrite length_app. cbn [List.length]. lia.
Qed.

Lemma for_each_plain_shape (data_batch : list value) :
  forall (acc : list value) (self : DataStream.SensorStream),
    Forall is_sensor_record acc ->
    match snd (DataStream.for_each (DataStream.plain_item parse_float)
                 data_batch acc self) with
    | (out, Return l) =>
        out = [] /\ Forall is_sensor_record l
        /\ (List.length l <= List.length acc + List.length data_batch)%nat
    | (out, Raise e) => out = [] /\ exists msg, e = ValueError msg
    end.
Proof.
  induction data_batch as [| item rest IH]; intros acc self Hacc.
  - cbn. repeat split; [exact Hacc | lia].
  - cbn [DataStream.for_each]. unfold mbind.
    pose proof (plain_item_shape item acc self Hacc) as Hitem.
    destruct (DataStream.plain_item parse_float item acc self)
      as [self1 [out [acc' | e]]]; cbn [snd] in Hitem |- *.
    + destruct Hitem as (-> & Hacc' & Hlen).
      specialize (IH acc' self1 Hacc').
      destruct (DataStream.for_each (DataStream.plain_item parse_float)
                  rest acc' self1) as [self2 [out' [l | e]]];
        cbn [snd app List.length] in IH |- *.
      * destruct IH as (-> & Hl & Hlen'). repeat split; [exact Hl | lia].
      * exact IH.
    + exact Hitem.
Qed.

(** X18: whatever the criterion, the sensor filter prints nothing and
    either returns a list of one-field records, each a float under one of
    the keys "temp", "humidity" and "pressure", no longer than the batch,
    or raises a [ValueError]. *)
Theorem sensor_filter_output (data_batch : list value)
  (criteria : option string) (self : DataStream.SensorStream) :
  match snd (DataStream.filter_data parse_float float_gt data_batch criteria
               self) with
  | (out, Return l) =>
      out = [] /\ Forall is_sensor_record l
      /\ (List.length l <= List.length data_batch)%nat
  | (out, Raise e) => out = [] /\ exists msg, e = ValueError msg
  end.
Proof.
  pose proof (for_each_plain_shape data_batch [] self (Forall_nil _)) as H.
  unfold DataStream.filter_data.
  destruct (match criteria with
            | Some c => (c =? "High-priority")%string
            | None => false
            end); [| exact H].
  destruct (for_each_high_vs_plain parse_float float_gt data_batch [] self)
    as [Hsame _].
  rewrite Hsame. exact H.
Qed.

End SensorOutput.

Section SensorBatches.

Variable float_op : string -> value -> value -> IO value.

(** X19: [SensorStream.process_batch] changes the stream in one step: when
    it returns, the stream differs from before by its [operation] field
    only, now the length of the batch; when it raises, on a value that
    cannot be searched, indexed or added, the stream is as before. *)
Theorem sensor_process_batch_atomic (data_batch : list value)
  (self : DataStream.SensorStream) :
  match DataStream.process_batch float_op data_batch self with
  | (self', (out, Return v)) =>
      self' = fst (DataStream.set_operation
                     (Z.of_nat (List.length data_batch)) self)
  | (self', (out, Raise e)) => self' = self
  end.
Proof.
  unfold DataStream.process_batch, mbind, lift, mret.
  destruct (DataStream.collect "temp" data_batch) as [out [temps | e]];
    [| reflexivity].
  destruct (Z.of_nat (List.length temps) =? 0); [reflexivity |].
  destruct (DataStream.py_sum float_op temps) as [out1 [sum_data | e]];
    [| reflexivity].
  destruct (DataStream.truediv float_op sum_data _) as [out2 [avg | e]];
    reflexivity.
Qed.

Lemma collect_absent (key : string) (data_batch : list value) :
  Forall (fun item => exists d, item = VDict d /\ dict_mem key d = false)
    data_batch ->
  DataStream.collect key data_batch = ret [].
Proof.
  intros H. induction H as [| item rest (d & -> & Hd) _ IH]; [reflexivity |].
  cbn [DataStream.collect py_in bind ret app]. now rewrite Hd, IH.
Qed.

(** X20: on a batch of records none of which has a "temp" field, the empty
    batch included, [SensorStream.process_batch] does no arithmetic: it
    records the length of the batch and returns the text "<length> reading
    processed, no temp data". *)
Theorem sensor_process_batch_no_temp (data_batch : list value)
  (self : DataStream.SensorStream) :
  Forall (fun item => exists d, item = VDict d /\ dict_mem "temp" d = false)
    data_batch ->
  let n := Z.of_nat (List.length data_batch) in
  DataStream.process_batch float_op data_batch self
  = (fst (DataStream.set_operation n self),
     ([], Return (VStr (str_of_Z n ++ " reading processed, no temp data")))).
Proof.
  intros H n. subst n. unfold DataStream.process_batch, mbind, lift.
  rewrite (collect_absent _ _ H). reflexivity.
Qed.

End SensorBatches.

Lemma sensor_process_batch_no_temp_witness :
  DataStream.process_batch (fun _ _ _ => ret VNone)
    [VDict [("humidity", VFloat "65.0")]; VDict [("pressure", VFloat "1013.0")]]
    (DataStream.new_stream (VStr "SENSOR_001"))
  = (fst (DataStream.set_operation 2
            (DataStream.new_stream (VStr "SENSOR_001"))),
     ([], Return (VStr "2 reading processed, no temp data"))).
Proof.
  apply (sensor_process_batch_no_temp (fun _ _ _ => ret VNone)
           [VDict [("humidity", VFloat "65.0")];
            VDict [("pressure", VFloat "1013.0")]]).
  repeat constructor; eexists; split; reflexivity.
Defined.

(** ** data_stream.py: the transaction stream *)

Section Transactions.

Variable parse_float : string -> option string.
Variable parse_int : string -> option Z.
Variable float_ge : string -> Z -> bool.
Variable float_gt : string -> Z -> bool.
Variable float_op : string -> value -> value -> IO value.

Lemma collect_int_records (key : string) (entries : list (string * Z)) :
  DataStream.collect key (int_records entries)
  = ret (map VInt (amounts key entries)).
Proof.
  unfold int_records, amounts.
  induction entries as [| [k n] rest IH]; [reflexivity |].
  cbn [map DataStream.collect fst snd filter].
  unfold py_in, py_getitem, getitem, dict_mem. cbn [dict_get].
  destruct (k =? key)%string; cbn [bind ret app map snd]; rewrite IH;
    reflexivity.
Qed.

Lemma sum_from_ints (acc : Z) (l : list Z) :
  DataStream.sum_from float_op (VInt acc) (map VInt l)
  = ret (VInt (acc + fold_right Z.add 0 l)).
Proof.
  revert acc. induction l as [| z l IH]; intros acc.
  - cbn. now rewrite Z.add_0_r.
  - cbn [map DataStream.sum_from DataStream.num_op DataStream.int_of bind ret
           app].
    rewrite IH. cbn [fold_right]. now rewrite Z.add_assoc.
Qed.

Lemma str_of_Z_negative (z : Z) :
  z < 0 -> exists digits, str_of_Z z = "-" ++ digits.
Proof.
  intros H. destruct z as [| p | p]; try lia.
  unfold str_of_Z. cbn. eexists. reflexivity.
Qed.

(** X21: on a batch of one-field integer records, as the transaction filter
    returns them, [TransactionStream.process_batch] records the length of
    the batch and returns "<length> operations, net flow: <sign><net> ",
    where the net flow is the sum of the "buy" fields minus the sum of the
    "sell" fields and the sign is "+" for a positive net flow and "-"
    otherwise: a negative net flow is printed with two minus signs, and the
    text ends with a space, without the word "units". *)
Theorem transaction_process_batch_net_flow (entries : list (string * Z))
  (self : DataStream.TransactionStream.TransactionStream) :
  let n := Z.of_nat (List.length entries) in
  let net := total "buy" entries - total "sell" entries in
  DataStream.TransactionStream.process_batch float_gt float_op
    (int_records entries) self
  = (fst (DataStream.TransactionStream.set_operation n self),
     ([], Return (VStr (str_of_Z n ++ " operations, net flow: "
                          ++ (if 0 <? net then "+" else "-")
                          ++ str_of_Z net ++ " "))))
  /\ (net < 0 ->
      exists digits,
        (if 0 <? net then "+" else "-") ++ str_of_Z net = "--" ++ digits).
Proof.
  intros n net. subst n net. split.
  - unfold DataStream.TransactionStream.process_batch, mbind, lift,
      DataStream.py_sum.
    rewrite !collect_int_records. cbn [ret].
    rewrite !sum_from_ints. unfold total.
    cbn [ret DataStream.num_op DataStream.int_of DataStream.gt_zero app Z.add].
    unfold int_records. rewrite length_map. reflexivity.
  - intros H.
    destruct (Z.ltb_spec 0 (total "buy" entries - total "sell" entries));
      [lia |].
    destruct (str_of_Z_negative _ H) as [digits ->]. now exists digits.
Qed.

Lemma str_split_no_delimiter (c : ascii) (s : string) :
  contains_char c s = false -> str_split c s = [s].
Proof.
  induction s as [| a s IH]; [reflexivity |].
  cbn [contains_char str_split]. intros H.
  apply orb_false_iff in H. destruct H as [Ha Hs].
  rewrite Ha, (IH Hs). reflexivity.
Qed.

Lemma str_split_app (c : ascii) (key rest : string) :
  contains_char c key = false ->
  str_split c (key ++ String c rest) = key :: str_split c rest.
Proof.
  induction key as [| a key IH]; intros H.
  - cbn [append str_split]. now rewrite Ascii.eqb_refl.
  - cbn [contains_char] in H. apply orb_false_iff in H. destruct H as [Ha Hk].
    cbn [append str_split]. rewrite Ha, (IH Hk). reflexivity.
Qed.

(** X22: a "sell" item whose amount reads as a float of 200 or more but
    not as an integer, such as "sell:250.5", makes the transaction filter
    fail with the [ValueError] of [int()] under both criteria; under
    "High-priority" the counter of large transactions has already been
    incremented when the call fails, so the stream is changed by a call
    that returned nothing. *)
Theorem transaction_counter_survives_failure (amount x : string)
  (rest : list value)
  (self : DataStream.TransactionStream.TransactionStream) :
  contains_char ":"%char amount = false ->
  parse_float amount = Some x ->
  float_ge x 200 = true ->
  parse_int amount = None ->
  let failure :=
    ValueError
      ("invalid literal for int() with base 10: " ++ repr_str amount) in
  DataStream.TransactionStream.filter_data parse_float parse_int float_ge
    (VStr ("sell:" ++ amount) :: rest) (Some "High-priority") self
  = (fst (DataStream.TransactionStream.incr_large_transaction self),
     ([], Raise failure))
  /\ DataStream.TransactionStream.filter_data parse_float parse_int float_ge
       (VStr ("sell:" ++ amount) :: rest) None self
     = (self, ([], Raise failure)).
Proof.
  intros Hcolon Hfloat Hge Hint failure. subst failure.
  assert (Hsplit : str_split ":"%char ("sell:" ++ amount) = ["sell"; amount]).
  { change ("sell:" ++ amount) with ("sell" ++ String ":"%char amount).
    rewrite str_split_app by reflexivity.
    now rewrite (str_split_no_delimiter _ _ Hcolon). }
  assert (Hin : contains_char ":"%char ("sell:" ++ amount) = true)
    by reflexivity.
  unfold DataStream.TransactionStream.filter_data.
  change (("High-priority" =? "High-priority")%string) with true. cbv iota.
  split; cbn [DataStream.for_each_item];
    unfold DataStream.TransactionStream.high_priority_item,
      DataStream.TransactionStream.plain_item;
    cbn [isinstance_str as_str andb]; rewrite Hin, Hsplit;
    unfold DataStream.unpack2, mbind, lift, mret, DataStream.float,
      DataStream.TransactionStream.int,
      DataStream.TransactionStream.is_transaction_key;
    repeat first
      [ rewrite Hfloat | rewrite Hge | rewrite Hint
      | progress cbn [ret raise String.eqb Ascii.eqb Bool.eqb orb fst snd app
                        DataStream.TransactionStream.incr_large_transaction]
      ];
    reflexivity.
Qed.

End Transactions.

Lemma transaction_counter_survives_failure_witness :
  DataStream.TransactionStream.filter_data sell_parse_float sell_parse_int
    sell_float_ge [VStr "sell:250.5"; VStr "buy:100"] (Some "High-priority")
    (DataStream.TransactionStream.new_stream (VStr "TRANS_001"))
  = (fst (DataStream.TransactionStream.incr_large_transaction
            (DataStream.TransactionStream.new_stream (VStr "TRANS_001"))),
     ([], Raise (ValueError
                   "invalid literal for int() with base 10: '250.5'"))).
Proof.
  exact (proj1 (transaction_counter_survives_failure sell_parse_float
                  sell_parse_int sell_float_ge "250.5" "250.5"
                  [VStr "buy:100"]
                  (DataStream.TransactionStream.new_stream (VStr "TRANS_001"))
                  eq_refl eq_refl eq_refl eq_refl)).
Defined.

(** ** data_stream.py: the event stream *)

Lemma is_event_name_text (item : value) :
  DataStream.EventStream.is_event_name item = true ->
  isinstance_str item && negb (contains_char ":"%char (as_str item)) = true.
Proof.
  unfold DataStream.EventStream.is_event_name. intros H.
  destruct item as [| b | z | r | s | l | d]; try discriminate H.
  cbn [eq_str] in H. apply orb_true_iff in H. destruct H as [H | H];
    [apply orb_true_iff in H; destruct H as [H | H] |];
    apply String.eqb_eq in H; subst s; reflexivity.
Qed.

Lemma event_for_each (data_batch : list value) :
  forall (acc : list value) (self : DataStream.EventStream.EventStream),
    DataStream.for_each_item DataStream.EventStream.filter_item data_batch
      acc self
    = (self,
       ([], Return (acc ++ filter DataStream.EventStream.is_event_name
                             data_batch)%list)).
Proof.
  induction data_batch as [| item rest IH]; intros acc self.
  - cbn. now rewrite app_nil_r.
  - cbn [DataStream.for_each_item filter]. unfold mbind.
    unfold DataStream.EventStream.filter_item at 1.
    destruct (DataStream.EventStream.is_event_name item) eqn:He.
    + rewrite (is_event_name_text item He). unfold mret, ret.
      rewrite IH. cbn [app]. now rewrite <- app_assoc.
    + destruct (isinstance_str item
                && negb (contains_char ":"%char (as_str item)));
        unfold mret, ret; rewrite IH; reflexivity.
Qed.

Lemma filter_filter_implied {A} (f g : A -> bool) (l : list A) :
  (forall x, f x = true -> g x = true) ->
  filter f (filter g l) = filter f l.
Proof.
  intros H. induction l as [| x l IH]; [reflexivity |].
  cbn [filter]. destruct (g x) eqn:Hg.
  - cbn [filter]. now rewrite IH.
  - destruct (f x) eqn:Hf; [rewrite (H x Hf) in Hg; discriminate | exact IH].
Qed.

(** X23: the event filter never fails and never changes the stream: it
    returns, in their order, the items of the batch that are one of the
    texts "login", "error" and "logout", whatever the criterion, and
    filtering its own result returns it as it is. *)
Theorem event_filter_keeps_events (data_batch : list value)
  (criteria : option string) (self : DataStream.EventStream.EventStream) :
  let kept := filter DataStream.EventStream.is_event_name data_batch in
  DataStream.EventStream.filter_data data_batch criteria self
  = (self, ([], Return kept))
  /\ DataStream.EventStream.filter_data kept criteria self
     = (self, ([], Return kept)).
Proof.
  intros kept. subst kept. unfold DataStream.EventStream.filter_data.
  rewrite !event_for_each. cbn [app].
  rewrite (filter_filter_implied _ _ data_batch (fun x H => H)).
  split; reflexivity.
Qed.

(** X24: processing what the event filter kept records the number of
    events kept and reports, as errors, the number of items of the
    original batch that are the text "error", which is never more than the
    number of events. *)
Theorem event_process_filtered (data_batch : list value)
  (self : DataStream.EventStream.EventStream) :
  let kept := filter DataStream.EventStream.is_event_name data_batch in
  let n := Z.of_nat (List.length kept) in
  let errors :=
    Z.of_nat (List.length (filter (fun item => eq_str item "error")
                             data_batch)) in
  DataStream.EventStream.process_batch kept self
  = (fst (DataStream.EventStream.set_operation n self),
     ([], Return (VStr (str_of_Z n ++ " events, " ++ str_of_Z errors
                          ++ " error detected"))))
  /\ 0 <= errors <= n.
Proof.
  intros kept n errors. subst kept n errors.
  assert (Himp : forall x, eq_str x "error" = true ->
                           DataStream.EventStream.is_event_name x = true).
  { intros x Hx. unfold DataStream.EventStream.is_event_name.
    rewrite Hx. now rewrite orb_true_r. }
  split.
  - unfold DataStream.EventStream.process_batch, mbind.
    rewrite (filter_filter_implied _ _ data_batch Himp). reflexivity.
  - rewrite <- (filter_filter_implied _ _ data_batch Himp).
    pose proof (filter_length_le (fun item => eq_str item "error")
                  (filter DataStream.EventStream.is_event_name data_batch)).
    lia.
Qed.

(** ** data_stream.py: the stream processor *)

Section StreamProcessing.

Variable parse_float : string -> option string.
Variable parse_int : string -> option Z.
Variable float_gt : string -> Z -> bool.
Variable float_ge : string -> Z -> bool.
Variable float_op : string -> value -> value -> IO value.

Lemma same_stream_refl (s : DataStream.stream) : same_stream s s.
Proof. destruct s; cbn; auto. Qed.

Lemma same_stream_trans (a b c : DataStream.stream) :
  same_stream a b -> same_stream b c -> same_stream a c.
Proof.
  destruct a, b, c; cbn; try tauto;
    intros (H1 & H2 & H3) (H4 & H5 & H6); repeat split; congruence.
Qed.

Lemma for_each_item_invariant {S : Type} (R : S -> S -> Prop)
  (body : value -> list value -> method S (list value)) :
  (forall s, R s s) ->
  (forall a b c, R a b -> R b c -> R a c) ->
  (forall item acc self, R self (fst (body item acc self))) ->
  forall data_batch acc self,
    R self (fst (DataStream.for_each_item body data_batch acc self)).
Proof.
  intros Hrefl Htrans Hbody.
  induction data_batch as [| item rest IH]; intros acc self.
  - apply Hrefl.
  - cbn [DataStream.for_each_item]. unfold mbind.
    pose proof (Hbody item acc self) as H1.
    destruct (body item acc self) as [self1 [out [acc' | e]]];
      cbn [fst] in H1 |- *; [| exact H1].
    pose proof (IH acc' self1) as H2.
    destruct (DataStream.for_each_item body rest acc' self1)
      as [self2 [out' r]].
    cbn [fst] in H2 |- *. now apply (Htrans _ self1).
Qed.

Lemma sensor_filter_same (data_batch : list value) (criteria : option string)
  (s : DataStream.SensorStream) :
  same_stream (DataStream.Sensor s)
    (DataStream.Sensor
       (fst (DataStream.filter_data parse_float float_gt data_batch criteria
               s))).
Proof.
  unfold DataStream.filter_data.
  destruct (for_each_high_vs_plain parse_float float_gt data_batch [] s)
    as (_ & Hplain & n & _ & Hhigh & _).
  destruct (match criteria with
            | Some c => (c =? "High-priority")%string
            | None => false
            end).
  - rewrite Hhigh. cbn. auto.
  - rewrite Hplain. cbn. auto.
Qed.

Lemma sensor_batch_same (data_batch : list value)
  (s : DataStream.SensorStream) :
  same_stream (DataStream.Sensor s)
    (DataStream.Sensor
       (fst (DataStream.process_batch float_op data_batch s))).
Proof.
  unfold DataStream.process_batch, mbind, lift, mret.
  destruct (DataStream.collect "temp" data_batch) as [out [temps | e]];
    [| cbn; auto].
  destruct (Z.of_nat (List.length temps) =? 0); [cbn; auto |].
  destruct (DataStream.py_sum float_op temps) as [out1 [sum_data | e]];
    [| cbn; auto].
  destruct (DataStream.truediv float_op sum_data _) as [out2 [avg | e]];
    cbn; auto.
Qed.

Lemma transaction_filter_same (data_batch : list value)
  (criteria : option string)
  (t : DataStream.TransactionStream.TransactionStream) :
  same_stream (DataStream.Transaction t)
    (DataStream.Transaction
       (fst (DataStream.TransactionStream.filter_data parse_float parse_int
               float_ge data_batch criteria t))).
Proof.
  unfold DataStream.TransactionStream.filter_data.
  set (R := fun a b => same_stream (DataStream.Transaction a)
                         (DataStream.Transaction b)).
  assert (Hrefl : forall s, R s s) by (intros; apply same_stream_refl).
  assert (Htrans : forall a b c, R a b -> R b c -> R a c)
    by (intros a b c; apply same_stream_trans).
  destruct (match criteria with
            | Some c => (c =? "High-priority")%string
            | None => false
            end);
    apply (for_each_item_invariant R _ Hrefl Htrans); intros item acc self;
    unfold DataStream.TransactionStream.high_priority_item,
      DataStream.TransactionStream.plain_item, mbind, lift, mret;
    (destruct (isinstance_str item && contains_char ":"%char (as_str item));
     [| apply Hrefl]);
    (destruct (DataStream.unpack2 _) as [out [[key val] | e]];
     [| apply Hrefl]).
  - destruct (key =? "sell")%string.
    + destruct (DataStream.float parse_float val) as [o1 [x | e]];
        [| apply Hrefl].
      destruct (float_ge x 200); cbn [fst snd];
        (destruct (DataStream.TransactionStream.is_transaction_key key);
         [destruct (DataStream.TransactionStream.int parse_int val)
            as [o2 [n | e]] |]);
        cbn; auto.
    + destruct (DataStream.TransactionStream.is_transaction_key key);
        [destruct (DataStream.TransactionStream.int parse_int val)
           as [o2 [n | e]] |];
        cbn; auto.
  - destruct (DataStream.TransactionStream.is_transaction_key key);
      [destruct (DataStream.TransactionStream.int parse_int val)
         as [o2 [n | e]] |];
      cbn; auto.
Qed.

Lemma transaction_batch_same (data_batch : list value)
  (t : DataStream.TransactionStream.TransactionStream) :
  same_stream (DataStream.Transaction t)
    (DataStream.Transaction
       (fst (DataStream.TransactionStream.process_batch float_gt float_op
               data_batch t))).
Proof.
  unfold DataStream.TransactionStream.process_batch, mbind, lift, mret.
  destruct (DataStream.collect "buy" data_batch) as [o1 [buy | e]];
    [| cbn; auto].
  destruct (DataStream.collect "sell" data_batch) as [o2 [sell | e]];
    [| cbn; auto].
  destruct (DataStream.py_sum float_op buy) as [o3 [sum_buy | e]];
    [| cbn; auto].
  destruct (DataStream.py_sum float_op sell) as [o4 [sum_sell | e]];
    [| cbn; auto].
  destruct (DataStream.num_op float_op "-" Z.sub sum_buy sum_sell)
    as [o5 [net | e]]; [| cbn; auto].
  destruct (DataStream.gt_zero float_gt net) as [o6 [positive | e]];
    cbn; auto.
Qed.

Lemma stream_filter_same (data_batch : list value) (criteria : option string)
  (s : DataStream.stream) :
  same_stream s
    (fst (DataStream.stream_filter_data parse_float parse_int float_gt
            float_ge data_batch criteria s)).
Proof.
  destruct s as [s | t | e]; cbn [DataStream.stream_filter_data];
    unfold DataStream.on_stream.
  - pose proof (sensor_filter_same data_batch criteria s) as H.
    destruct (DataStream.filter_data _ _ _ _ s). exact H.
  - pose proof (transaction_filter_same data_batch criteria t) as H.
    destruct (DataStream.TransactionStream.filter_data _ _ _ _ _ t). exact H.
  - unfold DataStream.EventStream.filter_data. rewrite event_for_each.
    cbn. auto.
Qed.

Lemma stream_batch_same (data_batch : list value) (s : DataStream.stream) :
  same_stream s
    (fst (DataStream.stream_process_batch float_gt float_op data_batch s)).
Proof.
  destruct s as [s | t | e]; cbn [DataStream.stream_process_batch];
    unfold DataStream.on_stream.
  - pose proof (sensor_batch_same data_batch s) as H.
    destruct (DataStream.process_batch _ _ s). exact H.
  - pose proof (transaction_batch_same data_batch t) as H.
    destruct (DataStream.TransactionStream.process_batch _ _ _ t). exact H.
  - cbn. auto.
Qed.

Lemma process_stream_snapshot (data_batch : list value)
  (criteria : option string) (s : DataStream.stream) :
  let run := DataStream.process_stream parse_float parse_int float_gt float_ge
               float_op data_batch criteria s in
  same_stream s (fst run)
  /\ forall stats,
       result (snd run) = Return stats ->
       stats = DataStream.stream_get_stats (fst run).
Proof.
  cbv zeta. unfold DataStream.process_stream, mbind, mret.
  pose proof (stream_filter_same data_batch criteria s) as H1.
  destruct (DataStream.stream_filter_data _ _ _ _ _ _ s)
    as [s1 [o1 [filtered | e]]]; cbn [fst snd] in H1 |- *.
  2: { split; [exact H1 | discriminate]. }
  pose proof (stream_batch_same filtered s1) as H2.
  destruct (DataStream.stream_process_batch _ _ _ s1)
    as [s2 [o2 [text | e]]]; cbn [fst snd result ret] in H2 |- *.
  - split; [now apply (same_stream_trans _ s1) |].
    intros stats H. now injection H as <-.
  - split; [now apply (same_stream_trans _ s1) | discriminate].
Qed.

#[local] Abbreviation run_streams_from :=
  (DataStream.process_streams_from parse_float parse_int float_gt float_ge
     float_op).

#[local] Abbreviation run_stream :=
  (DataStream.process_stream parse_float parse_int float_gt float_ge
     float_op).

Lemma heap_set_same (h : DataStream.heap) (r : DataStream.ref)
  (s : DataStream.stream) :
  DataStream.heap_set h r s r = s.
Proof. unfold DataStream.heap_set. now rewrite Nat.eqb_refl. Qed.

Lemma heap_set_other (h : DataStream.heap) (r r' : DataStream.ref)
  (s : DataStream.stream) :
  r' <> r -> DataStream.heap_set h r s r' = h r'.
Proof.
  intros H. unfold DataStream.heap_set.
  destruct (Nat.eqb_spec r' r); [contradiction | reflexivity].
Qed.

(** One turn of the loop: the store changes at the address of the stream
    only, and the record appended is the statistics of that object as the
    turn leaves it. *)
Lemma at_ref_process_stream (data_batch : list value)
  (criteria : option string) (r : DataStream.ref) (h : DataStream.heap) :
  exists s' out res,
    DataStream.at_ref r (run_stream data_batch criteria) h
    = (DataStream.heap_set h r s', (out, res))
    /\ same_stream (h r) s'
    /\ forall stats,
         res = Return stats -> stats = DataStream.stream_get_stats s'.
Proof.
  unfold DataStream.at_ref.
  pose proof (process_stream_snapshot data_batch criteria (h r)) as H.
  cbv zeta in H.
  destruct (run_stream data_batch criteria (h r)) as [s' [out res]].
  cbn [fst snd result] in H. destruct H as [Hsame Hstats].
  exists s', out, res. repeat split; assumption.
Qed.

(** The objects keep their class, identifier, category and type label. *)
Lemma process_streams_from_same (streams : list DataStream.ref)
  (data_batch : list value) (criteria : option string) :
  forall results h r,
    same_stream (h r)
      (fst (run_streams_from streams data_batch criteria results h) r).
Proof.
  induction streams as [| s rest IH]; intros results h r.
  - apply same_stream_refl.
  - cbn [DataStream.process_streams_from]. unfold mbind.
    destruct (at_ref_process_stream data_batch criteria s h)
      as (s' & out & res & -> & Hsame & _).
    assert (H1 : same_stream (h r) (DataStream.heap_set h s s' r)).
    { unfold DataStream.heap_set. destruct (Nat.eqb_spec r s) as [-> |].
      - exact Hsame.
      - apply same_stream_refl. }
    destruct res as [stats | e]; [| exact H1].
    specialize (IH (results ++ [stats])%list (DataStream.heap_set h s s') r).
    destruct (run_streams_from rest _ _ _ _) as [h' [out' r']].
    cbn [fst] in IH |- *. now apply (same_stream_trans _ _ _ H1).
Qed.

(** An object that is not listed is not touched. *)
Lemma process_streams_from_untouched (streams : list DataStream.ref)
  (data_batch : list value) (criteria : option string) :
  forall results h r,
    ~ In r streams ->
    fst (run_streams_from streams data_batch criteria results h) r = h r.
Proof.
  induction streams as [| s rest IH]; intros results h r Hnot.
  - reflexivity.
  - cbn [DataStream.process_streams_from]. unfold mbind.
    destruct (at_ref_process_stream data_batch criteria s h)
      as (s' & out & res & -> & _ & _).
    assert (H1 : DataStream.heap_set h s s' r = h r).
    { apply heap_set_other. intros ->. apply Hnot. now left. }
    destruct res as [stats | e]; [| exact H1].
    specialize (IH (results ++ [stats])%list (DataStream.heap_set h s s') r).
    destruct (run_streams_from rest _ _ _ _) as [h' [out' r']].
    cbn [fst] in IH |- *. rewrite IH; [exact H1 |].
    intros Hin. apply Hnot. now right.
Qed.

(** The loop over two lists of references, one after the other. *)
Lemma process_streams_from_app (before after : list DataStream.ref)
  (data_batch : list value) (criteria : option string) :
  forall results h,
    run_streams_from (before ++ after) data_batch criteria results h
    = mbind (run_streams_from before data_batch criteria results)
        (run_streams_from after data_batch criteria) h.
Proof.
  induction before as [| s rest IH]; intros results h.
  - cbn [app DataStream.process_streams_from]. unfold mbind, mret, ret.
    destruct (run_streams_from after _ _ _ _) as [h' [out r]]. reflexivity.
  - cbn [app DataStream.process_streams_from]. unfold mbind.
    destruct (DataStream.at_ref s _ h) as [h1 [out [stats | e]]];
      [| reflexivity].
    rewrite IH. unfold mbind.
    destruct (run_streams_from rest _ _ _ h1) as [h2 [out2 [res2 | e]]];
      [| reflexivity].
    destruct (run_streams_from after _ _ _ h2) as [h3 [out3 r3]].
    now rewrite app_assoc.
Qed.

(** The records are appended to the list, one for each turn. *)
Lemma process_streams_from_results (streams : list DataStream.ref)
  (data_batch : list value) (criteria : option string) :
  forall results h h' out all,
    run_streams_from streams data_batch criteria results h
    = (h', (out, Return all)) ->
    exists new,
      all = (results ++ new)%list
      /\ List.length new = List.length streams.
Proof.
  induction streams as [| s rest IH]; intros results h h' out all Hrun.
  - cbn in Hrun. injection Hrun as <- <- <-. exists [].
    now rewrite app_nil_r.
  - cbn [DataStream.process_streams_from] in Hrun. unfold mbind in Hrun.
    destruct (DataStream.at_ref s _ h) as [h1 [out1 [stats | e]]];
      [| discriminate].
    destruct (run_streams_from rest _ _ _ h1) as [h2 [out2 r2]] eqn:Hrest.
    injection Hrun as <- <- ->.
    destruct (IH _ _ _ _ _ Hrest) as (new & -> & Hlen).
    exists (stats :: new). rewrite <- app_assoc. cbn [app List.length].
    now rewrite Hlen.
Qed.

(** The last record of a run is the statistics of the last stream listed,
    as the run leaves it. *)
Lemma process_streams_from_last (before : list DataStream.ref)
  (r : DataStream.ref) (data_batch : list value) (criteria : option string) :
  forall results h h' out all,
    run_streams_from (before ++ [r]) data_batch criteria results h
    = (h', (out, Return all)) ->
    exists front,
      all = (front ++ [DataStream.stream_get_stats (h' r)])%list
      /\ List.length front
         = (List.length results + List.length before)%nat.
Proof.
  intros results h h' out all Hrun.
  rewrite process_streams_from_app in Hrun. unfold mbind in Hrun.
  destruct (run_streams_from before _ _ _ h) as [h1 [out1 [res1 | e]]]
    eqn:Hbefore; [| discriminate].
  destruct (process_streams_from_results _ _ _ _ _ _ _ _ Hbefore)
    as (new & -> & Hlen).
  cbn [DataStream.process_streams_from] in Hrun. unfold mbind, mret in Hrun.
  destruct (at_ref_process_stream data_batch criteria r h1)
    as (s' & out2 & res & Hat & _ & Hstats).
  rewrite Hat in Hrun. destruct res as [stats |]; [| discriminate].
  cbn [ret] in Hrun. injection Hrun as <- <- <-.
  rewrite heap_set_same, <- (Hstats stats eq_refl).
  exists (results ++ new)%list. split; [reflexivity |].
  now rewrite length_app, Hlen.
Qed.

(** When no object is listed twice, the records are the statistics of the
    objects after the call. *)
Lemma process_streams_from_distinct (streams : list DataStream.ref)
  (data_batch : list value) (criteria : option string) :
  forall results h h' out all,
    NoDup streams ->
    run_streams_from streams data_batch criteria results h
    = (h', (out, Return all)) ->
    all = (results ++ stats_of h' streams)%list.
Proof.
  induction streams as [| s rest IH]; intros results h h' out all Hnd Hrun.
  - cbn in Hrun. injection Hrun as <- <- <-. cbn. now rewrite app_nil_r.
  - inversion Hnd as [| ? ? Hnot Hnd']; subst.
    cbn [DataStream.process_streams_from] in Hrun. unfold mbind in Hrun.
    destruct (at_ref_process_stream data_batch criteria s h)
      as (s' & out1 & res & Hat & _ & Hstats).
    rewrite Hat in Hrun. destruct res as [stats |]; [| discriminate].
    pose proof (process_streams_from_untouched rest data_batch criteria
                  (results ++ [stats])%list (DataStream.heap_set h s s') s
                  Hnot) as Hkeep.
    destruct (run_streams_from rest _ _ _ _) as [h2 [out2 r2]] eqn:Hrest.
    injection Hrun as <- <- ->. cbn [fst] in Hkeep.
    rewrite (IH _ _ _ _ _ Hnd' Hrest). unfold stats_of. cbn [map].
    rewrite Hkeep, heap_set_same, <- (Hstats stats eq_refl).
    now rewrite <- app_assoc.
Qed.

(** X25: [process_streams] works on the stream objects themselves.  Every
    object of the store keeps its class, identifier, category and type
    label, and an object that is not listed is not touched, whether the
    call returns or raises.  When it returns, its result holds one
    statistics record per listed reference, in order; the record of a
    stream is the [get_stats] of its object at the end of that stream's
    turn, so that a later turn of the same object does not show in it; and
    when no object is listed twice the result is the [get_stats] of the
    listed objects after the call. *)
Theorem process_streams_snapshot (streams : list DataStream.ref)
  (data_batch : list value) (criteria : option string)
  (h : DataStream.heap) :
  let process_streams :=
    DataStream.process_streams parse_float parse_int float_gt float_ge
      float_op in
  let run := process_streams streams data_batch criteria h in
  (forall r, same_stream (h r) (fst run r))
  /\ (forall r, ~ In r streams -> fst run r = h r)
  /\ forall results,
       result (snd run) = Return results ->
       List.length results = List.length streams
       /\ (forall before r after,
              streams = (before ++ r :: after)%list ->
              nth_error results (List.length before)
              = Some (DataStream.stream_get_stats
                        (fst (process_streams (before ++ [r])%list data_batch
                                criteria h) r)))
       /\ (NoDup streams -> results = stats_of (fst run) streams).
Proof.
  cbv zeta. unfold DataStream.process_streams.
  split; [| split].
  - intros r. apply process_streams_from_same.
  - intros r. apply process_streams_from_untouched.
  - intros results Hres.
    destruct (run_streams_from streams data_batch criteria [] h)
      as [h' [out res]] eqn:Hrun.
    cbn [fst snd result] in Hres |- *. subst res.
    split; [| split].
    + destruct (process_streams_from_results _ _ _ _ _ _ _ _ Hrun)
        as (new & -> & Hlen). exact Hlen.
    + intros before r after ->.
      replace (before ++ r :: after)%list
        with ((before ++ [r]) ++ after)%list in Hrun
        by now rewrite <- app_assoc.
      rewrite process_streams_from_app in Hrun. unfold mbind in Hrun.
      destruct (run_streams_from (before ++ [r]) _ _ _ h)
        as [h1 [out1 [res1 | e]]] eqn:Hfirst; [| discriminate].
      destruct (run_streams_from after _ _ _ h1) as [h2 [out2 r2]] eqn:Hrest.
      injection Hrun as <- <- ->.
      destruct (process_streams_from_last _ _ _ _ _ _ _ _ _ Hfirst)
        as (front & -> & Hlen).
      destruct (process_streams_from_results _ _ _ _ _ _ _ _ Hrest)
        as (new & -> & _).
      cbn [fst List.length Nat.add] in Hlen |- *.
      rewrite <- app_assoc, nth_error_app2 by lia.
      rewrite Hlen, Nat.sub_diag. reflexivity.
    + intros Hnd.
      exact (process_streams_from_distinct _ _ _ _ _ _ _ _ Hnd Hrun).
Qed.

End StreamProcessing.

Section TransactionCriteria.

Variable parse_float : string -> option string.
Variable parse_int : string -> option Z.
Variable float_ge : string -> Z -> bool.

Lemma transaction_item_agree (item : value) (acc : list value)
  (s s' : DataStream.TransactionStream.TransactionStream) :
  forall acc',
    result (snd (DataStream.TransactionStream.high_priority_item parse_float
                   parse_int float_ge item acc s)) = Return acc' ->
    snd (DataStream.TransactionStream.plain_item parse_int item acc s')
    = ([], Return acc').
Proof.
  intros acc'.
  unfold DataStream.TransactionStream.high_priority_item,
    DataStream.TransactionStream.plain_item.
  destruct (isinstance_str item && contains_char ":"%char (as_str item)).
  2: { cbn. intros H. now injection H as <-. }
  unfold DataStream.unpack2.
  destruct (str_split ":"%char (as_str item)) as [| key [| val [| x rest]]];
    try (cbn; discriminate).
  assert (Hint : forall out r,
             DataStream.TransactionStream.int parse_int val = (out, r) ->
             out = []).
  { unfold DataStream.TransactionStream.int.
    destruct (parse_int val); intros out r H; now injection H as <- _. }
  unfold mbind, lift, mret. cbn [ret]. cbv beta iota.
  destruct (key =? "sell")%string.
  - destruct (DataStream.float parse_float val) as [o1 [x | e]];
      [| cbn; discriminate].
    destruct (float_ge x 200); cbn [fst snd];
      (destruct (DataStream.TransactionStream.is_transaction_key key);
       [pose proof (Hint) as Hout;
        destruct (DataStream.TransactionStream.int parse_int val)
          as [o2 [n | e]]; rewrite (Hout _ _ eq_refl) |]);
      cbn; try discriminate; intros H; now injection H as <-.
  - destruct (DataStream.TransactionStream.is_transaction_key key);
      [pose proof (Hint) as Hout;
       destruct (DataStream.TransactionStream.int parse_int val)
         as [o2 [n | e]]; rewrite (Hout _ _ eq_refl) |];
      cbn; try discriminate; intros H; now injection H as <-.
Qed.

Lemma transaction_for_each_agree (data_batch : list value) :
  forall (acc l : list value)
         (s s' : DataStream.TransactionStream.TransactionStream),
    result (snd (DataStream.for_each_item
                   (DataStream.TransactionStream.high_priority_item
                      parse_float parse_int float_ge)
                   data_batch acc s)) = Return l ->
    snd (DataStream.for_each_item
           (DataStream.TransactionStream.plain_item parse_int)
           data_batch acc s')
    = ([], Return l).
Proof.
  induction data_batch as [| item rest IH]; intros acc l s s'.
  - cbn. intros H. now injection H as <-.
  - cbn [DataStream.for_each_item]. unfold mbind.
    pose proof (transaction_item_agree item acc s s') as Hitem.
    destruct (DataStream.TransactionStream.high_priority_item _ _ _ item acc s)
      as [s1 [o1 [acc1 | e]]]; cbn [snd result] in Hitem |- *;
      [| discriminate].
    specialize (Hitem acc1 eq_refl).
    destruct (DataStream.TransactionStream.plain_item parse_int item acc s')
      as [s2 [o2 r2]]. cbn [snd] in Hitem. injection Hitem as -> ->.
    specialize (IH acc1 l s1 s2).
    destruct (DataStream.for_each_item
                (DataStream.TransactionStream.high_priority_item _ _ _)
                rest acc1 s1) as [s3 [o3 r3]].
    cbn [snd result] in IH |- *. intros H. specialize (IH H).
    destruct (DataStream.for_each_item
                (DataStream.TransactionStream.plain_item parse_int)
                rest acc1 s2) as [s4 [o4 r4]].
    cbn [snd] in IH |- *. now injection IH as -> ->.
Qed.

(** X26: when the transaction filter returns a list under "High-priority",
    it returns the same list without a criterion, from any state of the
    stream: the criterion selects nothing, it only counts (and can only
    add failures, those of [float()] on a "sell" amount). *)
Theorem transaction_criterion_selects_nothing (data_batch l : list value)
  (s s' : DataStream.TransactionStream.TransactionStream) :
  result (snd (DataStream.TransactionStream.filter_data parse_float parse_int
                 float_ge data_batch (Some "High-priority") s)) = Return l ->
  snd (DataStream.TransactionStream.filter_data parse_float parse_int float_ge
         data_batch None s')
  = ([], Return l).
Proof.
  unfold DataStream.TransactionStream.filter_data.
  change (("High-priority" =? "High-priority")%string) with true. cbv iota.
  apply transaction_for_each_agree.
Qed.

End TransactionCriteria.

Lemma transaction_criterion_selects_nothing_witness :
  snd (DataStream.TransactionStream.filter_data sell_parse_float sell_parse_int
         sell_float_ge [VStr "sell:200"; VStr "login"] None
         (DataStream.TransactionStream.new_stream (VStr "TRANS_001")))
  = ([], Return [VDict [("sell", VInt 200)]]).
Proof.
  exact (transaction_criterion_selects_nothing sell_parse_float sell_parse_int
           sell_float_ge [VStr "sell:200"; VStr "login"]
           [VDict [("sell", VInt 200)]]
           (DataStream.TransactionStream.new_stream (VStr "TRANS_002"))
           (DataStream.TransactionStream.new_stream (VStr "TRANS_001"))
           eq_refl).
Defined.

(** The first batch of [main]: the three sensor readings are kept, as
    floats. *)
Lemma sensor_filter_output_witness :
  let run :=
    DataStream.filter_data batch1_parse_float sample_float_gt data_batch1 None
      (DataStream.new_stream (VStr "SENSOR_001")) in
  snd run
  = ([], Return [VDict [("temp", VFloat "22.5")];
                 VDict [("humidity", VFloat "65.0")];
                 VDict [("pressure", VFloat "1013.0")]])
  /\ match snd run with
     | (out, Return l) =>
         out = [] /\ Forall is_sensor_record l
         /\ (List.length l <= List.length data_batch1)%nat
     | (out, Raise e) => out = [] /\ exists msg, e = ValueError msg
     end.
Proof.
  intros run. split; [reflexivity |].
  exact (sensor_filter_output batch1_parse_float sample_float_gt data_batch1
           None (DataStream.new_stream (VStr "SENSOR_001"))).
Defined.

(** A net flow of 100 - 150: the text shows two minus signs. *)
Lemma transaction_process_batch_net_flow_witness :
  DataStream.TransactionStream.process_batch sample_float_gt batch2_float_op
    [VDict [("buy", VInt 100)]; VDict [("sell", VInt 150)]]
    (DataStream.TransactionStream.new_stream (VStr "TRANS_001"))
  = (fst (DataStream.TransactionStream.set_operation 2
            (DataStream.TransactionStream.new_stream (VStr "TRANS_001"))),
     ([], Return (VStr "2 operations, net flow: --50 "))).
Proof.
  exact (proj1 (transaction_process_batch_net_flow sample_float_gt
                  batch2_float_op [("buy", 100); ("sell", 150)]
                  (DataStream.TransactionStream.new_stream
                     (VStr "TRANS_001")))).
Defined.

(** The second batch of [main] under "High-priority", on its three
    streams: the statistics records that [main] prints from are those of
    the three objects after the call. *)
Lemma process_streams_snapshot_witness :
  let run :=
    DataStream.process_streams batch2_parse_float batch2_parse_int
      sample_float_gt batch2_float_ge batch2_float_op [0; 1; 2]%nat
      data_batch2 (Some "High-priority") main_heap in
  let stats :=
    [VDict [("operation", VInt 2); ("type", VStr "readings");
            ("categorie", VStr "Sensor data"); ("criteria_sensor", VInt 2)];
     VDict [("categorie", VStr "Transaction data"); ("operation", VInt 4);
            ("type", VStr "operations"); ("large", VInt 1)];
     VDict [("categorie", VStr "Event data"); ("operation", VInt 3);
            ("type", VStr "events")]] in
  snd run = ([], Return stats)
  /\ NoDup [0; 1; 2]%nat
  /\ stats = stats_of (fst run) [0; 1; 2]%nat.
Proof.
  intros run stats.
  assert (Hnd : NoDup [0; 1; 2]%nat)
    by (repeat constructor; cbn; intuition discriminate).
  split; [reflexivity |]. split; [exact Hnd |].
  exact (proj2 (proj2 (proj2 (proj2 (process_streams_snapshot
                                       batch2_parse_float batch2_parse_int
                                       sample_float_gt batch2_float_ge
                                       batch2_float_op [0; 1; 2]%nat
                                       data_batch2 (Some "High-priority")
                                       main_heap))
                         stats eq_refl))
           Hnd).
Defined.

(** One sensor stream listed twice: the second turn goes on from the
    counter that the first turn left, and the first record keeps the
    count it was taken with. *)
Lemma process_streams_same_object_twice :
  let run :=
    DataStream.process_streams batch2_parse_float batch2_parse_int
      sample_float_gt batch2_float_ge batch2_float_op [0; 0]%nat
      data_batch2 (Some "High-priority") main_heap in
  snd run
  = ([], Return [VDict [("operation", VInt 2); ("type", VStr "readings");
                        ("categorie", VStr "Sensor data");
                        ("criteria_sensor", VInt 2)];
                 VDict [("operation", VInt 2); ("type", VStr "readings");
                        ("categorie", VStr "Sensor data");
                        ("criteria_sensor", VInt 4)]])
  /\ DataStream.stream_get_stats (fst run 0%nat)
     = VDict [("operation", VInt 2); ("type", VStr "readings");
              ("categorie", VStr "Sensor data"); ("criteria_sensor", VInt 4)].
Proof. split; reflexivity. Qed.
